(** * Arter_i_avverkning: species observations crossed with logging areas

    A shallow embedding of [src/Arter_i_avverkning.py] and the properties of
    its four stages: [load_observations], [load_filtered_logging],
    [run_spatial_analysis] and [describe_and_save], chained by the script's
    [__main__] block.

    Conventions of the embedding:
    - a pandas row is an index label together with a finite map from column
      names to cells; a frame is a column list and a list of rows;
    - numbers of the tables (floats in Python) are rationals, a missing
      value (NaN, NaT, None) is the cell [CNaN];
    - shapely and the text parsers of pandas are interfaces
      ([Geometry], [Parsing]); the code is modelled over any instance;
    - the file system, the console and the object heap form the [World]
      threaded through the [Run] monad; a Python exception is an [Exc]. *)

From Stdlib Require Import ZArith QArith Lia Lqa String List.
From stdpp Require Import base option list strings gmap.

Local Open Scope string_scope.
Local Open Scope list_scope.
Local Open Scope Z_scope.

(** ** Cells, rows and frames *)

Record Timestamp := { ts_year : Z; ts_month : Z; ts_day : Z }.

Inductive cell :=
| CNum (q : Q)
| CStr (s : string)
| CTime (t : Timestamp)
| CNaN.

Record Row := { row_index : Z; row_cells : gmap string cell }.

Record DataFrame := { df_columns : list string; df_rows : list Row }.

(** Reading a column that the row does not carry gives a missing value. *)
Definition get_cell (c : string) (cells : gmap string cell) : cell :=
  default CNaN (cells !! c).

(** ** Interfaces of the external libraries *)

(** The geometry engine (shapely behind geopandas). *)
Class Geometry := {
  Geom : Type;
  BBox : Type;
  points_from_xy : Q -> Q -> Geom;
  buffer : Geom -> Q -> Geom;
  within : Geom -> Geom -> bool;
  intersects : Geom -> Geom -> bool;
  union_all : list Geom -> Geom;
  convex_hull : Geom -> Geom;
  total_bounds : list Geom -> BBox;
  bbox_hit : BBox -> Geom -> bool;
  reproject : string -> string -> Geom -> Geom
}.

(** The text conversions of pandas ([to_numeric], [to_datetime],
    [astype(str)]). *)
Class Parsing := {
  parse_numeric : string -> option Q;
  parse_datetime : string -> option Timestamp;
  datetime_of_number : Q -> option Timestamp;
  repr_number : Q -> string;
  repr_datetime : Timestamp -> string
}.

(** A geometry is covered by its own 50-unit buffer: whatever lies within an
    area has a buffer that meets the area. *)
Definition buffer_covers (G : Geometry) : Prop :=
  forall p a : Geom, within p a = true -> intersects (buffer p 50) a = true.

Section Program.

Context {G : Geometry} {P : Parsing}.

Record GeoRow := { index : Z; cells : gmap string cell; geometry : Geom }.

Record GeoDataFrame := {
  columns : list string;
  crs : string;
  rows : list GeoRow
}.

(** ** pandas primitives *)

(** [pd.to_numeric(..., errors='coerce')] on one value. *)
Definition to_numeric (c : cell) : cell :=
  match c with
  | CNum q => CNum q
  | CStr s => match parse_numeric s with Some q => CNum q | None => CNaN end
  | CTime _ => CNaN
  | CNaN => CNaN
  end.

(** [pd.to_datetime(..., errors='coerce')] on one value. *)
Definition to_datetime (c : cell) : cell :=
  match c with
  | CTime t => CTime t
  | CStr s => match parse_datetime s with Some t => CTime t | None => CNaN end
  | CNum q => match datetime_of_number q with Some t => CTime t | None => CNaN end
  | CNaN => CNaN
  end.

(** [series <= bound]: a comparison with a missing value is false. *)
Definition cell_le (c : cell) (bound : Q) : bool :=
  match c with
  | CNum q => Qle_bool q bound
  | _ => false
  end.

(** [series.dt.year >= y]: the year of a missing date is missing, and the
    comparison is then false. *)
Definition year_ge (c : cell) (y : Z) : bool :=
  match c with
  | CTime t => y <=? ts_year t
  | _ => false
  end.

Definition isna (c : cell) : bool :=
  match c with CNaN => true | _ => false end.

Definition in_columns (c : string) (cols : list string) : bool :=
  bool_decide (c ∈ cols).

(** ** The world: files, console, object heap *)

Inductive Exc :=
| SystemExit
| KeyError (column : string)
| ValueError
| ZeroDivisionError
| FileNotFoundError (path : string)
| ReferenceError
| OSError (path : string).

(** [except Exception] catches everything but [SystemExit]. *)
Definition is_Exception (e : Exc) : bool :=
  match e with SystemExit => false | _ => true end.

(** The console lines of the script, one constructor per [print]. *)
Inductive Msg :=
| MsgObsFromCache (name : string)
| MsgReadingDir
| MsgNoFiles
| MsgReadingFile (name : string)
| MsgObsCacheCreated (n : nat)
| MsgObsCacheWarning (e : Exc)
| MsgLayerFromCache (key : string)
| MsgFilteringBBox (filename : string)
| MsgRemovedOld (diff : nat) (key : string) (start_year : Z)
| MsgMatching (n : nat) (key : string)
| MsgHeader (obs_min obs_max : Z)
| MsgLayerStats (key : string) (n_inuti n_nara areas_inuti areas_nara_only
                  affected total : nat) (andel : Q)
| MsgTotals (affected total : nat) (andel : Q).

Record ExcelFile := { f_name : string; f_sheet : DataFrame }.

Record World := {
  xlsx_files : list ExcelFile;
  parquet : gmap string GeoDataFrame;
  gpkg : gmap string GeoDataFrame;
  unwritable : list string;
  stdout : list Msg;
  heap : list GeoDataFrame;
  workbook : list (string * GeoDataFrame)
}.

Definition set_parquet (f : gmap string GeoDataFrame -> gmap string GeoDataFrame)
    (w : World) : World :=
  {| xlsx_files := xlsx_files w; parquet := f (parquet w); gpkg := gpkg w;
     unwritable := unwritable w; stdout := stdout w; heap := heap w;
     workbook := workbook w |}.

Definition set_stdout (f : list Msg -> list Msg) (w : World) : World :=
  {| xlsx_files := xlsx_files w; parquet := parquet w; gpkg := gpkg w;
     unwritable := unwritable w; stdout := f (stdout w); heap := heap w;
     workbook := workbook w |}.

Definition set_heap (f : list GeoDataFrame -> list GeoDataFrame) (w : World) : World :=
  {| xlsx_files := xlsx_files w; parquet := parquet w; gpkg := gpkg w;
     unwritable := unwritable w; stdout := stdout w; heap := f (heap w);
     workbook := workbook w |}.

Definition set_workbook (sheets : list (string * GeoDataFrame)) (w : World) : World :=
  {| xlsx_files := xlsx_files w; parquet := parquet w; gpkg := gpkg w;
     unwritable := unwritable w; stdout := stdout w; heap := heap w;
     workbook := sheets |}.

Definition Run (A : Type) : Type := World -> (Exc + A) * World.

Global Instance run_ret : MRet Run := fun A x w => (inr x, w).

Global Instance run_bind : MBind Run := fun A B k m w =>
  match m w with
  | (inr x, w') => k x w'
  | (inl e, w') => (inl e, w')
  end.

Definition raise {A} (e : Exc) : Run A := fun w => (inl e, w).

Definition get_world : Run World := fun w => (inr w, w).

Definition print (m : Msg) : Run unit := fun w =>
  (inr tt, set_stdout (fun out => out ++ [m]) w).

(** [try: body except Exception as e: handler(e)] *)
Definition try_except {A} (body : Run A) (handler : Exc -> Run A) : Run A :=
  fun w =>
    match body w with
    | (inl e, w') => if is_Exception e then handler e w' else (inl e, w')
    | ok => ok
    end.

(** [path.exists()] and [gpd.read_parquet(path)] *)
Definition path_exists (path : string) : Run bool := fun w =>
  (inr (bool_decide (is_Some (parquet w !! path))), w).

Definition read_parquet (path : string) : Run GeoDataFrame := fun w =>
  match parquet w !! path with
  | Some g => (inr g, w)
  | None => (inl (FileNotFoundError path), w)
  end.

(** [gdf.to_parquet(path)]: raises where the path cannot be written. *)
Definition to_parquet (g : GeoDataFrame) (path : string) : Run unit := fun w =>
  if bool_decide (path ∈ unwritable w) then (inl (OSError path), w)
  else (inr tt, set_parquet (insert path g) w).

(** ** Configuration *)

Record Config := {
  cache_obs : string;
  cache_layers : list (string * string);
  output_file : string;
  layers : list (string * string);
  keep_cols : list string;
  cfg_crs : string
}.

Definition get_config : Config := {|
  cache_obs := "Art_cache.parquet";
  cache_layers := [("utford", "utford_cache.parquet");
                   ("anmald", "anmald_cache.parquet")];
  output_file := "Art_analys_resultat.xlsx";
  layers := [("utford", "sksUtfordAvverk.gpkg");
             ("anmald", "sksAvverkAnm.gpkg")];
  keep_cols := ["Rödlistade"; "Artnamn"; "Vetenskapligt namn"; "Antal"; "Enhet";
                "Huvudlokal"; "Lokalnamn"; "Ost"; "Nord"; "Noggrannhet";
                "Diffusion"; "Startdatum"; "Starttid"; "Publik kommentar";
                "Rapportör"; "Observatörer"; "Län"];
  cfg_crs := "EPSG:3006"
|}.

(** A Python dict with insertion order. *)
Fixpoint dict_get {V} (k : string) (d : list (string * V)) : option V :=
  match d with
  | [] => None
  | (k', v) :: d' => if bool_decide (k = k') then Some v else dict_get k d'
  end.

(** ** Observation Loader *)

(** [df[cols]] *)
Definition select_columns (cols : list string) (df : DataFrame) : DataFrame :=
  {| df_columns := cols;
     df_rows := map (fun r =>
       {| row_index := row_index r;
          row_cells := filter (fun kv => kv.1 ∈ cols) (row_cells r) |})
       (df_rows df) |}.

(** [df[c] = f(df[c])] *)
Definition map_column (c : string) (f : cell -> cell) (df : DataFrame) : DataFrame :=
  {| df_columns := if in_columns c (df_columns df) then df_columns df
                   else df_columns df ++ [c];
     df_rows := map (fun r =>
       {| row_index := row_index r;
          row_cells := <[c := f (get_cell c (row_cells r))]> (row_cells r) |})
       (df_rows df) |}.

(** [df[mask]] with the mask computed row by row *)
Definition filter_rows (keep : Row -> bool) (df : DataFrame) : DataFrame :=
  {| df_columns := df_columns df; df_rows := List.filter keep (df_rows df) |}.

(** [df.dropna(subset=cols)] *)
Definition dropna (subset : list string) (df : DataFrame) : DataFrame :=
  filter_rows
    (fun r => forallb (fun c => negb (isna (get_cell c (row_cells r)))) subset) df.

(** Lines 75-79: the accuracy filter, applied when the column is there. *)
Definition accuracy_filter (df : DataFrame) : DataFrame :=
  if in_columns "Noggrannhet" (df_columns df) then
    let df := map_column "Noggrannhet" to_numeric df in
    filter_rows (fun r => cell_le (get_cell "Noggrannhet" (row_cells r)) 50) df
  else df.

Definition antal_to_numeric (df : DataFrame) : DataFrame :=
  if in_columns "Antal" (df_columns df) then map_column "Antal" to_numeric df
  else df.

(** [df[c]] raises [KeyError] when the column is absent. *)
Definition require_column (c : string) (cols : list string) : Run unit :=
  if in_columns c cols then mret tt else raise (KeyError c).

(** The body of the loop over the input files (lines 64-88). *)
Definition clean_file (cfg : Config) (f : ExcelFile) : Run DataFrame :=
  print (MsgReadingFile (f_name f));;
  let df := f_sheet f in
  let valid_cols := List.filter (fun c => in_columns c (df_columns df)) (keep_cols cfg) in
  let df := select_columns valid_cols df in
  require_column "Ost" (df_columns df);;
  let df := map_column "Ost" to_numeric df in
  require_column "Nord" (df_columns df);;
  let df := map_column "Nord" to_numeric df in
  let df := accuracy_filter df in
  let df := antal_to_numeric df in
  let df := dropna ["Ost"; "Nord"] df in
  let df := map_column "Källa" (fun _ => CStr (f_name f)) df in
  mret df.

Fixpoint clean_files (cfg : Config) (fs : list ExcelFile) : Run (list DataFrame) :=
  match fs with
  | [] => mret []
  | f :: fs' =>
      df ← clean_file cfg f;
      dfs ← clean_files cfg fs';
      mret (df :: dfs)
  end.

Fixpoint union_columns (acc : list string) (cols : list string) : list string :=
  match cols with
  | [] => acc
  | c :: cols' =>
      union_columns (if in_columns c acc then acc else acc ++ [c]) cols'
  end.

(** [pd.concat(dfs, ignore_index=True)]: rows are numbered afresh from 0. *)
Definition concat_ignore_index (dfs : list DataFrame) : DataFrame :=
  {| df_columns := fold_left union_columns (map df_columns dfs) [];
     df_rows := imap (fun i r => {| row_index := Z.of_nat i; row_cells := row_cells r |})
                     (concat (map df_rows dfs)) |}.

(** A column has dtype [object] when it holds a text value. *)
Definition is_object_column (c : string) (df : DataFrame) : bool :=
  existsb (fun r => match get_cell c (row_cells r) with CStr _ => true | _ => false end)
          (df_rows df).

(** [.astype(str).replace('nan', '')] on one value *)
Definition astype_str (c : cell) : cell :=
  let s := match c with
           | CStr s => s
           | CNum q => repr_number q
           | CTime t => repr_datetime t
           | CNaN => "nan"
           end in
  CStr (if bool_decide (s = "nan") then "" else s).

Definition normalize_text (df : DataFrame) : DataFrame :=
  fold_left (fun df c =>
    if is_object_column c df && negb (bool_decide (c = "geometry"))
    then map_column c astype_str df else df) (df_columns df) df.

Definition number_of (c : cell) : Q :=
  match c with CNum q => q | _ => 0%Q end.

(** [gpd.GeoDataFrame(df, geometry=points_from_xy(df.Ost, df.Nord), crs=...)] *)
Definition with_point_geometry (crs : string) (df : DataFrame) : GeoDataFrame :=
  {| columns := df_columns df ++ ["geometry"];
     crs := crs;
     rows := map (fun r =>
       {| index := row_index r; cells := row_cells r;
          geometry := points_from_xy (number_of (get_cell "Ost" (row_cells r)))
                                     (number_of (get_cell "Nord" (row_cells r))) |})
       (df_rows df) |}.

(** The table that [clean_file] returns for a file, or the exception it
    raises. *)
Definition clean_table (cfg : Config) (f : ExcelFile) : Exc + DataFrame :=
  let df := f_sheet f in
  let valid_cols := List.filter (fun c => in_columns c (df_columns df)) (keep_cols cfg) in
  let df := select_columns valid_cols df in
  if in_columns "Ost" (df_columns df) then
    let df := map_column "Ost" to_numeric df in
    if in_columns "Nord" (df_columns df) then
      let df := map_column "Nord" to_numeric df in
      let df := accuracy_filter df in
      let df := antal_to_numeric df in
      let df := dropna ["Ost"; "Nord"] df in
      inr (map_column "Källa" (fun _ => CStr (f_name f)) df)
    else inl (KeyError "Nord")
  else inl (KeyError "Ost").

Fixpoint clean_tables (cfg : Config) (fs : list ExcelFile) : Exc + list DataFrame :=
  match fs with
  | [] => inr []
  | f :: fs' =>
      match clean_table cfg f with
      | inl e => inl e
      | inr df =>
          match clean_tables cfg fs' with
          | inl e => inl e
          | inr dfs => inr (df :: dfs)
          end
      end
  end.

(** The collection parsed from the input files (lines 62-100). *)
Definition parsed_observations (cfg : Config) (fs : list ExcelFile) : Exc + GeoDataFrame :=
  match clean_tables cfg fs with
  | inl e => inl e
  | inr dfs =>
      inr (with_point_geometry (cfg_crs cfg) (normalize_text (concat_ignore_index dfs)))
  end.

Definition accuracy (cells : gmap string cell) : cell := get_cell "Noggrannhet" cells.

(** An accuracy value that is a number not above the threshold. *)
Definition within_threshold (c : cell) : Prop :=
  exists q, c = CNum q /\ (q <= 50)%Q.


Definition accuracy_all (Pc : cell -> Prop) (df : DataFrame) : Prop :=
  Forall (fun r => Pc (accuracy (row_cells r))) (df_rows df).

Definition load_observations (cfg : Config) : Run GeoDataFrame :=
  cached ← path_exists (cache_obs cfg);
  if (cached : bool) then
    print (MsgObsFromCache (cache_obs cfg));;
    read_parquet (cache_obs cfg)
  else
    print MsgReadingDir;;
    w ← get_world;
    let obs_files := xlsx_files w in
    match obs_files with
    | [] => print MsgNoFiles;; raise SystemExit
    | _ =>
      dfs ← clean_files cfg obs_files;
      let combined_df := concat_ignore_index dfs in
      let combined_df := normalize_text combined_df in
      let gdf_obs := with_point_geometry (cfg_crs cfg) combined_df in
      try_except
        (to_parquet gdf_obs (cache_obs cfg);;
         print (MsgObsCacheCreated (length (rows gdf_obs))))
        (fun e => print (MsgObsCacheWarning e));;
      mret gdf_obs
    end.

(** ** Logging Layer Loader *)

Definition map_geo_column (c : string) (f : cell -> cell) (g : GeoDataFrame)
    : GeoDataFrame :=
  {| columns := if in_columns c (columns g) then columns g else columns g ++ [c];
     crs := crs g;
     rows := map (fun r =>
       {| index := index r;
          cells := <[c := f (get_cell c (cells r))]> (cells r);
          geometry := geometry r |}) (rows g) |}.

Definition filter_geo_rows (keep : GeoRow -> bool) (g : GeoDataFrame) : GeoDataFrame :=
  {| columns := columns g; crs := crs g; rows := List.filter keep (rows g) |}.

Definition map_geometry (f : Geom -> Geom) (g : GeoDataFrame) : GeoDataFrame :=
  {| columns := columns g; crs := crs g;
     rows := map (fun r => {| index := index r; cells := cells r;
                              geometry := f (geometry r) |}) (rows g) |}.

(** [gpd.read_file(path, bbox=bbox)]: the features that meet the box,
    numbered from 0. *)
Definition read_file (path : string) (bbox : BBox) : Run GeoDataFrame := fun w =>
  match gpkg w !! path with
  | Some g =>
      (inr {| columns := columns g; crs := crs g;
              rows := imap (fun i r => {| index := Z.of_nat i; cells := cells r;
                                          geometry := geometry r |})
                           (List.filter (fun r => bbox_hit bbox (geometry r)) (rows g)) |},
       w)
  | None => (inl (FileNotFoundError path), w)
  end.

(** [gdf.to_crs(target)] *)
Definition to_crs (target : string) (g : GeoDataFrame) : GeoDataFrame :=
  {| columns := columns g; crs := target;
     rows := rows (map_geometry (reproject (crs g) target) g) |}.

Definition date_col_of (key : string) : string :=
  if bool_decide (key = "utford") then "Avvdatum" else "Inkomdatum".

(** Lines 143-145: coerce the date column, keep the rows from [start_year] on. *)
Definition filter_from_year (date_col : string) (start_year : Z) (gdf : GeoDataFrame)
    : GeoDataFrame :=
  let gdf := map_geo_column date_col to_datetime gdf in
  filter_geo_rows (fun r => year_ge (get_cell date_col (cells r)) start_year) gdf.

(** Lines 139-149: the time filter, run on cached and fresh layers alike. *)
Definition time_filter (key : string) (start_year : Z) (gdf : GeoDataFrame)
    : Run GeoDataFrame :=
  let date_col := date_col_of key in
  if in_columns date_col (columns gdf) then
    let before_count := length (rows gdf) in
    let gdf := filter_from_year date_col start_year gdf in
    let diff := (before_count - length (rows gdf))%nat in
    (if (0 <? diff)%nat then print (MsgRemovedOld diff key start_year) else mret tt);;
    mret gdf
  else mret gdf.

(** What [time_filter] returns. *)
Definition year_filtered (key : string) (start_year : Z) (gdf : GeoDataFrame)
    : GeoDataFrame :=
  if in_columns (date_col_of key) (columns gdf)
  then filter_from_year (date_col_of key) start_year gdf else gdf.

(** The row of [gdf[date_col] = pd.to_datetime(gdf[date_col], errors='coerce')]. *)
Definition coerce_date (date_col : string) (r : GeoRow) : GeoRow :=
  {| index := index r;
     cells := <[date_col := to_datetime (get_cell date_col (cells r))]> (cells r);
     geometry := geometry r |}.

(** [d[k] = v] *)
Fixpoint dict_set {V} (k : string) (v : V) (d : list (string * V)) : list (string * V) :=
  match d with
  | [] => [(k, v)]
  | (k', v') :: d' =>
      if bool_decide (k = k') then (k, v) :: d' else (k', v') :: dict_set k v d'
  end.

(** The body of the loop over the layers (lines 126-155). *)
Definition load_layer (cfg : Config) (bbox : BBox) (start_year : Z)
    (key filename : string) : Run GeoDataFrame :=
  match dict_get key (cache_layers cfg) with
  | None => raise (KeyError key)
  | Some cache_path =>
      cached ← path_exists cache_path;
      gdf ← (if (cached : bool) then
               print (MsgLayerFromCache key);;
               read_parquet cache_path
             else
               print (MsgFilteringBBox filename);;
               gdf ← read_file filename bbox;
               if bool_decide (crs gdf = cfg_crs cfg) then mret gdf
               else mret (to_crs (cfg_crs cfg) gdf));
      gdf ← time_filter key start_year gdf;
      cached ← path_exists cache_path;
      (if (cached : bool) then mret tt else to_parquet gdf cache_path);;
      mret gdf
  end.

Fixpoint load_layers (cfg : Config) (bbox : BBox) (start_year : Z)
    (todo : list (string * string)) (logging_data : list (string * GeoDataFrame))
    : Run (list (string * GeoDataFrame)) :=
  match todo with
  | [] => mret logging_data
  | (key, filename) :: todo' =>
      gdf ← load_layer cfg bbox start_year key filename;
      load_layers cfg bbox start_year todo' (dict_set key gdf logging_data)
  end.

(** The cache file of a layer, when the configuration names one and the
    file is there. *)
Definition cached_frame (cfg : Config) (files : gmap string GeoDataFrame) (key : string)
    : option GeoDataFrame :=
  match dict_get key (cache_layers cfg) with
  | Some path => files !! path
  | None => None
  end.

(** The dict built from the cache files alone. *)
Definition layers_from_cache (cfg : Config) (start_year : Z)
    (files : gmap string GeoDataFrame) (todo : list (string * string))
    (acc : list (string * GeoDataFrame)) : list (string * GeoDataFrame) :=
  fold_left (fun acc (kf : string * string) =>
               match cached_frame cfg files kf.1 with
               | Some c => dict_set kf.1 (year_filtered kf.1 start_year c) acc
               | None => acc
               end) todo acc.

Definition load_filtered_logging (cfg : Config) (bbox : BBox) (start_year : Z)
    : Run (list (string * GeoDataFrame)) :=
  load_layers cfg bbox start_year (layers cfg) [].

(** ** The object heap

    [run_spatial_analysis] receives the caller's observation frame, which the
    caller goes on using, so the frame is an object on the heap, named by its
    location; [copy] makes a new object and a column assignment overwrites
    the object it is applied to. *)

Definition new_object (g : GeoDataFrame) : Run nat := fun w =>
  (inr (length (heap w)), set_heap (fun h => h ++ [g]) w).

Definition deref (r : nat) : Run GeoDataFrame := fun w =>
  match heap w !! r with
  | Some g => (inr g, w)
  | None => (inl ReferenceError, w)
  end.

Definition assign (r : nat) (g : GeoDataFrame) : Run unit := fun w =>
  (inr tt, set_heap (fun h => <[r := g]> h) w).

(** [gdf.copy()] *)
Definition copy (r : nat) : Run nat :=
  g ← deref r;
  new_object g.

(** [obj['geometry'] = obj.geometry.buffer(d)] *)
Definition buffer_in_place (r : nat) (d : Q) : Run unit :=
  g ← deref r;
  assign r (map_geometry (fun x => buffer x d) g).

(** ** Spatial Matcher *)

Definition Inuti : cell := CStr "Inuti".
Definition Nara : cell := CStr "Nära (50m)".

Definition index_cell (i : Z) : cell := CNum (inject_Z i).

(** Columns carried by both sides of a join get a suffix. *)
Definition suffixed (others : list string) (suffix : string) (c : string) : string :=
  if in_columns c others && negb (bool_decide (c = "geometry"))
  then String.append c suffix else c.

Definition rename_cells (f : string -> string) (m : gmap string cell)
    : gmap string cell :=
  list_to_map (map (fun kv => (f kv.1, kv.2)) (map_to_list m)).

(** One row of a join result: the left row under its own index label, the
    label of the right row in [index_right], the attributes of both. *)
Definition join_row (lcols rcols : list string) (l r : GeoRow) : GeoRow :=
  {| index := index l;
     cells := <["index_right" := index_cell (index r)]>
                (rename_cells (suffixed rcols "_left") (cells l) ∪
                 rename_cells (suffixed lcols "_right") (cells r));
     geometry := geometry l |}.

(** [gpd.sjoin(left, right, how="inner", predicate=...)]: one row per pair
    that satisfies the predicate, left rows in order, and for each of them
    the right rows in order. *)
Definition sjoin (left right : GeoDataFrame) (predicate : Geom -> Geom -> bool)
    : GeoDataFrame :=
  {| columns := map (suffixed (columns right) "_left") (columns left)
                ++ "index_right"
                :: map (suffixed (columns left) "_right")
                       (List.filter (fun c => negb (bool_decide (c = "geometry")))
                                    (columns right));
     crs := crs left;
     rows := flat_map (fun l =>
               map (join_row (columns left) (columns right) l)
                   (List.filter (fun r => predicate (geometry l) (geometry r))
                                (rows right)))
             (rows left) |}.

(** [pd.concat([a, b])] *)
Definition concat2 (a b : GeoDataFrame) : GeoDataFrame :=
  {| columns := union_columns (columns a) (columns b);
     crs := crs a;
     rows := rows a ++ rows b |}.

(** [index.duplicated(keep='first')]: true at every label seen before. *)
Fixpoint duplicated (seen : list Z) (labels : list Z) : list bool :=
  match labels with
  | [] => []
  | i :: labels' => bool_decide (i ∈ seen) :: duplicated (i :: seen) labels'
  end.

Fixpoint select_mask {A} (mask : list bool) (l : list A) : list A :=
  match mask, l with
  | b :: mask', x :: l' => if b then x :: select_mask mask' l' else select_mask mask' l'
  | _, _ => []
  end.

(** The rows left by the mask when the labels of [seen] came before. *)
Definition keep_first (seen : list Z) (l : list GeoRow) : list GeoRow :=
  select_mask (map negb (duplicated seen (map index l))) l.

(** [df[~df.index.duplicated(keep='first')]] *)
Definition drop_duplicated_index (g : GeoDataFrame) : GeoDataFrame :=
  {| columns := columns g; crs := crs g;
     rows := select_mask (map negb (duplicated [] (map index (rows g)))) (rows g) |}.

(** The observation label and the area label of a match, and its status. *)
Definition pair_of (m : GeoRow) : Z * cell :=
  (index m, get_cell "index_right" (cells m)).

Definition status_of (m : GeoRow) : cell := get_cell "Status_Analys" (cells m).

Record LayerResult := {
  matches : GeoDataFrame;
  total_relevant_count : nat
}.

Definition relevant_logging (study_area_mask : Geom) (gdf_logging : GeoDataFrame)
    : GeoDataFrame :=
  filter_geo_rows (fun a => intersects (geometry a) study_area_mask) gdf_logging.

(** Step 1 of the loop body: observations lying in an area. *)
Definition in_zone (gdf_obs relevant : GeoDataFrame) : GeoDataFrame :=
  map_geo_column "Status_Analys" (fun _ => Inuti) (sjoin gdf_obs relevant within).

(** Step 2: observations whose buffer meets an area. *)
Definition all_near (gdf_obs_buffered relevant : GeoDataFrame) : GeoDataFrame :=
  map_geo_column "Status_Analys" (fun _ => Nara)
                 (sjoin gdf_obs_buffered relevant intersects).

(** Step 3: the two results one after the other, first row per label kept. *)
Definition combine (in_zone all_near : GeoDataFrame) : GeoDataFrame :=
  drop_duplicated_index (concat2 in_zone all_near).

Definition study_area (gdf_obs : GeoDataFrame) : Geom :=
  buffer (convex_hull (union_all (map geometry (rows gdf_obs)))) 50.

(** The frame held by [gdf_obs_buffered] after line 179. *)
Definition buffered (gdf_obs : GeoDataFrame) : GeoDataFrame :=
  map_geometry (fun x => buffer x 50) gdf_obs.

(** What [analyse_layer] returns when [r_obs] holds [gdf_obs] and
    [r_buffered] holds [gdf_obs_buffered]. *)
Definition layer_result (study_area_mask : Geom) (gdf_obs gdf_obs_buffered : GeoDataFrame)
    (gdf_logging : GeoDataFrame) : LayerResult :=
  let relevant := relevant_logging study_area_mask gdf_logging in
  {| matches := combine (in_zone gdf_obs relevant) (all_near gdf_obs_buffered relevant);
     total_relevant_count := length (rows relevant) |}.

(** The body of the loop over the layers (lines 183-204). *)
Definition analyse_layer (r_obs r_buffered : nat) (study_area_mask : Geom)
    (key : string) (gdf_logging : GeoDataFrame) : Run LayerResult :=
  let relevant := relevant_logging study_area_mask gdf_logging in
  print (MsgMatching (length (rows relevant)) key);;
  gdf_obs ← deref r_obs;
  let inside := in_zone gdf_obs relevant in
  gdf_obs_buffered ← deref r_buffered;
  let near := all_near gdf_obs_buffered relevant in
  mret {| matches := combine inside near;
          total_relevant_count := length (rows relevant) |}.

(** The dict built by the loop from the layers in [todo]. *)
Definition results_of (mask : Geom) (gdf_obs gdf_obs_buffered : GeoDataFrame)
    (todo : list (string * GeoDataFrame)) (acc : list (string * LayerResult))
    : list (string * LayerResult) :=
  fold_left (fun acc kv => dict_set kv.1 (layer_result mask gdf_obs gdf_obs_buffered kv.2) acc)
            todo acc.

Fixpoint analyse_layers (r_obs r_buffered : nat) (study_area_mask : Geom)
    (todo : list (string * GeoDataFrame)) (results : list (string * LayerResult))
    : Run (list (string * LayerResult)) :=
  match todo with
  | [] => mret results
  | (key, gdf_logging) :: todo' =>
      res ← analyse_layer r_obs r_buffered study_area_mask key gdf_logging;
      analyse_layers r_obs r_buffered study_area_mask todo' (dict_set key res results)
  end.

Definition run_spatial_analysis (r_obs : nat) (logging_data : list (string * GeoDataFrame))
    : Run (list (string * LayerResult)) :=
  gdf_obs ← deref r_obs;
  let study_area_mask := study_area gdf_obs in
  r_buffered ← copy r_obs;
  buffer_in_place r_buffered 50;;
  analyse_layers r_obs r_buffered study_area_mask logging_data [].

(** ** Reporter *)

Definition ts_leb (a b : Timestamp) : bool :=
  (ts_year a <? ts_year b)
  || ((ts_year a =? ts_year b)
      && ((ts_month a <? ts_month b)
          || ((ts_month a =? ts_month b) && (ts_day a <=? ts_day b)))).

Definition timestamps (l : list cell) : list Timestamp :=
  omap (fun c => match c with CTime t => Some t | _ => None end) l.

(** [series.min()] and [series.max()] skip missing values; [None] is NaT. *)
Definition series_min (l : list cell) : option Timestamp :=
  match timestamps l with
  | [] => None
  | t :: ts => Some (fold_left (fun m x => if ts_leb x m then x else m) ts t)
  end.

Definition series_max (l : list cell) : option Timestamp :=
  match timestamps l with
  | [] => None
  | t :: ts => Some (fold_left (fun m x => if ts_leb m x then x else m) ts t)
  end.

(** [int(t.year)]: the year of NaT is NaN, which [int] refuses. *)
Definition int_year (t : option Timestamp) : Run Z :=
  match t with
  | Some t => mret (ts_year t)
  | None => raise ValueError
  end.

Definition column_values (c : string) (g : GeoDataFrame) : list cell :=
  map (fun r => get_cell c (cells r)) (rows g).

Definition cell_eqb (a b : cell) : bool :=
  match a, b with
  | CNum p, CNum q => Qeq_bool p q
  | CStr s, CStr t => bool_decide (s = t)
  | CTime s, CTime t =>
      (ts_year s =? ts_year t) && (ts_month s =? ts_month t) && (ts_day s =? ts_day t)
  | CNaN, CNaN => true
  | _, _ => false
  end.

(** [series.unique()]: the distinct values in order of first appearance. *)
Definition unique (l : list cell) : list cell :=
  fold_left (fun acc c => if existsb (cell_eqb c) acc then acc else acc ++ [c]) l [].

Definition unique_labels (l : list Z) : list Z :=
  fold_left (fun acc i => if bool_decide (i ∈ acc) then acc else acc ++ [i]) l [].

(** [a / b] on Python integers *)
Definition true_div (a b : nat) : Run Q :=
  match b with
  | O => raise ZeroDivisionError
  | S _ => mret (Z.of_nat a # Pos.of_nat b)
  end.

Definition drop_geometry_column (g : GeoDataFrame) : GeoDataFrame :=
  {| columns := List.filter (fun c => negb (bool_decide (c = "geometry"))) (columns g);
     crs := crs g; rows := rows g |}.

(** [with pd.ExcelWriter(...) as writer: ... to_excel(writer, sheet_name=...)] *)
Definition save_workbook (sheets : list (string * GeoDataFrame)) : Run unit :=
  fun w => (inr tt, set_workbook sheets w).

(** The statistics of one layer (lines 242-275). A layer absent from
    [results] falls back on an empty frame, whose columns cannot be read. *)
Definition describe_layer (results : list (string * LayerResult)) (key : string)
    : Run unit :=
  match dict_get key results with
  | None => raise (KeyError "Status_Analys")
  | Some analysis_data =>
      let res_df := matches analysis_data in
      let total_relevant := total_relevant_count analysis_data in
      require_column "Status_Analys" (columns res_df);;
      let is_status s (r : GeoRow) := cell_eqb (get_cell "Status_Analys" (cells r)) s in
      let n_inuti := length (List.filter (is_status Inuti) (rows res_df)) in
      let n_nara := length (List.filter (is_status Nara) (rows res_df)) in
      require_column "index_right" (columns res_df);;
      let all_affected_areas := unique (column_values "index_right" res_df) in
      let areas_inuti_ids :=
        unique (column_values "index_right" (filter_geo_rows (is_status Inuti) res_df)) in
      let areas_nara_only :=
        length (List.filter (fun a => negb (existsb (cell_eqb a) areas_inuti_ids))
                            all_affected_areas) in
      ratio ← true_div (length all_affected_areas) total_relevant;
      let andel_omraden := (ratio * 100)%Q in
      print (MsgLayerStats key n_inuti n_nara (length areas_inuti_ids) areas_nara_only
                           (length all_affected_areas) total_relevant andel_omraden)
  end.

Definition describe_and_save (r_obs : nat) (results : list (string * LayerResult))
    (logging_data : list (string * GeoDataFrame)) (cfg : Config) : Run unit :=
  gdf_obs ← deref r_obs;
  require_column "Artnamn" (columns gdf_obs);;
  require_column "Startdatum" (columns gdf_obs);;
  let obs_dates := map to_datetime (column_values "Startdatum" gdf_obs) in
  obs_min ← int_year (series_min obs_dates);
  obs_max ← int_year (series_max obs_dates);
  print (MsgHeader obs_min obs_max);;
  describe_layer results "utford";;
  describe_layer results "anmald";;
  let all_affected_idx :=
    unique_labels (flat_map (fun kr => map index (rows (matches kr.2))) results) in
  ratio ← true_div (length all_affected_idx) (length (rows gdf_obs));
  print (MsgTotals (length all_affected_idx) (length (rows gdf_obs)) (ratio * 100)%Q);;
  save_workbook
    (("Alla_Fynd", drop_geometry_column gdf_obs)
     :: omap (fun kr =>
                match rows (matches kr.2) with
                | [] => None
                | _ => Some (String.append "Träffar_" kr.1,
                             drop_geometry_column (matches kr.2))
                end) results).

(** ** The script *)

Definition main : Run unit :=
  let cfg := get_config in
  gdf_obs ← load_observations cfg;
  r_obs ← new_object gdf_obs;
  require_column "Startdatum" (columns gdf_obs);;
  let obs_dates := map to_datetime (column_values "Startdatum" gdf_obs) in
  start_year ← int_year (series_min obs_dates);
  let boundary := total_bounds (map geometry (rows gdf_obs)) in
  logging_data ← load_filtered_logging cfg boundary start_year;
  analysis_results ← run_spatial_analysis r_obs logging_data;
  describe_and_save r_obs analysis_results logging_data cfg.

(** ** Descriptions used in the further properties *)

(** Every row of a table satisfies [Pc] in column [c]. *)
Definition column_all (c : string) (Pc : cell -> Prop) (df : DataFrame) : Prop :=
  Forall (fun r => Pc (get_cell c (row_cells r))) (df_rows df).

Definition is_number (c : cell) : Prop := exists q, c = CNum q.

Definition number_or_missing (c : cell) : Prop := c = CNaN \/ is_number c.



(** What [read_file] returns for a source that is there. *)
Definition read_layer (bbox : BBox) (src : GeoDataFrame) : GeoDataFrame :=
  {| columns := columns src; crs := crs src;
     rows := imap (fun i r => {| index := Z.of_nat i; cells := cells r;
                                 geometry := geometry r |})
                  (List.filter (fun r => bbox_hit bbox (geometry r)) (rows src)) |}.

(** The layer of lines 133-137: read at the bounding box, reprojected when
    its reference system is not the configured one. *)
Definition fresh_layer (cfg : Config) (bbox : BBox) (src : GeoDataFrame) : GeoDataFrame :=
  let gdf := read_layer bbox src in
  if bool_decide (crs gdf = cfg_crs cfg) then gdf else to_crs (cfg_crs cfg) gdf.

(** A part of the world that an action leaves as it is, whether it returns
    or raises. *)
Definition preserves {X A} (part : World -> X) (m : Run A) : Prop :=
  forall w, part (snd (m w)) = part w.

(** An action that leaves the parquet file [p] with its content [c], whether
    it returns or raises. *)
Definition keeps_file {A} (p : string) (c : GeoDataFrame) (m : Run A) : Prop :=
  forall w, parquet w !! p = Some c -> parquet (snd (m w)) !! p = Some c.

End Program.

(** ** A concrete world to run the program on

    Axis-parallel boxes with rational corners, a point being a box of no
    extent; the buffer grows a box on every side. The text formats are plain
    decimal integers and [YYYY-MM-DD] dates. *)

Module Boxes.

Record box := { x0 : Q; y0 : Q; x1 : Q; y1 : Q }.

Definition Qltb (a b : Q) : bool := negb (Qle_bool b a).

Definition qmin (a b : Q) : Q := if Qle_bool a b then a else b.
Definition qmax (a b : Q) : Q := if Qle_bool a b then b else a.

Definition box_point (x y : Q) : option box :=
  Some {| x0 := x; y0 := y; x1 := x; y1 := y |}.

Definition box_buffer (g : option box) (d : Q) : option box :=
  match g with
  | Some b => Some {| x0 := x0 b - d; y0 := y0 b - d; x1 := x1 b + d; y1 := y1 b + d |}
  | None => None
  end.

Definition box_within (g h : option box) : bool :=
  match g, h with
  | Some a, Some b =>
      Qle_bool (x0 a) (x1 a) && Qle_bool (y0 a) (y1 a)
      && Qltb (x0 b) (x0 a) && Qltb (x1 a) (x1 b)
      && Qltb (y0 b) (y0 a) && Qltb (y1 a) (y1 b)
  | _, _ => false
  end.

Definition box_intersects (g h : option box) : bool :=
  match g, h with
  | Some a, Some b =>
      Qle_bool (x0 a) (x1 b) && Qle_bool (x0 b) (x1 a)
      && Qle_bool (y0 a) (y1 b) && Qle_bool (y0 b) (y1 a)
  | _, _ => false
  end.

Definition box_hull (g h : option box) : option box :=
  match g, h with
  | Some a, Some b =>
      Some {| x0 := qmin (x0 a) (x0 b); y0 := qmin (y0 a) (y0 b);
              x1 := qmax (x1 a) (x1 b); y1 := qmax (y1 a) (y1 b) |}
  | Some a, None => Some a
  | None, h => h
  end.

Definition box_union_all (l : list (option box)) : option box :=
  fold_right box_hull None l.

#[export] Instance box_geometry : Geometry := {|
  Geom := option box;
  BBox := option box;
  points_from_xy := box_point;
  buffer := box_buffer;
  within := box_within;
  intersects := box_intersects;
  union_all := box_union_all;
  convex_hull := fun g => g;
  total_bounds := box_union_all;
  bbox_hit := box_intersects;
  reproject := fun _ _ g => g
|}.

Definition digit_of (a : Ascii.ascii) : option Z :=
  let n := Z.of_nat (Ascii.nat_of_ascii a) in
  if (48 <=? n) && (n <=? 57) then Some (n - 48) else None.

Fixpoint digits_value (acc : Z) (s : string) : option Z :=
  match s with
  | EmptyString => Some acc
  | String a s' =>
      match digit_of a with
      | Some d => digits_value (10 * acc + d) s'
      | None => None
      end
  end.

Definition parse_int (s : string) : option Z :=
  match s with
  | EmptyString => None
  | _ => digits_value 0 s
  end.

Definition parse_date (s : string) : option Timestamp :=
  if bool_decide (String.length s = 10%nat)
     && bool_decide (String.substring 4 1 s = "-")
     && bool_decide (String.substring 7 1 s = "-")
  then
    match parse_int (String.substring 0 4 s),
          parse_int (String.substring 5 2 s),
          parse_int (String.substring 8 2 s) with
    | Some y, Some m, Some d => Some {| ts_year := y; ts_month := m; ts_day := d |}
    | _, _, _ => None
    end
  else None.

#[export] Instance plain_parsing : Parsing := {|
  parse_numeric := fun s => option_map inject_Z (parse_int s);
  parse_datetime := parse_date;
  datetime_of_number := fun _ => Some {| ts_year := 1970; ts_month := 1; ts_day := 1 |};
  repr_number := fun q => "0";
  repr_datetime := fun t => "1970-01-01"
|}.

Definition row (i : Z) (kvs : list (string * cell)) : Row :=
  {| row_index := i; row_cells := list_to_map kvs |}.

Definition area (i : Z) (kvs : list (string * cell)) (b : box) : GeoRow :=
  {| index := i; cells := list_to_map kvs; geometry := Some b |}.

Definition square (x y side : Z) : box :=
  {| x0 := inject_Z x; y0 := inject_Z y;
     x1 := inject_Z (x + side); y1 := inject_Z (y + side) |}.

(** Three finds of one spreadsheet: accuracy 60, accuracy 10, accuracy 10. *)
Definition sheet : DataFrame :=
  {| df_columns := ["Artnamn"; "Ost"; "Nord"; "Noggrannhet"; "Startdatum"];
     df_rows :=
       [row 0 [("Artnamn", CStr "knärot"); ("Ost", CNum 100); ("Nord", CNum 100);
               ("Noggrannhet", CNum 60); ("Startdatum", CStr "2015-06-01")];
        row 1 [("Artnamn", CStr "knärot"); ("Ost", CNum 500); ("Nord", CNum 500);
               ("Noggrannhet", CNum 10); ("Startdatum", CStr "2016-07-02")];
        row 2 [("Artnamn", CStr "knärot"); ("Ost", CNum 1000); ("Nord", CNum 500);
               ("Noggrannhet", CStr "10"); ("Startdatum", CStr "2018-05-20")]] |}.


(** Executed loggings: one around the find at (500, 500), one ending 20
    units west of the find at (1000, 500), one from before the finds, one
    undated. *)
Definition utford_layer : GeoDataFrame :=
  {| columns := ["Avvdatum"; "geometry"]; crs := "EPSG:3006";
     rows := [area 0 [("Avvdatum", CStr "2017-03-01")] (square 450 450 100);
              area 1 [("Avvdatum", CStr "2019-09-09")] (square 880 450 100);
              area 2 [("Avvdatum", CStr "2010-01-01")] (square 480 480 100);
              area 3 [("Avvdatum", CStr "okänt")] (square 600 450 100)] |}.

Definition anmald_layer : GeoDataFrame :=
  {| columns := ["Inkomdatum"; "geometry"]; crs := "EPSG:3006";
     rows := [area 0 [("Inkomdatum", CStr "2020-02-02")] (square 400 400 700)] |}.

Definition world0 : World :=
  {| xlsx_files := [{| f_name := "fynd.xlsx"; f_sheet := sheet |}];
     parquet := ∅;
     gpkg := list_to_map [("sksUtfordAvverk.gpkg", utford_layer);
                          ("sksAvverkAnm.gpkg", anmald_layer)];
     unwritable := [];
     stdout := [];
     heap := [];
     workbook := [] |}.

Definition find (i : Z) (x y : Z) : GeoRow :=
  {| index := i;
     cells := list_to_map [("Artnamn", CStr "knärot"); ("Startdatum", CStr "2016-07-02")];
     geometry := box_point (inject_Z x) (inject_Z y) |}.

(** Three finds: in two executed loggings at once, near one, far from all. *)
Definition observations : GeoDataFrame :=
  {| columns := ["Artnamn"; "Startdatum"; "geometry"]; crs := "EPSG:3006";
     rows := [find 0 500 500; find 1 1000 500; find 2 3000 3000] |}.

Definition logging_layers : list (string * GeoDataFrame) :=
  [("utford", utford_layer); ("anmald", anmald_layer)].

Definition with_heap (h : list GeoDataFrame) (w : World) : World :=
  set_heap (fun _ => h) w.

Definition with_files (cache : list (string * GeoDataFrame)) (sheets : list ExcelFile)
    (locked : list string) (w : World) : World :=
  {| xlsx_files := sheets; parquet := list_to_map cache; gpkg := gpkg w;
     unwritable := locked; stdout := stdout w; heap := heap w;
     workbook := workbook w |}.

Definition fynd (sheet : DataFrame) : ExcelFile :=
  {| f_name := "fynd.xlsx"; f_sheet := sheet |}.

(** The observations on the heap, for the Matcher. *)
Definition world_matcher : World := with_heap [observations] world0.



(** Both layer caches on disk, the executed one unfiltered. *)
Definition world_cached : World :=
  with_files [("utford_cache.parquet", utford_layer);
              ("anmald_cache.parquet", anmald_layer)] [fynd sheet] [] world0.

(** The cache of the executed layer cannot be written. *)
Definition world_layer_cache_locked : World :=
  with_files [] [fynd sheet] ["utford_cache.parquet"] world0.

(** The cache of the observations cannot be written. *)
Definition world_obs_cache_locked : World :=
  with_files [] [fynd sheet] ["Art_cache.parquet"] world0.

(** No reported logging touches the finds. *)
Definition world_no_reported : World :=
  {| xlsx_files := [fynd sheet]; parquet := ∅;
     gpkg := list_to_map
       [("sksUtfordAvverk.gpkg", utford_layer);
        ("sksAvverkAnm.gpkg",
         {| columns := ["Inkomdatum"; "geometry"]; crs := "EPSG:3006"; rows := [] |})];
     unwritable := []; stdout := []; heap := []; workbook := [] |}.

(** The value a run returned, [no_frame] standing for an exception. *)
Definition no_frame : GeoDataFrame := {| columns := []; crs := ""; rows := [] |}.

Definition returned (r : (Exc + GeoDataFrame) * World) : GeoDataFrame :=
  match fst r with
  | inr g => g
  | inl _ => no_frame
  end.

(** The bounds of no geometry at all. *)
Definition empty_bbox : @BBox box_geometry := None.

(** The columns of a row that the examples look at. *)
Definition summary (x : GeoRow) : Z * cell * cell :=
  (index x, get_cell "index_right" (cells x), get_cell "Status_Analys" (cells x)).

(** The dicts a run returned, empty standing for an exception. *)
Definition returned_layers (r : (Exc + list (string * GeoDataFrame)) * World)
    : list (string * GeoDataFrame) :=
  match fst r with
  | inr ld => ld
  | inl _ => []
  end.

Definition returned_results (r : (Exc + list (string * LayerResult)) * World)
    : list (string * LayerResult) :=
  match fst r with
  | inr results => results
  | inl _ => []
  end.

(** The results of the Matcher on the three finds. *)
Definition matcher_results : list (string * LayerResult) :=
  returned_results (run_spatial_analysis 0%nat logging_layers world_matcher).

Definition utford_result : LayerResult :=
  default {| matches := no_frame; total_relevant_count := 0 |}
          (dict_get "utford" matcher_results).

(** No input file at all. *)
Definition world_no_files : World := with_files [] [] [] world0.

(** A second input file that has no column [Ost]. *)
Definition sheet_without_ost : DataFrame :=
  {| df_columns := ["Artnamn"; "Nord"; "Startdatum"];
     df_rows := [row 0 [("Artnamn", CStr "knärot"); ("Nord", CNum 500);
                        ("Startdatum", CStr "2016-07-02")]] |}.

Definition fynd_without_ost : ExcelFile :=
  {| f_name := "fynd2.xlsx"; f_sheet := sheet_without_ost |}.

Definition world_without_ost : World :=
  with_files [] [fynd sheet; fynd_without_ost] [] world0.

(** A bounding box around all the loggings of the example. *)
Definition wide_bbox : @BBox box_geometry := Some (square 0 0 10000).

End Boxes.

(** * Properties *)

Section Facts.

Context {G : Geometry} {P : Parsing}.

(** ** The monad *)

Lemma run_bind_ok {A B} (m : Run A) (k : A -> Run B) w x w' :
  m w = (inr x, w') -> (m ≫= k) w = k x w'.
Proof. intros H. unfold mbind, run_bind. now rewrite H. Qed.

Lemma run_bind_raise {A B} (m : Run A) (k : A -> Run B) w e w' :
  m w = (inl e, w') -> (m ≫= k) w = (inl e, w').
Proof. intros H. unfold mbind, run_bind. now rewrite H. Qed.

Lemma run_bind_inv {A B} (m : Run A) (k : A -> Run B) w y w2 :
  (m ≫= k) w = (inr y, w2) ->
  exists x w1, m w = (inr x, w1) /\ k x w1 = (inr y, w2).
Proof.
  unfold mbind, run_bind. destruct (m w) as [[e|x] w1]; intros H.
  - discriminate.
  - eauto.
Qed.

Lemma deref_ok r g w : heap w !! r = Some g -> deref r w = (inr g, w).
Proof. intros H. unfold deref. now rewrite H. Qed.

(** ** Python dicts *)

Lemma dict_get_set {V} (k k' : string) (v : V) d :
  dict_get k (dict_set k' v d) = if bool_decide (k = k') then Some v else dict_get k d.
Proof.
  induction d as [|[k0 v0] d IH]; simpl.
  - reflexivity.
  - destruct (bool_decide_reflect (k' = k0)) as [->|Hne]; simpl.
    + destruct (bool_decide_reflect (k = k0)); reflexivity.
    + rewrite IH. destruct (bool_decide_reflect (k = k0)) as [->|]; [|reflexivity].
      rewrite bool_decide_false; [reflexivity|congruence].
Qed.

(** ** First row per label *)

Lemma keep_first_cons seen x l :
  keep_first seen (x :: l) =
  if bool_decide (index x ∈ seen) then keep_first (index x :: seen) l
  else x :: keep_first (index x :: seen) l.
Proof. unfold keep_first. simpl. now destruct (bool_decide _). Qed.

Lemma keep_first_elem seen l x :
  x ∈ keep_first seen l -> x ∈ l /\ index x ∉ seen.
Proof.
  revert seen. induction l as [|y l IH]; intros seen.
  - unfold keep_first; simpl. intros H. inversion H.
  - rewrite keep_first_cons.
    destruct (bool_decide_reflect (index y ∈ seen)) as [Hin|Hout]; intros H.
    + apply IH in H as [H1 H2]. split; [now right|].
      intros Hs. apply H2. now right.
    + apply elem_of_cons in H as [->|H].
      * split; [now left|assumption].
      * apply IH in H as [H1 H2]. split; [now right|].
        intros Hs. apply H2. now right.
Qed.

Lemma keep_first_NoDup seen l : NoDup (map index (keep_first seen l)).
Proof.
  revert seen. induction l as [|y l IH]; intros seen.
  - unfold keep_first; simpl. constructor.
  - rewrite keep_first_cons. destruct (bool_decide _); [apply IH|].
    simpl. apply NoDup_cons. split; [|apply IH].
    intros Hin. apply list_elem_of_fmap in Hin as (z & Hz & Hin).
    apply keep_first_elem in Hin as [_ Hin]. apply Hin. rewrite Hz. now left.
Qed.


(** A kept row is the first of its label. *)
Lemma keep_first_is_first seen l m :
  m ∈ keep_first seen l ->
  exists l1 l2, l = l1 ++ m :: l2 /\ forall y, y ∈ l1 -> index y ≠ index m.
Proof.
  revert seen. induction l as [|y l IH]; intros seen.
  - unfold keep_first; simpl. intros H. inversion H.
  - rewrite keep_first_cons.
    assert (Hrest : m ∈ keep_first (index y :: seen) l ->
              exists l1 l2, y :: l = l1 ++ m :: l2 /\ forall z, z ∈ l1 -> index z ≠ index m).
    { intros H. pose proof (keep_first_elem _ _ _ H) as [_ Hnot].
      destruct (IH _ H) as (l1 & l2 & -> & Hfirst).
      exists (y :: l1), l2. split; [reflexivity|].
      intros z Hz. apply elem_of_cons in Hz as [->|Hz]; [|now apply Hfirst].
      intros Heq. apply Hnot. rewrite Heq. now left. }
    destruct (bool_decide (index y ∈ seen)); [exact Hrest|].
    intros H. apply elem_of_cons in H as [->|H]; [|now apply Hrest].
    exists [], l. split; [reflexivity|]. intros z Hz. inversion Hz.
Qed.

(** ** Join results *)

Lemma index_cell_inj i j : index_cell i = index_cell j -> i = j.
Proof. unfold index_cell, inject_Z. intros H. now injection H. Qed.

Lemma rows_tagged_join (s : cell) pred (left right : GeoDataFrame) x :
  x ∈ rows (map_geo_column "Status_Analys" (fun _ => s) (sjoin left right pred)) <->
  exists l r, l ∈ rows left /\ r ∈ rows right /\ pred (geometry l) (geometry r) = true
    /\ x = {| index := index l;
              cells := <["Status_Analys" := s]>
                         (cells (join_row (columns left) (columns right) l r));
              geometry := geometry l |}.
Proof.
  unfold map_geo_column, sjoin; simpl. rewrite list_elem_of_fmap. split.
  - intros (j & -> & Hj). apply list_elem_of_In, in_flat_map in Hj as (l & Hl & Hj).
    apply in_map_iff in Hj as (r & <- & Hr). apply filter_In in Hr as [Hr Hp].
    exists l, r. rewrite !list_elem_of_In. auto.
  - intros (l & r & Hl & Hr & Hp & ->).
    exists (join_row (columns left) (columns right) l r). split; [reflexivity|].
    apply list_elem_of_In, in_flat_map. exists l. split; [now apply list_elem_of_In|].
    apply in_map, filter_In. split; [now apply list_elem_of_In|assumption].
Qed.

Lemma tagged_row_fields (s : cell) lcols rcols (l r : GeoRow) :
  let x := {| index := index l;
              cells := <["Status_Analys" := s]> (cells (join_row lcols rcols l r));
              geometry := geometry l |} in
  index x = index l /\ status_of x = s
  /\ get_cell "index_right" (cells x) = index_cell (index r)
  /\ geometry x = geometry l.
Proof.
  simpl. unfold status_of, get_cell; simpl. repeat split.
  - now rewrite lookup_insert_eq.
  - rewrite lookup_insert_ne by discriminate. now rewrite lookup_insert_eq.
Qed.

Lemma in_zone_row gdf_obs relevant x :
  x ∈ rows (in_zone gdf_obs relevant) ->
  exists o a, o ∈ rows gdf_obs /\ a ∈ rows relevant
    /\ within (geometry o) (geometry a) = true
    /\ index x = index o /\ status_of x = Inuti
    /\ get_cell "index_right" (cells x) = index_cell (index a).
Proof.
  intros H. apply rows_tagged_join in H as (o & a & Ho & Ha & Hp & ->).
  exists o, a. destruct (tagged_row_fields Inuti (columns gdf_obs) (columns relevant) o a)
    as (? & ? & ? & ?). auto 10.
Qed.

Lemma in_zone_has gdf_obs relevant o a :
  o ∈ rows gdf_obs -> a ∈ rows relevant -> within (geometry o) (geometry a) = true ->
  exists x, x ∈ rows (in_zone gdf_obs relevant) /\ pair_of x = (index o, index_cell (index a)).
Proof.
  intros Ho Ha Hp. eexists. split.
  - apply rows_tagged_join. exists o, a. eauto.
  - destruct (tagged_row_fields Inuti (columns gdf_obs) (columns relevant) o a)
      as (? & ? & Hr & ?). unfold pair_of. now rewrite Hr.
Qed.

Lemma buffered_row gdf_obs b :
  b ∈ rows (buffered gdf_obs) <->
  exists o, o ∈ rows gdf_obs /\ index b = index o /\ cells b = cells o
            /\ geometry b = buffer (geometry o) 50.
Proof.
  unfold buffered, map_geometry; simpl. rewrite list_elem_of_fmap. split.
  - intros (o & -> & Ho). exists o. auto.
  - intros (o & Ho & Hi & Hc & Hg). exists o. split; [|assumption].
    destruct b; simpl in *. now subst.
Qed.

Lemma all_near_row gdf_obs relevant x :
  x ∈ rows (all_near (buffered gdf_obs) relevant) ->
  exists o a, o ∈ rows gdf_obs /\ a ∈ rows relevant
    /\ intersects (buffer (geometry o) 50) (geometry a) = true
    /\ index x = index o /\ status_of x = Nara
    /\ get_cell "index_right" (cells x) = index_cell (index a).
Proof.
  intros H. apply rows_tagged_join in H as (b & a & Hb & Ha & Hp & ->).
  apply buffered_row in Hb as (o & Ho & Hi & Hc & Hg). rewrite Hg in Hp.
  exists o, a.
  destruct (tagged_row_fields Nara (columns (buffered gdf_obs)) (columns relevant) b a)
    as (? & ? & ? & ?). rewrite <- Hi. auto 10.
Qed.

Lemma all_near_has gdf_obs relevant o a :
  o ∈ rows gdf_obs -> a ∈ rows relevant ->
  intersects (buffer (geometry o) 50) (geometry a) = true ->
  exists x, x ∈ rows (all_near (buffered gdf_obs) relevant)
            /\ pair_of x = (index o, index_cell (index a)).
Proof.
  intros Ho Ha Hp.
  set (b := {| index := index o; cells := cells o;
               geometry := buffer (geometry o) 50 |}).
  assert (Hb : b ∈ rows (buffered gdf_obs)).
  { apply buffered_row. exists o. auto. }
  eexists. split.
  - apply rows_tagged_join. exists b, a. eauto.
  - destruct (tagged_row_fields Nara (columns (buffered gdf_obs)) (columns relevant) b a)
      as (? & ? & Hr & ?). unfold pair_of. now rewrite Hr.
Qed.

Lemma relevant_row mask gdf_logging a :
  a ∈ rows (relevant_logging mask gdf_logging) <->
  a ∈ rows gdf_logging /\ intersects (geometry a) mask = true.
Proof.
  unfold relevant_logging, filter_geo_rows; simpl.
  rewrite !list_elem_of_In. apply filter_In.
Qed.

Lemma rows_combine inside near :
  rows (combine inside near) = keep_first [] (rows inside ++ rows near).
Proof. reflexivity. Qed.

(** ** The Matcher as a function of the heap *)

Lemma analyse_layers_spec r rb mask gdf_obs gdf_buf todo :
  forall acc w,
    heap w !! r = Some gdf_obs -> heap w !! rb = Some gdf_buf ->
    exists w', analyse_layers r rb mask todo acc w
               = (inr (results_of mask gdf_obs gdf_buf todo acc), w')
               /\ heap w' = heap w.
Proof.
  induction todo as [|[key gl] todo IH]; intros acc w Hr Hb.
  - exists w. split; reflexivity.
  - set (w1 := set_stdout
        (fun out => out ++ [MsgMatching (length (rows (relevant_logging mask gl))) key]) w).
    assert (Hstep : analyse_layer r rb mask key gl w
                    = (inr (layer_result mask gdf_obs gdf_buf gl), w1)).
    { unfold analyse_layer.
      rewrite (run_bind_ok (print _) _ w tt w1) by reflexivity.
      rewrite (run_bind_ok (deref r) _ w1 gdf_obs w1) by (now apply deref_ok).
      rewrite (run_bind_ok (deref rb) _ w1 gdf_buf w1) by (now apply deref_ok).
      reflexivity. }
    destruct (IH (dict_set key (layer_result mask gdf_obs gdf_buf gl) acc) w1)
      as (w' & Hrun & Hheap); [exact Hr|exact Hb|].
    exists w'. split; [|exact Hheap].
    cbn [analyse_layers]. rewrite (run_bind_ok _ _ _ _ _ Hstep). exact Hrun.
Qed.

Lemma results_of_get mask gdf_obs gdf_buf todo :
  forall acc key res,
    dict_get key (results_of mask gdf_obs gdf_buf todo acc) = Some res ->
    (exists gl, (key, gl) ∈ todo /\ res = layer_result mask gdf_obs gdf_buf gl)
    \/ dict_get key acc = Some res.
Proof.
  induction todo as [|[k gl] todo IH]; intros acc key res H.
  - now right.
  - cbn [results_of fold_left] in H. apply IH in H as [(gl' & Hin & ->)|H].
    + left. exists gl'. split; [now right|reflexivity].
    + simpl in H. rewrite dict_get_set in H.
      destruct (bool_decide_reflect (key = k)) as [->|Hne].
      * left. exists gl. split; [now left|congruence].
      * now right.
Qed.

Lemma results_of_has mask gdf_obs gdf_buf todo :
  forall acc key gl, (key, gl) ∈ todo ->
    is_Some (dict_get key (results_of mask gdf_obs gdf_buf todo acc)).
Proof.
  assert (Hkeep : forall todo acc key,
            is_Some (dict_get key acc) ->
            is_Some (dict_get key (results_of mask gdf_obs gdf_buf todo acc))).
  { clear todo. induction todo as [|[k g] todo IH]; intros acc key Hs; [exact Hs|].
    cbn [results_of fold_left]. apply IH. simpl. rewrite dict_get_set.
    destruct (bool_decide (key = k)); [eauto|exact Hs]. }
  induction todo as [|[k g] todo IH]; intros acc key gl Hin.
  - inversion Hin.
  - cbn [results_of fold_left]. apply elem_of_cons in Hin as [Heq|Hin].
    + injection Heq as -> ->. apply Hkeep. simpl. rewrite dict_get_set.
      rewrite bool_decide_true by reflexivity. eauto.
    + eapply IH, Hin.
Qed.

(** The run of the Matcher from a heap that holds the observations: it
    returns, the only change to the heap is the new buffered frame. *)
Lemma run_spatial_analysis_spec w r gdf_obs logging_data :
  heap w !! r = Some gdf_obs ->
  exists w',
    run_spatial_analysis r logging_data w
    = (inr (results_of (study_area gdf_obs) gdf_obs (buffered gdf_obs) logging_data []), w')
    /\ heap w' = heap w ++ [buffered gdf_obs].
Proof.
  intros Hr.
  pose (w2 := set_heap (fun h => <[length (heap w) := buffered gdf_obs]> h)
                (set_heap (fun h => h ++ [gdf_obs]) w)).
  assert (Hheap2 : heap w2 = heap w ++ [buffered gdf_obs]).
  { unfold w2; simpl.
    replace (length (heap w)) with (length (heap w) + 0)%nat by lia.
    now rewrite insert_app_r. }
  destruct (analyse_layers_spec r (length (heap w)) (study_area gdf_obs) gdf_obs
              (buffered gdf_obs) logging_data [] w2) as (w' & Hrun & Hheap).
  - rewrite Hheap2. apply lookup_app_l_Some. exact Hr.
  - rewrite Hheap2. now rewrite list_lookup_middle.
  - exists w'. split; [|now rewrite Hheap, Hheap2].
    unfold run_spatial_analysis, copy, buffer_in_place.
    unfold mbind at 1, run_bind at 1. unfold deref at 1. rewrite Hr.
    unfold mbind at 1, run_bind at 1.
    unfold mbind at 1, run_bind at 1. unfold deref at 1. rewrite Hr.
    unfold new_object.
    unfold mbind at 1, run_bind at 1.
    unfold mbind at 1, run_bind at 1. unfold deref at 1.
    cbn [heap set_heap]. rewrite list_lookup_middle by reflexivity.
    unfold assign. exact Hrun.
Qed.

(** ** Spatial Matcher: the merge step *)

Lemma keep_first_prefers_head l l' m x :
  m ∈ keep_first [] (l ++ l') -> x ∈ l -> index x = index m -> m ∈ l.
Proof.
  intros Hm Hx Hi.
  apply keep_first_is_first in Hm as (l1 & l2 & Heq & Hfirst).
  apply app_eq_app in Heq as [t [[-> Ht]|[-> Ht]]].
  - destruct t as [|m' t].
    + exfalso. rewrite app_nil_r in Hx. now apply (Hfirst x).
    + injection Ht as <- _. apply elem_of_app. right. now left.
  - exfalso. apply (Hfirst x); [|assumption]. apply elem_of_app. now left.
Qed.



(** ** Spatial Matcher: status and geometry *)

Lemma Inuti_not_Nara : Inuti ≠ Nara.
Proof. discriminate. Qed.

Lemma label_unique (l : list GeoRow) x y :
  NoDup (map index l) -> x ∈ l -> y ∈ l -> index x = index y -> x = y.
Proof.
  intros Hnd Hx Hy Hi.
  apply list_elem_of_lookup in Hx as [i Hx]. apply list_elem_of_lookup in Hy as [j Hy].
  assert (i = j) as ->.
  { eapply NoDup_lookup; [exact Hnd| |].
    - rewrite list_lookup_fmap, Hx. reflexivity.
    - rewrite list_lookup_fmap, Hy. simpl. now rewrite Hi. }
  congruence.
Qed.

(** C5. With unique index labels on the observations and on the areas, a
    merged row whose observation point lies within the matched area is tagged
    [Inuti], and a row tagged [Nara] has a buffered disc that meets the
    matched area and a point that does not lie within it. *)
Theorem C5_status_matches_geometry
    (w : World) (r_obs : nat) (gdf_obs : GeoDataFrame)
    (logging_data : list (string * GeoDataFrame)) :
  heap w !! r_obs = Some gdf_obs ->
  NoDup (map index (rows gdf_obs)) ->
  (forall key gdf_logging, (key, gdf_logging) ∈ logging_data ->
     NoDup (map index (rows gdf_logging))) ->
  exists results w',
    run_spatial_analysis r_obs logging_data w = (inr results, w') /\
    forall key res, dict_get key results = Some res ->
      exists gdf_logging, (key, gdf_logging) ∈ logging_data /\
        forall m o a,
          m ∈ rows (matches res) -> o ∈ rows gdf_obs -> a ∈ rows gdf_logging ->
          pair_of m = (index o, index_cell (index a)) ->
          (within (geometry o) (geometry a) = true -> status_of m = Inuti)
          /\ (status_of m = Nara ->
                intersects (buffer (geometry o) 50) (geometry a) = true
                /\ within (geometry o) (geometry a) = false).
Proof.
  intros Hr Hobs Hlog.
  destruct (run_spatial_analysis_spec w r_obs gdf_obs logging_data Hr) as (w' & Hrun & _).
  eexists _, w'. split; [exact Hrun|].
  intros key res Hget. apply results_of_get in Hget as [(gl & Hin & ->)|Hget];
    [|discriminate].
  exists gl. split; [exact Hin|].
  intros m o a Hm Ho Ha Hpair. unfold pair_of in Hpair. injection Hpair as Hmi Hma.
  unfold layer_result in Hm; cbn [matches] in Hm. rewrite rows_combine in Hm.
  set (relevant := relevant_logging (study_area gdf_obs) gl) in *.
  (* the row comes from one of the two joins, over a relevant area labelled as [a] *)
  assert (Harea : a ∈ rows relevant).
  { pose proof (keep_first_elem _ _ _ Hm) as [Hsrc _].
    apply elem_of_app in Hsrc as [Hsrc|Hsrc];
      [apply in_zone_row in Hsrc as (o' & a' & _ & Ha' & _ & _ & _ & Hra)
      |apply all_near_row in Hsrc as (o' & a' & _ & Ha' & _ & _ & _ & Hra)];
      rewrite Hma in Hra; apply index_cell_inj in Hra;
      pose proof Ha' as Ha'l; apply relevant_row in Ha'l as [Ha'l _];
      rewrite (label_unique _ a a' (Hlog _ _ Hin) Ha Ha'l Hra); exact Ha'. }
  assert (Hinside : within (geometry o) (geometry a) = true -> status_of m = Inuti).
  { intros Hw. destruct (in_zone_has gdf_obs relevant o a Ho Harea Hw) as (x & Hx & Hpx).
    unfold pair_of in Hpx. injection Hpx as Hxi _.
    eapply (keep_first_prefers_head _ _ m x) in Hm; [|exact Hx|congruence].
    apply in_zone_row in Hm as (_ & _ & _ & _ & _ & _ & Hs & _). exact Hs. }
  split; [exact Hinside|].
  intros Hnara. split.
  - pose proof (keep_first_elem _ _ _ Hm) as [Hsrc _].
    apply elem_of_app in Hsrc as [Hsrc|Hsrc].
    + apply in_zone_row in Hsrc as (_ & _ & _ & _ & _ & _ & Hs & _).
      rewrite Hs in Hnara. now apply Inuti_not_Nara in Hnara.
    + apply all_near_row in Hsrc as (o' & a' & Ho' & Ha' & Hp & Hio & _ & Hra).
      rewrite Hma in Hra. apply index_cell_inj in Hra.
      pose proof Ha' as Ha'l; apply relevant_row in Ha'l as [Ha'l _].
      rewrite (label_unique _ a a' (Hlog _ _ Hin) Ha Ha'l Hra).
      rewrite (label_unique _ o o' Hobs Ho Ho'); [exact Hp|congruence].
  - destruct (within (geometry o) (geometry a)) eqn:Hw; [|reflexivity].
    rewrite (Hinside eq_refl) in Hnara. now apply Inuti_not_Nara in Hnara.
Qed.

(** ** Spatial Matcher: inside pairs among the near pairs *)

Lemma filter_length_le {A} (p q : A -> bool) (l : list A) :
  (forall a, p a = true -> q a = true) ->
  (length (List.filter p l) <= length (List.filter q l))%nat.
Proof.
  intros Hpq. induction l as [|a l IH]; simpl; [lia|].
  destruct (p a) eqn:Hp.
  - rewrite (Hpq a Hp). simpl. lia.
  - destruct (q a); simpl; lia.
Qed.

(** C6. Provided a geometry is covered by its buffer, every (observation,
    area) pair of [in_zone] is a pair of [all_near], and [in_zone] has no
    more rows than [all_near], in every layer. *)
Theorem C6_inside_pairs_among_near_pairs
    (gdf_obs gdf_logging : GeoDataFrame) :
  buffer_covers G ->
  let relevant := relevant_logging (study_area gdf_obs) gdf_logging in
  let inside := rows (in_zone gdf_obs relevant) in
  let near := rows (all_near (buffered gdf_obs) relevant) in
  (forall x, x ∈ inside -> pair_of x ∈ map pair_of near)
  /\ (length inside <= length near)%nat.
Proof.
  intros Hcov relevant inside near. split.
  - intros x Hx. pose proof Hx as Hx'.
    apply in_zone_row in Hx' as (o & a & Ho & Ha & Hw & Hi & _ & Hra).
    destruct (all_near_has gdf_obs relevant o a Ho Ha (Hcov _ _ Hw)) as (y & Hy & Hpy).
    apply list_elem_of_fmap. exists y. split; [|exact Hy].
    rewrite Hpy. unfold pair_of. now rewrite Hi, Hra.
  - unfold inside, near, in_zone, all_near, map_geo_column, sjoin, buffered, map_geometry.
    cbn [rows columns]. rewrite !length_map.
    induction (rows gdf_obs) as [|o l IH]; [simpl; lia|].
    cbn [map flat_map]. rewrite !length_app, !length_map. cbn [geometry].
    pose proof (filter_length_le
                  (fun r => within (geometry o) (geometry r))
                  (fun r => intersects (buffer (geometry o) 50) (geometry r))
                  (rows relevant) (fun a => Hcov (geometry o) (geometry a))).
    lia.
Qed.

(** ** Spatial Matcher: the caller's frame *)

(** C10. The Matcher returns and leaves the caller's observation frame, and
    every other object already on the heap, as it was; the buffered geometry
    is on a new object. *)
Theorem C10_observations_not_mutated
    (w : World) (r_obs : nat) (gdf_obs : GeoDataFrame)
    (logging_data : list (string * GeoDataFrame)) :
  heap w !! r_obs = Some gdf_obs ->
  exists results w',
    run_spatial_analysis r_obs logging_data w = (inr results, w')
    /\ heap w' !! r_obs = Some gdf_obs
    /\ (forall r, (r < length (heap w))%nat -> heap w' !! r = heap w !! r)
    /\ heap w' !! length (heap w) = Some (buffered gdf_obs).
Proof.
  intros Hr. destruct (run_spatial_analysis_spec w r_obs gdf_obs logging_data Hr)
    as (w' & Hrun & Hheap).
  eexists _, w'. split; [exact Hrun|]. rewrite Hheap. split; [|split].
  - now apply lookup_app_l_Some.
  - intros r Hlt. now apply lookup_app_l.
  - now apply list_lookup_middle.
Qed.

(** The copy matters: the same assignment on the caller's object would
    replace its geometry. *)
Lemma buffer_in_place_overwrites w r g :
  heap w !! r = Some g ->
  exists w', buffer_in_place r 50 w = (inr tt, w') /\ heap w' !! r = Some (buffered g).
Proof.
  intros Hr. eexists. split.
  - unfold buffer_in_place. rewrite (run_bind_ok (deref r) _ w g w) by now apply deref_ok.
    reflexivity.
  - simpl. apply list_lookup_insert_eq. eapply lookup_lt_Some, Hr.
Qed.

(** ** Observation Loader: what is parsed *)

Lemma clean_file_run cfg f w :
  clean_file cfg f w
  = (clean_table cfg f, set_stdout (fun out => out ++ [MsgReadingFile (f_name f)]) w).
Proof.
  unfold clean_file, clean_table.
  rewrite (run_bind_ok (print _) _ w tt _) by reflexivity.
  cbv zeta. unfold require_column.
  destruct (in_columns "Ost" _); [|reflexivity].
  rewrite (run_bind_ok (mret tt) _ _ tt _) by reflexivity.
  destruct (in_columns "Nord" _); [|reflexivity].
  rewrite (run_bind_ok (mret tt) _ _ tt _) by reflexivity.
  reflexivity.
Qed.

Lemma clean_files_run cfg fs :
  forall w, exists w',
    clean_files cfg fs w = (clean_tables cfg fs, w')
    /\ parquet w' = parquet w /\ unwritable w' = unwritable w
    /\ exists out, stdout w' = stdout w ++ out.
Proof.
  induction fs as [|f fs IH]; intros w.
  - exists w. repeat split. exists []. now rewrite app_nil_r.
  - cbn [clean_files clean_tables].
    pose proof (clean_file_run cfg f w) as Hf.
    destruct (clean_table cfg f) as [e|df].
    + eexists. rewrite (run_bind_raise _ _ _ _ _ Hf). repeat split. eexists; reflexivity.
    + rewrite (run_bind_ok _ _ _ _ _ Hf).
      destruct (IH (set_stdout (fun out => out ++ [MsgReadingFile (f_name f)]) w))
        as (w' & Hfs & Hp & Hu & out & Hout).
      exists w'. destruct (clean_tables cfg fs) as [e|dfs].
      * rewrite (run_bind_raise _ _ _ _ _ Hfs). repeat split; try assumption.
        eexists. rewrite Hout. simpl. now rewrite <- app_assoc.
      * rewrite (run_bind_ok _ _ _ _ _ Hfs). repeat split; try assumption.
        eexists. rewrite Hout. simpl. now rewrite <- app_assoc.
Qed.

(** The attempt to write the cache (lines 102-106) never raises: a failed
    write leaves the files as they were and prints the warning. *)
Lemma cache_attempt_run g path w :
  exists w',
    try_except (to_parquet g path;; print (MsgObsCacheCreated (length (rows g))))
               (fun e => print (MsgObsCacheWarning e)) w = (inr tt, w')
    /\ (path ∈ unwritable w ->
          parquet w' = parquet w
          /\ stdout w' = stdout w ++ [MsgObsCacheWarning (OSError path)])
    /\ (path ∉ unwritable w ->
          parquet w' = <[path := g]> (parquet w)
          /\ stdout w' = stdout w ++ [MsgObsCacheCreated (length (rows g))]).
Proof.
  unfold try_except, to_parquet, mbind, run_bind.
  destruct (bool_decide_reflect (path ∈ unwritable w)) as [Hin|Hout].
  - eexists. split; [reflexivity|]. split; [auto|contradiction].
  - eexists. split; [reflexivity|]. split; [contradiction|auto].
Qed.

(** Without a cache and with input files, the Loader returns the parsed
    collection or raises what the parsing raises, whether or not the cache
    can be written. *)
Lemma load_observations_parses cfg w :
  parquet w !! cache_obs cfg = None ->
  xlsx_files w ≠ [] ->
  exists w',
    load_observations cfg w = (parsed_observations cfg (xlsx_files w), w')
    /\ forall g, parsed_observations cfg (xlsx_files w) = inr g ->
         (cache_obs cfg ∈ unwritable w ->
            parquet w' = parquet w
            /\ MsgObsCacheWarning (OSError (cache_obs cfg)) ∈ stdout w')
         /\ (cache_obs cfg ∉ unwritable w ->
               parquet w' = <[cache_obs cfg := g]> (parquet w)).
Proof.
  intros Hcache Hfiles. unfold load_observations.
  assert (Hex : path_exists (cache_obs cfg) w = (inr false, w)).
  { unfold path_exists. rewrite Hcache. reflexivity. }
  rewrite (run_bind_ok _ _ _ _ _ Hex).
  set (w1 := set_stdout (fun out => out ++ [MsgReadingDir]) w).
  rewrite (run_bind_ok (print MsgReadingDir) _ w tt w1) by reflexivity.
  rewrite (run_bind_ok get_world _ w1 w1 w1) by reflexivity.
  change (xlsx_files w1) with (xlsx_files w).
  destruct (xlsx_files w) as [|f fs] eqn:Hfs; [contradiction|].
  destruct (clean_files_run cfg (f :: fs) w1) as (w2 & Hrun & Hp & Hu & out & Hout).
  unfold parsed_observations. destruct (clean_tables cfg (f :: fs)) as [e|dfs].
  - exists w2. rewrite (run_bind_raise _ _ _ _ _ Hrun). split; [reflexivity|].
    intros g Hg. discriminate.
  - rewrite (run_bind_ok _ _ _ _ _ Hrun). cbv zeta.
    set (g := with_point_geometry (cfg_crs cfg) (normalize_text (concat_ignore_index dfs))).
    destruct (cache_attempt_run g (cache_obs cfg) w2) as (w3 & Htry & Hfail & Hok).
    exists w3. rewrite (run_bind_ok _ _ _ _ _ Htry). split; [reflexivity|].
    intros g' Hg'. injection Hg' as <-. rewrite Hu in Hfail, Hok. split.
    + intros Hin. destruct (Hfail Hin) as [Hp3 Hs3]. split; [now rewrite Hp3, Hp|].
      rewrite Hs3. apply elem_of_app. right. now left.
    + intros Hnot. destruct (Hok Hnot) as [Hp3 _]. now rewrite Hp3, Hp.
Qed.

(** ** Observation Loader: the accuracy filter *)




Lemma cell_le_threshold c : cell_le c 50 = true -> within_threshold c.
Proof.
  destruct c as [q| | |]; simpl; try discriminate.
  intros H. exists q. split; [reflexivity|]. now apply Qle_bool_iff.
Qed.

(** What lines 75-79 keep, when the column is there: numbers up to 50. *)
Lemma accuracy_filter_keeps_numbers df :
  in_columns "Noggrannhet" (df_columns df) = true ->
  accuracy_all within_threshold (accuracy_filter df).
Proof.
  intros Hcol. unfold accuracy_filter. rewrite Hcol.
  unfold accuracy_all, filter_rows; simpl. apply Forall_forall. intros r Hr.
  apply list_elem_of_In, filter_In in Hr as [_ Hr]. now apply cell_le_threshold.
Qed.

(** A row without a usable accuracy value does not pass lines 75-79. *)
Lemma accuracy_filter_drops_missing df r :
  in_columns "Noggrannhet" (df_columns df) = true ->
  r ∈ df_rows df -> to_numeric (accuracy (row_cells r)) = CNaN ->
  {| row_index := row_index r;
     row_cells := <["Noggrannhet" := CNaN]> (row_cells r) |} ∉ df_rows (accuracy_filter df).
Proof.
  intros Hcol _ Hnan Hin.
  pose proof (accuracy_filter_keeps_numbers df Hcol) as Hall.
  unfold accuracy_all in Hall. rewrite Forall_forall in Hall.
  apply Hall in Hin as (q & Hq & _). simpl in Hq.
  unfold accuracy, get_cell in Hq. rewrite lookup_insert_eq in Hq. discriminate.
Qed.











(** ** Logging Layer Loader: the time filter *)

Lemma time_filter_run key start_year gdf w :
  exists w',
    time_filter key start_year gdf w = (inr (year_filtered key start_year gdf), w')
    /\ parquet w' = parquet w /\ unwritable w' = unwritable w /\ gpkg w' = gpkg w.
Proof.
  unfold time_filter, year_filtered. cbv zeta.
  destruct (in_columns _ _); [|exists w; auto].
  destruct (0 <? _)%nat.
  - eexists. rewrite (run_bind_ok (print _) _ w tt _) by reflexivity.
    split; [reflexivity|auto].
  - eexists. rewrite (run_bind_ok (mret tt) _ w tt _) by reflexivity.
    split; [reflexivity|auto].
Qed.

Lemma rows_filter_from_year date_col start_year gdf :
  rows (filter_from_year date_col start_year gdf)
  = map (coerce_date date_col)
        (List.filter (fun r => year_ge (to_datetime (get_cell date_col (cells r))) start_year)
                     (rows gdf)).
Proof.
  unfold filter_from_year, filter_geo_rows, map_geo_column; simpl.
  induction (rows gdf) as [|r l IH]; [reflexivity|]. simpl.
  unfold get_cell at 1. rewrite lookup_insert_eq. simpl.
  destruct (year_ge _ _); [|exact IH]. simpl. now rewrite IH.
Qed.

Lemma year_ge_parsed c y :
  year_ge c y = true -> exists t, c = CTime t /\ y <= ts_year t.
Proof.
  destruct c as [| |t|]; simpl; try discriminate.
  intros H. exists t. split; [reflexivity|lia].
Qed.


Lemma columns_filter_from_year date_col start_year gdf :
  in_columns date_col (columns gdf) = true ->
  columns (filter_from_year date_col start_year gdf) = columns gdf.
Proof. intros H. unfold filter_from_year; simpl. now rewrite H. Qed.




(** ** Logging Layer Loader: layers read from the cache *)

Lemma load_layer_cached cfg bbox start_year key filename w cached :
  cached_frame cfg (parquet w) key = Some cached ->
  exists w',
    load_layer cfg bbox start_year key filename w
    = (inr (year_filtered key start_year cached), w')
    /\ parquet w' = parquet w.
Proof.
  unfold cached_frame, load_layer.
  destruct (dict_get key (cache_layers cfg)) as [path|]; [|discriminate].
  intros Hc.
  assert (Hex : forall v, parquet v = parquet w -> path_exists path v = (inr true, v)).
  { intros v Hv. unfold path_exists. rewrite Hv, Hc.
    now rewrite bool_decide_true by eauto. }
  rewrite (run_bind_ok _ _ _ _ _ (Hex w eq_refl)).
  set (w1 := set_stdout (fun out => out ++ [MsgLayerFromCache key]) w).
  assert (Hread : (print (MsgLayerFromCache key);; read_parquet path) w = (inr cached, w1)).
  { rewrite (run_bind_ok (print _) _ w tt w1) by reflexivity.
    unfold read_parquet. change (parquet w1) with (parquet w). now rewrite Hc. }
  rewrite (run_bind_ok _ _ _ _ _ Hread).
  destruct (time_filter_run key start_year cached w1) as (w2 & Hrun & Hp & _).
  rewrite (run_bind_ok _ _ _ _ _ Hrun).
  rewrite (run_bind_ok _ _ _ _ _ (Hex w2 Hp)).
  rewrite (run_bind_ok (mret tt) _ w2 tt w2) by reflexivity.
  exists w2. split; [reflexivity|exact Hp].
Qed.

Lemma load_layers_cached cfg bbox start_year todo :
  forall acc w,
    (forall kf, kf ∈ todo -> is_Some (cached_frame cfg (parquet w) kf.1)) ->
    exists w',
      load_layers cfg bbox start_year todo acc w
      = (inr (layers_from_cache cfg start_year (parquet w) todo acc), w')
      /\ parquet w' = parquet w.
Proof.
  induction todo as [|[key fn] todo IH]; intros acc w Hall.
  - exists w. split; reflexivity.
  - destruct (Hall (key, fn)) as [c Hc]; [now left|]. simpl in Hc.
    destruct (load_layer_cached cfg bbox start_year key fn w c Hc) as (w1 & Hrun & Hp).
    cbn [load_layers layers_from_cache fold_left]. rewrite (run_bind_ok _ _ _ _ _ Hrun).
    simpl. rewrite Hc.
    destruct (IH (dict_set key (year_filtered key start_year c) acc) w1) as (w2 & Hrest & Hp2).
    { intros kf Hkf. rewrite Hp. apply Hall. now right. }
    exists w2. rewrite Hp in Hrest. split; [exact Hrest|congruence].
Qed.

Lemma layers_from_cache_keeps cfg start_year files key c todo :
  cached_frame cfg files key = Some c ->
  forall acc,
    dict_get key acc = Some (year_filtered key start_year c) ->
    dict_get key (layers_from_cache cfg start_year files todo acc)
    = Some (year_filtered key start_year c).
Proof.
  intros Hc. induction todo as [|[k fn] todo IH]; intros acc Hacc; [exact Hacc|].
  cbn [layers_from_cache fold_left]. apply IH. simpl.
  destruct (cached_frame cfg files k) as [c'|] eqn:Hk; [|exact Hacc].
  rewrite dict_get_set. destruct (bool_decide_reflect (key = k)) as [->|]; [|exact Hacc].
  congruence.
Qed.

Lemma layers_from_cache_get cfg start_year files key fn c todo :
  (key, fn) ∈ todo -> cached_frame cfg files key = Some c ->
  forall acc,
    dict_get key (layers_from_cache cfg start_year files todo acc)
    = Some (year_filtered key start_year c).
Proof.
  intros Hin Hc. induction todo as [|[k f'] todo IH]; intros acc; [inversion Hin|].
  cbn [layers_from_cache fold_left].
  apply elem_of_cons in Hin as [Heq|Hin]; [|now apply IH].
  injection Heq as <- <-. apply (layers_from_cache_keeps _ _ _ _ _ _ Hc).
  simpl. rewrite Hc, dict_get_set. now rewrite bool_decide_true.
Qed.

(** C4, as the code has it. When the cache file of every layer exists, the
    Loader returns, writes no file, and gives for each layer the cached
    collection passed through the time filter only: neither the bounding
    box nor a reprojection is applied, but rows before the start year or
    without a parsable date are removed again. A second run, at whatever
    bounding box, returns the same dict. *)
Theorem C4_cached_layers_are_time_filtered_only
    (cfg : Config) (bbox : BBox) (start_year : Z) (w : World) :
  (forall kf, kf ∈ layers cfg -> is_Some (cached_frame cfg (parquet w) kf.1)) ->
  exists ld w',
    load_filtered_logging cfg bbox start_year w = (inr ld, w')
    /\ parquet w' = parquet w
    /\ (forall key filename cached,
          (key, filename) ∈ layers cfg ->
          cached_frame cfg (parquet w) key = Some cached ->
          dict_get key ld = Some (year_filtered key start_year cached))
    /\ (forall bbox2, exists w2,
          load_filtered_logging cfg bbox2 start_year w' = (inr ld, w2)).
Proof.
  intros Hall. unfold load_filtered_logging.
  destruct (load_layers_cached cfg bbox start_year (layers cfg) [] w Hall)
    as (w' & Hrun & Hp).
  eexists _, w'. split; [exact Hrun|]. split; [exact Hp|]. split.
  - intros key filename cached Hin Hc. eapply layers_from_cache_get; eassumption.
  - intros bbox2.
    destruct (load_layers_cached cfg bbox2 start_year (layers cfg) [] w') as (w2 & Hrun2 & _).
    { intros kf Hkf. rewrite Hp. now apply Hall. }
    exists w2. now rewrite Hrun2, Hp.
Qed.

(** A cached layer whose rows all carry parsed dates from the start year on
    does come back row for row. *)
Lemma filter_from_year_keeps_all date_col start_year gdf :
  Forall (fun r => year_ge (get_cell date_col (cells r)) start_year = true) (rows gdf) ->
  map index (rows (filter_from_year date_col start_year gdf)) = map index (rows gdf).
Proof.
  rewrite rows_filter_from_year. induction 1 as [|r l Hr _ IH]; [reflexivity|].
  simpl. apply year_ge_parsed in Hr as (t & Ht & Hy). rewrite Ht. simpl.
  replace (start_year <=? ts_year t) with true by (symmetry; lia).
  simpl. now rewrite IH.
Qed.

(** ** Logging Layer Loader: writing the cache *)

(** Lines 151-153 are not guarded: where the layer cache cannot be written,
    the exception leaves [load_layer]. *)
Lemma load_layer_write_failure cfg bbox start_year key filename w path src :
  dict_get key (cache_layers cfg) = Some path ->
  parquet w !! path = None ->
  gpkg w !! filename = Some src ->
  path ∈ unwritable w ->
  exists w', load_layer cfg bbox start_year key filename w = (inl (OSError path), w').
Proof.
  intros Hpath Hnone Hsrc Hro. unfold load_layer. rewrite Hpath.
  assert (Hex : forall v, parquet v = parquet w -> path_exists path v = (inr false, v)).
  { intros v Hv. unfold path_exists. now rewrite Hv, Hnone. }
  rewrite (run_bind_ok _ _ _ _ _ (Hex w eq_refl)).
  set (w1 := set_stdout (fun out => out ++ [MsgFilteringBBox filename]) w).
  assert (Hread : exists g0,
    (print (MsgFilteringBBox filename);;
     gdf ← read_file filename bbox;
     (if bool_decide (crs gdf = cfg_crs cfg) then mret gdf
      else mret (to_crs (cfg_crs cfg) gdf))) w = (inr g0, w1)).
  { rewrite (run_bind_ok (print _) _ w tt w1) by reflexivity.
    unfold read_file, mbind at 1, run_bind at 1. change (gpkg w1) with (gpkg w).
    rewrite Hsrc. destruct (bool_decide _); eexists; reflexivity. }
  destruct Hread as (g0 & Hread). rewrite (run_bind_ok _ _ _ _ _ Hread).
  destruct (time_filter_run key start_year g0 w1) as (w2 & Hrun & Hp & Hu & _).
  rewrite (run_bind_ok _ _ _ _ _ Hrun).
  rewrite (run_bind_ok _ _ _ _ _ (Hex w2 Hp)).
  exists w2. apply run_bind_raise. unfold to_parquet.
  rewrite bool_decide_true; [reflexivity|]. now rewrite Hu.
Qed.

(** ** Reporter: the share of affected areas *)

Lemma true_div_nonzero a b w :
  b ≠ 0%nat -> true_div a b w = (inr (Z.of_nat a # Pos.of_nat b), w).
Proof. destruct b; [contradiction|reflexivity]. Qed.

Lemma true_div_zero a w : true_div a 0 w = (inl ZeroDivisionError, w).
Proof. reflexivity. Qed.

(** Line 274 divides by the count of relevant areas as it is: with no
    relevant area the statistics of the layer raise. *)
Lemma describe_layer_zero_relevant results key res w :
  dict_get key results = Some res ->
  in_columns "Status_Analys" (columns (matches res)) = true ->
  in_columns "index_right" (columns (matches res)) = true ->
  total_relevant_count res = 0%nat ->
  describe_layer results key w = (inl ZeroDivisionError, w).
Proof.
  intros Hget Hs Hi Hz. unfold describe_layer. rewrite Hget. cbv zeta.
  unfold require_column. rewrite Hs, Hi, Hz.
  rewrite (run_bind_ok (mret tt) _ w tt w) by reflexivity.
  rewrite (run_bind_ok (mret tt) _ w tt w) by reflexivity.
  apply run_bind_raise. reflexivity.
Qed.

(** With relevant areas, the share is affected / relevant * 100. *)
Lemma describe_layer_share results key res w :
  dict_get key results = Some res ->
  in_columns "Status_Analys" (columns (matches res)) = true ->
  in_columns "index_right" (columns (matches res)) = true ->
  total_relevant_count res ≠ 0%nat ->
  exists n_inuti n_nara areas_inuti areas_nara_only,
    let affected := length (unique (column_values "index_right" (matches res))) in
    describe_layer results key w =
    (inr tt,
     set_stdout (fun out => out ++
       [MsgLayerStats key n_inuti n_nara areas_inuti areas_nara_only affected
          (total_relevant_count res)
          ((Z.of_nat affected # Pos.of_nat (total_relevant_count res)) * 100)%Q]) w).
Proof.
  intros Hget Hs Hi Hnz. unfold describe_layer. rewrite Hget. cbv zeta.
  unfold require_column. rewrite Hs, Hi.
  rewrite (run_bind_ok (mret tt) _ w tt w) by reflexivity.
  rewrite (run_bind_ok (mret tt) _ w tt w) by reflexivity.
  rewrite (run_bind_ok _ _ _ _ _ (true_div_nonzero _ _ w Hnz)).
  do 4 eexists. reflexivity.
Qed.

(** ** The script: an empty collection *)

Lemma series_min_nil : series_min [] = None.
Proof. reflexivity. Qed.


(** * Further properties *)

(** ** Observation Loader: columns through the cleaning *)

Lemma map_column_other (Pc : cell -> Prop) c c' f df :
  c' ≠ c -> column_all c Pc df -> column_all c Pc (map_column c' f df).
Proof.
  intros Hc H. unfold column_all, map_column; simpl.
  apply Forall_map. eapply Forall_impl; [exact H|]. intros r Hr; simpl.
  unfold get_cell in *. now rewrite lookup_insert_ne.
Qed.

Lemma map_column_same (Pc : cell -> Prop) c f df :
  (forall v, Pc (f v)) -> column_all c Pc (map_column c f df).
Proof.
  intros Hf. unfold column_all, map_column; simpl.
  apply Forall_map, Forall_forall. intros r _; simpl.
  unfold get_cell at 1. rewrite lookup_insert_eq. apply Hf.
Qed.

Lemma filter_rows_column (Pc : cell -> Prop) c keep df :
  column_all c Pc df -> column_all c Pc (filter_rows keep df).
Proof.
  unfold column_all, filter_rows; simpl. rewrite !Forall_forall.
  intros H r Hr. apply H. apply list_elem_of_In. apply list_elem_of_In in Hr.
  now apply filter_In in Hr as [Hr _].
Qed.

Lemma accuracy_filter_column (Pc : cell -> Prop) c df :
  c ≠ "Noggrannhet" -> column_all c Pc df -> column_all c Pc (accuracy_filter df).
Proof.
  intros Hc H. unfold accuracy_filter. destruct (in_columns _ _); [|exact H].
  apply filter_rows_column, map_column_other; [congruence|exact H].
Qed.

Lemma antal_to_numeric_column (Pc : cell -> Prop) c df :
  c ≠ "Antal" -> column_all c Pc df -> column_all c Pc (antal_to_numeric df).
Proof.
  intros Hc H. unfold antal_to_numeric. destruct (in_columns _ _); [|exact H].
  apply map_column_other; [congruence|exact H].
Qed.

Lemma to_numeric_number_or_missing v : number_or_missing (to_numeric v).
Proof.
  destruct v as [q|s|t|]; simpl.
  - right. now exists q.
  - destruct (parse_numeric s) as [q|]; [right; now exists q|now left].
  - now left.
  - now left.
Qed.

(** [dropna] leaves no missing value in the columns of its subset. *)
Lemma dropna_column (Pc : cell -> Prop) c subset df :
  c ∈ subset -> column_all c Pc df ->
  column_all c (fun v => Pc v /\ v ≠ CNaN) (dropna subset df).
Proof.
  intros Hc H. unfold column_all, dropna, filter_rows in *; simpl.
  rewrite Forall_forall in *. intros r Hr.
  apply list_elem_of_In, filter_In in Hr as [Hr Hkeep].
  split; [apply H; now apply list_elem_of_In|].
  rewrite forallb_forall in Hkeep. apply list_elem_of_In in Hc.
  specialize (Hkeep c Hc). intros Hnan. rewrite Hnan in Hkeep. discriminate.
Qed.

Lemma is_object_column_false (Pc : cell -> Prop) c df :
  (forall s, ~ Pc (CStr s)) -> column_all c Pc df -> is_object_column c df = false.
Proof.
  intros Htext H. unfold is_object_column, column_all in *.
  induction H as [|r l Hr _ IH]; simpl; [reflexivity|]. rewrite IH.
  destruct (get_cell _ _) eqn:Hc; try reflexivity.
  now apply Htext in Hr.
Qed.

Lemma normalize_text_column (Pc : cell -> Prop) c df :
  (forall s, ~ Pc (CStr s)) -> column_all c Pc df -> column_all c Pc (normalize_text df).
Proof.
  intros Htext. unfold normalize_text. generalize (df_columns df) as cols.
  intros cols. revert df. induction cols as [|c' cols IH]; intros df H; [exact H|].
  cbn [fold_left]. apply IH.
  destruct (decide (c' = c)) as [->|Hne].
  - now rewrite (is_object_column_false Pc c df Htext H).
  - destruct (_ && _); [|exact H]. now apply map_column_other.
Qed.

Lemma concat_ignore_index_column (Pc : cell -> Prop) c dfs :
  Forall (column_all c Pc) dfs -> column_all c Pc (concat_ignore_index dfs).
Proof.
  intros H. unfold column_all, concat_ignore_index; simpl.
  apply Forall_forall. intros x Hx.
  apply elem_of_lookup_imap_1 in Hx as (i & y & -> & Hy). simpl.
  apply list_elem_of_lookup_2, list_elem_of_In, in_concat in Hy as (l & Hl & Hy).
  apply in_map_iff in Hl as (df & <- & Hdf).
  rewrite Forall_forall in H. apply list_elem_of_In in Hdf. specialize (H df Hdf).
  unfold column_all in H. rewrite Forall_forall in H.
  apply H. now apply list_elem_of_In.
Qed.

Lemma number_not_missing v : number_or_missing v /\ v ≠ CNaN -> is_number v.
Proof. intros [[H|H] Hn]; [contradiction|exact H]. Qed.

(** The rows cleaned from one file have numbers in both coordinate columns. *)
Lemma clean_table_coordinates cfg f df :
  clean_table cfg f = inr df ->
  column_all "Ost" is_number df /\ column_all "Nord" is_number df.
Proof.
  unfold clean_table. cbv zeta.
  destruct (in_columns "Ost" _); [|discriminate].
  destruct (in_columns "Nord" _); [|discriminate].
  intros Hdf. injection Hdf as <-.
  set (df1 := map_column "Ost" to_numeric _).
  assert (Hrest : forall c, c = "Ost" \/ c = "Nord" ->
            column_all c number_or_missing (map_column "Nord" to_numeric df1) ->
            column_all c is_number
              (map_column "Källa" (fun _ => CStr (f_name f))
                 (dropna ["Ost"; "Nord"]
                    (antal_to_numeric (accuracy_filter (map_column "Nord" to_numeric df1)))))).
  { intros c Hc H. apply map_column_other; [destruct Hc as [->| ->]; discriminate|].
    assert (Hin : c ∈ ["Ost"; "Nord"]).
    { destruct Hc as [->| ->]; [now left|right; now left]. }
    pose proof (dropna_column number_or_missing c ["Ost"; "Nord"]
                  (antal_to_numeric (accuracy_filter (map_column "Nord" to_numeric df1))) Hin)
      as Hdrop.
    unfold column_all in *. eapply Forall_impl.
    - apply Hdrop. apply antal_to_numeric_column; [destruct Hc as [->| ->]; discriminate|].
      apply accuracy_filter_column; [destruct Hc as [->| ->]; discriminate|exact H].
    - intros r Hr. now apply number_not_missing. }
  split.
  - apply Hrest; [now left|]. apply map_column_other; [discriminate|].
    apply map_column_same, to_numeric_number_or_missing.
  - apply Hrest; [now right|]. apply map_column_same, to_numeric_number_or_missing.
Qed.

Lemma clean_tables_coordinates cfg fs :
  forall dfs, clean_tables cfg fs = inr dfs ->
    Forall (column_all "Ost" is_number) dfs /\ Forall (column_all "Nord" is_number) dfs.
Proof.
  induction fs as [|f fs IH]; intros dfs; cbn [clean_tables].
  - intros H. injection H as <-. split; constructor.
  - destruct (clean_table cfg f) as [e|df] eqn:Hdf; [discriminate|].
    destruct (clean_tables cfg fs) as [e|dfs'] eqn:Hdfs; [discriminate|].
    intros H. injection H as <-.
    destruct (clean_table_coordinates cfg f df Hdf) as [H1 H2].
    destruct (IH dfs' eq_refl) as [I1 I2]. split; now constructor.
Qed.

Lemma is_number_not_text s : ~ is_number (CStr s).
Proof. intros [q Hq]. discriminate. Qed.

(** What a run of the Loader that parses the files returns. *)
Lemma load_observations_parsed_inv cfg w g w' :
  parquet w !! cache_obs cfg = None ->
  load_observations cfg w = (inr g, w') ->
  xlsx_files w ≠ [] /\ parsed_observations cfg (xlsx_files w) = inr g.
Proof.
  intros Hcache Hload.
  assert (Hfiles : xlsx_files w ≠ []).
  { intros Hnil. unfold load_observations in Hload.
    unfold mbind at 1, run_bind at 1, path_exists in Hload. rewrite Hcache in Hload.
    simpl in Hload. unfold mbind, run_bind, print, get_world in Hload.
    simpl in Hload. rewrite Hnil in Hload. discriminate. }
  split; [exact Hfiles|].
  destruct (load_observations_parses cfg w Hcache Hfiles) as (w2 & Hrun & _).
  rewrite Hrun in Hload. now injection Hload as -> _.
Qed.

(** X4. Every observation parsed from the input files has a number in both
    coordinate columns, and its geometry is the point at these numbers. *)
Theorem X4_parsed_observations_have_coordinates
    (cfg : Config) (w w' : World) (g : GeoDataFrame) :
  parquet w !! cache_obs cfg = None ->
  load_observations cfg w = (inr g, w') ->
  forall x, x ∈ rows g ->
    exists ost nord,
      get_cell "Ost" (cells x) = CNum ost
      /\ get_cell "Nord" (cells x) = CNum nord
      /\ geometry x = points_from_xy ost nord.
Proof.
  intros Hcache Hload x Hx.
  destruct (load_observations_parsed_inv cfg w g w' Hcache Hload) as [_ Hparsed].
  unfold parsed_observations in Hparsed.
  destruct (clean_tables cfg (xlsx_files w)) as [e|dfs] eqn:Hdfs; [discriminate|].
  injection Hparsed as <-.
  destruct (clean_tables_coordinates cfg _ dfs Hdfs) as [H1 H2].
  set (df := normalize_text (concat_ignore_index dfs)) in *.
  assert (Host : column_all "Ost" is_number df).
  { apply normalize_text_column; [exact is_number_not_text|].
    now apply concat_ignore_index_column. }
  assert (Hnord : column_all "Nord" is_number df).
  { apply normalize_text_column; [exact is_number_not_text|].
    now apply concat_ignore_index_column. }
  unfold with_point_geometry in Hx; simpl in Hx.
  apply list_elem_of_fmap in Hx as (r & -> & Hr). simpl.
  unfold column_all in Host, Hnord. rewrite Forall_forall in Host, Hnord.
  destruct (Host r Hr) as [ost Ho]. destruct (Hnord r Hr) as [nord Hn].
  exists ost, nord. rewrite Ho, Hn. auto.
Qed.

(** ** Observation Loader: index labels *)

Lemma map_column_index c f df :
  map row_index (df_rows (map_column c f df)) = map row_index (df_rows df).
Proof.
  unfold map_column; simpl. rewrite map_map. reflexivity.
Qed.

Lemma normalize_text_index df :
  map row_index (df_rows (normalize_text df)) = map row_index (df_rows df).
Proof.
  unfold normalize_text. generalize (df_columns df) as cols. intros cols. revert df.
  induction cols as [|c cols IH]; intros df; [reflexivity|].
  cbn [fold_left]. rewrite IH. destruct (_ && _); [apply map_column_index|reflexivity].
Qed.

Lemma normalize_text_length df :
  length (df_rows (normalize_text df)) = length (df_rows df).
Proof.
  rewrite <- (length_map row_index), normalize_text_index. apply length_map.
Qed.

Lemma concat_ignore_index_labels dfs :
  map row_index (df_rows (concat_ignore_index dfs))
  = map Z.of_nat (seq 0 (length (df_rows (concat_ignore_index dfs)))).
Proof.
  unfold concat_ignore_index; simpl. rewrite length_imap.
  change (map row_index) with (fmap (M:=list) row_index). rewrite fmap_imap.
  apply (imap_seq_0 _ Z.of_nat).
Qed.

(** X5. The observations parsed from the input files are labelled 0, 1, 2,
    ... in order, whatever labels the rows had in their files; so no two of
    them share a label. *)
Theorem X5_parsed_observations_are_numbered
    (cfg : Config) (w w' : World) (g : GeoDataFrame) :
  parquet w !! cache_obs cfg = None ->
  load_observations cfg w = (inr g, w') ->
  map index (rows g) = map Z.of_nat (seq 0 (length (rows g)))
  /\ NoDup (map index (rows g)).
Proof.
  intros Hcache Hload.
  destruct (load_observations_parsed_inv cfg w g w' Hcache Hload) as [_ Hparsed].
  unfold parsed_observations in Hparsed.
  destruct (clean_tables cfg (xlsx_files w)) as [e|dfs] eqn:Hdfs; [discriminate|].
  injection Hparsed as <-.
  assert (Hlabels : map index (rows (with_point_geometry (cfg_crs cfg)
                                       (normalize_text (concat_ignore_index dfs))))
                    = map Z.of_nat (seq 0 (length (rows (with_point_geometry (cfg_crs cfg)
                                       (normalize_text (concat_ignore_index dfs))))))).
  { unfold with_point_geometry; simpl. rewrite map_map; simpl.
    rewrite length_map, normalize_text_length.
    change (map (fun r : Row => row_index r)) with (map row_index).
    rewrite normalize_text_index. apply concat_ignore_index_labels. }
  split; [exact Hlabels|]. rewrite Hlabels.
  apply (NoDup_fmap_2 Z.of_nat), NoDup_seq.
Qed.

(** ** Observation Loader: the cache and the input files *)

Lemma load_observations_cached cfg w g :
  parquet w !! cache_obs cfg = Some g ->
  load_observations cfg w
  = (inr g, set_stdout (fun out => out ++ [MsgObsFromCache (cache_obs cfg)]) w).
Proof.
  intros Hc. unfold load_observations.
  assert (Hex : path_exists (cache_obs cfg) w = (inr true, w)).
  { unfold path_exists. rewrite Hc. now rewrite bool_decide_true by eauto. }
  rewrite (run_bind_ok _ _ _ _ _ Hex).
  rewrite (run_bind_ok (print _) _ w tt _) by reflexivity.
  unfold read_parquet. cbn [parquet set_stdout]. now rewrite Hc.
Qed.

(** X1. After a run that parsed the input files and wrote the cache, every
    later run that finds this cache file returns the same collection and
    only prints that it loads the cache: the input files, present or not,
    changed or not, are not looked at. *)
Theorem X1_observation_cache_round_trip
    (cfg : Config) (w w' : World) (g : GeoDataFrame) :
  parquet w !! cache_obs cfg = None ->
  cache_obs cfg ∉ unwritable w ->
  load_observations cfg w = (inr g, w') ->
  parquet w' !! cache_obs cfg = Some g
  /\ forall v, parquet v !! cache_obs cfg = parquet w' !! cache_obs cfg ->
       load_observations cfg v
       = (inr g, set_stdout (fun out => out ++ [MsgObsFromCache (cache_obs cfg)]) v).
Proof.
  intros Hcache Hok Hload.
  destruct (load_observations_parsed_inv cfg w g w' Hcache Hload) as [Hfiles Hparsed].
  destruct (load_observations_parses cfg w Hcache Hfiles) as (w2 & Hrun & Hfx).
  rewrite Hrun, Hparsed in Hload. injection Hload as <-.
  destruct (Hfx g Hparsed) as [_ Hwritten]. specialize (Hwritten Hok).
  assert (Hc : parquet w2 !! cache_obs cfg = Some g).
  { rewrite Hwritten. apply lookup_insert_eq. }
  split; [exact Hc|].
  intros v Hv. apply load_observations_cached. now rewrite Hv.
Qed.

(** X2. Without a cache and without input files the Loader prints that no
    file was found and exits; no file is written. *)
Theorem X2_no_input_files_exit (cfg : Config) (w : World) :
  parquet w !! cache_obs cfg = None ->
  xlsx_files w = [] ->
  exists w',
    load_observations cfg w = (inl SystemExit, w')
    /\ stdout w' = stdout w ++ [MsgReadingDir; MsgNoFiles]
    /\ parquet w' = parquet w.
Proof.
  intros Hcache Hnil. unfold load_observations.
  assert (Hex : path_exists (cache_obs cfg) w = (inr false, w)).
  { unfold path_exists. rewrite Hcache. reflexivity. }
  rewrite (run_bind_ok _ _ _ _ _ Hex).
  set (w1 := set_stdout (fun out => out ++ [MsgReadingDir]) w).
  rewrite (run_bind_ok (print MsgReadingDir) _ w tt w1) by reflexivity.
  rewrite (run_bind_ok get_world _ w1 w1 w1) by reflexivity.
  change (xlsx_files w1) with (xlsx_files w). rewrite Hnil.
  eexists. split; [reflexivity|]. simpl. split; [|reflexivity].
  now rewrite <- app_assoc.
Qed.

Lemma clean_table_error cfg f e :
  clean_table cfg f = inl e -> e = KeyError "Ost" \/ e = KeyError "Nord".
Proof.
  unfold clean_table. cbv zeta.
  destruct (in_columns "Ost" _); [|intros H; injection H as <-; now left].
  destruct (in_columns "Nord" _); [discriminate|].
  intros H; injection H as <-; now right.
Qed.

Lemma clean_table_missing_column cfg f c :
  c = "Ost" \/ c = "Nord" ->
  c ∉ df_columns (f_sheet f) ->
  exists e, clean_table cfg f = inl e.
Proof.
  intros Hc Hmiss. unfold clean_table. cbv zeta.
  set (valid := List.filter _ (keep_cols cfg)).
  assert (Hvalid : c ∉ valid).
  { intros Hin. apply list_elem_of_In, filter_In in Hin as [_ Hin].
    apply bool_decide_eq_true in Hin. contradiction. }
  destruct (in_columns "Ost" (df_columns (select_columns valid (f_sheet f)))) eqn:Host;
    [|eauto].
  destruct (in_columns "Nord" _) eqn:Hnord; [|eauto].
  exfalso. destruct Hc as [-> | ->].
  - apply bool_decide_eq_true in Host. contradiction.
  - apply bool_decide_eq_true in Hnord. unfold map_column in Hnord; simpl in Hnord.
    simpl in Host. rewrite Host in Hnord. contradiction.
Qed.

Lemma clean_tables_error cfg fs e :
  clean_tables cfg fs = inl e -> e = KeyError "Ost" \/ e = KeyError "Nord".
Proof.
  induction fs as [|f fs IH]; cbn [clean_tables]; [discriminate|].
  destruct (clean_table cfg f) as [e'|df] eqn:Hf.
  - intros H. injection H as <-. eapply clean_table_error, Hf.
  - destruct (clean_tables cfg fs) as [e'|dfs]; [|discriminate].
    intros H. injection H as <-. now apply IH.
Qed.

Lemma clean_tables_raises cfg fs f :
  f ∈ fs -> (exists e, clean_table cfg f = inl e) -> exists e, clean_tables cfg fs = inl e.
Proof.
  intros Hin [e He]. induction fs as [|f' fs IH]; [inversion Hin|].
  cbn [clean_tables]. destruct (clean_table cfg f') as [e'|df] eqn:Hf'; [eauto|].
  apply elem_of_cons in Hin as [->|Hin]; [congruence|].
  destruct (IH Hin) as [e'' ->]. eauto.
Qed.

Lemma load_observations_raises cfg w e :
  parquet w !! cache_obs cfg = None ->
  xlsx_files w ≠ [] ->
  clean_tables cfg (xlsx_files w) = inl e ->
  exists w', load_observations cfg w = (inl e, w') /\ parquet w' = parquet w.
Proof.
  intros Hcache Hfiles Herr. unfold load_observations.
  assert (Hex : path_exists (cache_obs cfg) w = (inr false, w)).
  { unfold path_exists. rewrite Hcache. reflexivity. }
  rewrite (run_bind_ok _ _ _ _ _ Hex).
  set (w1 := set_stdout (fun out => out ++ [MsgReadingDir]) w).
  rewrite (run_bind_ok (print MsgReadingDir) _ w tt w1) by reflexivity.
  rewrite (run_bind_ok get_world _ w1 w1 w1) by reflexivity.
  change (xlsx_files w1) with (xlsx_files w).
  destruct (xlsx_files w) as [|f fs] eqn:Hfs; [contradiction|].
  destruct (clean_files_run cfg (f :: fs) w1) as (w2 & Hrun & Hp & _).
  rewrite Herr in Hrun. exists w2. rewrite (run_bind_raise _ _ _ _ _ Hrun).
  split; [reflexivity|exact Hp].
Qed.

(** X3. One input file without the column [Ost] or without the column
    [Nord] makes the whole load raise a [KeyError] for one of the two names:
    no collection is returned, whatever the other files hold, and no cache
    is written. *)
Theorem X3_missing_coordinate_column_raises
    (cfg : Config) (w : World) (f : ExcelFile) (c : string) :
  parquet w !! cache_obs cfg = None ->
  f ∈ xlsx_files w ->
  c = "Ost" \/ c = "Nord" ->
  c ∉ df_columns (f_sheet f) ->
  exists c' w',
    load_observations cfg w = (inl (KeyError c'), w')
    /\ (c' = "Ost" \/ c' = "Nord")
    /\ parquet w' = parquet w.
Proof.
  intros Hcache Hf Hc Hmiss.
  assert (Hfiles : xlsx_files w ≠ []).
  { intros Hnil. rewrite Hnil in Hf. inversion Hf. }
  destruct (clean_tables_raises cfg _ f Hf (clean_table_missing_column cfg f c Hc Hmiss))
    as [e He].
  destruct (load_observations_raises cfg w e Hcache Hfiles He) as (w' & Hrun & Hp).
  destruct (clean_tables_error cfg _ e He) as [-> | ->].
  - exists "Ost", w'. auto.
  - exists "Nord", w'. auto.
Qed.

(** ** Observation Loader: text columns *)








(** ** Logging Layer Loader: layers read from their source *)

Lemma to_datetime_idempotent v : to_datetime (to_datetime v) = to_datetime v.
Proof.
  destruct v as [q|s|t|]; simpl; try reflexivity.
  - now destruct (datetime_of_number q).
  - now destruct (parse_datetime s).
Qed.

Lemma coerce_date_idempotent date_col r :
  coerce_date date_col (coerce_date date_col r) = coerce_date date_col r.
Proof.
  unfold coerce_date; simpl. f_equal.
  unfold get_cell at 1. rewrite lookup_insert_eq. simpl.
  rewrite to_datetime_idempotent. apply insert_insert_eq.
Qed.

Lemma coerce_date_cell date_col r :
  get_cell date_col (cells (coerce_date date_col r))
  = to_datetime (get_cell date_col (cells r)).
Proof. unfold coerce_date; simpl. unfold get_cell at 1. now rewrite lookup_insert_eq. Qed.

Lemma frame_eq (a b : GeoDataFrame) :
  columns a = columns b -> crs a = crs b -> rows a = rows b -> a = b.
Proof. destruct a, b; simpl. now intros -> -> ->. Qed.

Lemma filter_from_year_idempotent date_col start_year gdf :
  in_columns date_col (columns gdf) = true ->
  filter_from_year date_col start_year (filter_from_year date_col start_year gdf)
  = filter_from_year date_col start_year gdf.
Proof.
  intros Hcol.
  assert (Hrows : rows (filter_from_year date_col start_year
                          (filter_from_year date_col start_year gdf))
                  = rows (filter_from_year date_col start_year gdf)).
  { rewrite (rows_filter_from_year date_col start_year (filter_from_year _ _ gdf)).
    rewrite (rows_filter_from_year date_col start_year gdf).
    set (keep := fun r : GeoRow =>
                   year_ge (to_datetime (get_cell date_col (cells r))) start_year).
    induction (rows gdf) as [|r l IH]; [reflexivity|].
    cbn [List.filter]. destruct (keep r) eqn:Hr; [|exact IH].
    cbn [map List.filter].
    assert (Hr' : keep (coerce_date date_col r) = true).
    { unfold keep. rewrite coerce_date_cell, to_datetime_idempotent. exact Hr. }
    rewrite Hr'. cbn [map]. now rewrite coerce_date_idempotent, IH. }
  pose proof (columns_filter_from_year date_col start_year gdf Hcol) as Hc1.
  assert (Hcol' : in_columns date_col (columns (filter_from_year date_col start_year gdf)) = true)
    by now rewrite Hc1.
  apply frame_eq; [|reflexivity|exact Hrows].
  now rewrite (columns_filter_from_year date_col start_year _ Hcol').
Qed.

Lemma year_filtered_idempotent key start_year gdf :
  year_filtered key start_year (year_filtered key start_year gdf)
  = year_filtered key start_year gdf.
Proof.
  unfold year_filtered at 2. destruct (in_columns _ (columns gdf)) eqn:Hcol.
  - unfold year_filtered. rewrite columns_filter_from_year by exact Hcol.
    rewrite Hcol. now apply filter_from_year_idempotent.
  - unfold year_filtered. now rewrite Hcol.
Qed.

(** A run of [load_layer] that finds no cache and returns: the layer is the
    time-filtered fresh layer, and it is now the content of the cache. *)
Lemma load_layer_fresh_inv cfg bbox start_year key filename w g w' path :
  dict_get key (cache_layers cfg) = Some path ->
  parquet w !! path = None ->
  load_layer cfg bbox start_year key filename w = (inr g, w') ->
  exists src,
    gpkg w !! filename = Some src
    /\ g = year_filtered key start_year (fresh_layer cfg bbox src)
    /\ parquet w' = <[path := g]> (parquet w)
    /\ gpkg w' = gpkg w /\ unwritable w' = unwritable w.
Proof.
  intros Hpath Hnone. unfold load_layer. rewrite Hpath.
  assert (Hex : forall v, parquet v = parquet w -> path_exists path v = (inr false, v)).
  { intros v Hv. unfold path_exists. now rewrite Hv, Hnone. }
  rewrite (run_bind_ok _ _ _ _ _ (Hex w eq_refl)).
  set (w1 := set_stdout (fun out => out ++ [MsgFilteringBBox filename]) w).
  intros H. apply run_bind_inv in H as (g0 & w2 & Hread & H).
  rewrite (run_bind_ok (print _) _ w tt w1) in Hread by reflexivity.
  unfold read_file, mbind at 1, run_bind at 1 in Hread. change (gpkg w1) with (gpkg w) in Hread.
  destruct (gpkg w !! filename) as [src|] eqn:Hsrc; [|discriminate].
  exists src. split; [reflexivity|].
  assert (Hg0 : g0 = fresh_layer cfg bbox src /\ w2 = w1).
  { unfold fresh_layer. cbv zeta. fold (read_layer bbox src) in Hread.
    destruct (bool_decide (crs (read_layer bbox src) = cfg_crs cfg));
      injection Hread as <- <-; auto. }
  destruct Hg0 as [-> ->].
  destruct (time_filter_run key start_year (fresh_layer cfg bbox src) w1)
    as (w3 & Hrun & Hp & Hu & Hg).
  rewrite (run_bind_ok _ _ _ _ _ Hrun) in H.
  rewrite (run_bind_ok _ _ _ _ _ (Hex w3 Hp)) in H.
  apply run_bind_inv in H as (u & w4 & Hwrite & H).
  unfold mret, run_ret in H. injection H as Hg' Hw'. subst g w'.
  unfold to_parquet in Hwrite.
  destruct (bool_decide (path ∈ unwritable w3)); [discriminate|].
  injection Hwrite as _ Hw4. subst w4. simpl. rewrite Hp, Hu, Hg. auto.
Qed.

(** X7. The layer cache round trip: when [load_layer] finds no cache and
    returns a layer, that layer is what the cache file now holds, and every
    later load of the layer at the same start year that finds this file
    returns the same layer and writes nothing, at whatever bounding box and
    whatever the source file has become. *)
Theorem X7_layer_cache_round_trip
    (cfg : Config) (bbox : BBox) (start_year : Z) (key filename path : string)
    (w w' : World) (g : GeoDataFrame) :
  dict_get key (cache_layers cfg) = Some path ->
  parquet w !! path = None ->
  load_layer cfg bbox start_year key filename w = (inr g, w') ->
  parquet w' !! path = Some g
  /\ forall v bbox2 filename2,
       parquet v !! path = Some g ->
       exists v',
         load_layer cfg bbox2 start_year key filename2 v = (inr g, v')
         /\ parquet v' = parquet v.
Proof.
  intros Hpath Hnone Hload.
  destruct (load_layer_fresh_inv _ _ _ _ _ _ _ _ _ Hpath Hnone Hload)
    as (src & _ & Hg & Hp & _).
  split; [rewrite Hp; apply lookup_insert_eq|].
  intros v bbox2 filename2 Hv.
  destruct (load_layer_cached cfg bbox2 start_year key filename2 v g) as (v' & Hrun & Hpv).
  { unfold cached_frame. now rewrite Hpath. }
  exists v'. split; [|exact Hpv]. rewrite Hrun. do 2 f_equal.
  rewrite Hg. apply year_filtered_idempotent.
Qed.


Lemma filter_labels_NoDup (keep : GeoRow -> bool) (l : list GeoRow) :
  NoDup (map index l) -> NoDup (map index (List.filter keep l)).
Proof.
  induction l as [|r l IH]; simpl; [auto|]. intros Hnd.
  apply NoDup_cons in Hnd as [Hr Hnd]. destruct (keep r); [|now apply IH].
  simpl. apply NoDup_cons. split; [|now apply IH].
  intros Hin. apply Hr. apply list_elem_of_fmap in Hin as (x & Hx & Hin).
  apply list_elem_of_fmap. exists x. split; [exact Hx|].
  apply list_elem_of_In. apply list_elem_of_In, filter_In in Hin. tauto.
Qed.

Lemma read_layer_labels bbox src :
  map index (rows (read_layer bbox src))
  = map Z.of_nat (seq 0 (length (rows (read_layer bbox src)))).
Proof.
  unfold read_layer; simpl. rewrite length_imap.
  change (map index) with (fmap (M:=list) index). rewrite fmap_imap.
  apply (imap_seq_0 _ Z.of_nat).
Qed.

Lemma fresh_layer_labels cfg bbox src :
  map index (rows (fresh_layer cfg bbox src)) = map index (rows (read_layer bbox src)).
Proof.
  unfold fresh_layer. cbv zeta. destruct (bool_decide _); [reflexivity|].
  unfold to_crs, map_geometry; simpl. now rewrite map_map.
Qed.

Lemma year_filtered_labels_NoDup key start_year gdf :
  NoDup (map index (rows gdf)) -> NoDup (map index (rows (year_filtered key start_year gdf))).
Proof.
  intros Hnd. unfold year_filtered. destruct (in_columns _ _); [|exact Hnd].
  rewrite rows_filter_from_year, map_map. simpl.
  now apply (filter_labels_NoDup _ (rows gdf)).
Qed.

(** X9. A layer that [load_layer] read from its source, no cache being
    there, is in the configured reference system and its rows have pairwise
    distinct index labels. *)
Theorem X9_fresh_layer_reference_system_and_labels
    (cfg : Config) (bbox : BBox) (start_year : Z) (key filename path : string)
    (w w' : World) (g : GeoDataFrame) :
  dict_get key (cache_layers cfg) = Some path ->
  parquet w !! path = None ->
  load_layer cfg bbox start_year key filename w = (inr g, w') ->
  crs g = cfg_crs cfg /\ NoDup (map index (rows g)).
Proof.
  intros Hpath Hnone Hload.
  destruct (load_layer_fresh_inv _ _ _ _ _ _ _ _ _ Hpath Hnone Hload)
    as (src & _ & -> & _). split.
  - assert (Hfresh : crs (fresh_layer cfg bbox src) = cfg_crs cfg).
    { unfold fresh_layer. cbv zeta.
      destruct (bool_decide_reflect (crs (read_layer bbox src) = cfg_crs cfg));
        [assumption|reflexivity]. }
    unfold year_filtered. destruct (in_columns _ _); [|exact Hfresh]. exact Hfresh.
  - apply year_filtered_labels_NoDup. rewrite fresh_layer_labels, read_layer_labels.
    apply (NoDup_fmap_2 Z.of_nat), NoDup_seq.
Qed.

(** X10. Every row of a layer read from its source comes from a source row
    whose geometry meets the bounding box; the box is tested on the source
    geometry, before any reprojection. *)
Theorem X10_fresh_layer_rows_meet_bounding_box
    (cfg : Config) (bbox : BBox) (start_year : Z) (key filename path : string)
    (w w' : World) (g : GeoDataFrame) :
  dict_get key (cache_layers cfg) = Some path ->
  parquet w !! path = None ->
  load_layer cfg bbox start_year key filename w = (inr g, w') ->
  exists src,
    gpkg w !! filename = Some src /\
    forall x, x ∈ rows g ->
      exists r, r ∈ rows src /\ bbox_hit bbox (geometry r) = true
        /\ geometry x = if bool_decide (crs src = cfg_crs cfg) then geometry r
                        else reproject (crs src) (cfg_crs cfg) (geometry r).
Proof.
  intros Hpath Hnone Hload.
  destruct (load_layer_fresh_inv _ _ _ _ _ _ _ _ _ Hpath Hnone Hload)
    as (src & Hsrc & -> & _).
  exists src. split; [exact Hsrc|]. intros x Hx.
  assert (Hfresh : exists y, y ∈ rows (fresh_layer cfg bbox src) /\ geometry x = geometry y).
  { unfold year_filtered in Hx. destruct (in_columns _ _); [|eauto].
    rewrite rows_filter_from_year in Hx. apply list_elem_of_fmap in Hx as (y & -> & Hy).
    apply list_elem_of_In, filter_In in Hy as [Hy _]. exists y.
    split; [now apply list_elem_of_In|reflexivity]. }
  destruct Hfresh as (y & Hy & ->). unfold fresh_layer in Hy. cbv zeta in Hy.
  change (crs (read_layer bbox src)) with (crs src) in Hy.
  destruct (bool_decide (crs src = cfg_crs cfg)).
  - unfold read_layer in Hy; simpl in Hy.
    apply elem_of_lookup_imap_1 in Hy as (i & r & -> & Hr).
    apply list_elem_of_lookup_2, list_elem_of_In, filter_In in Hr as [Hr Hhit].
    exists r. rewrite list_elem_of_In. auto.
  - unfold to_crs, map_geometry, read_layer in Hy; simpl in Hy.
    apply list_elem_of_fmap in Hy as (z & -> & Hz).
    apply elem_of_lookup_imap_1 in Hz as (i & r & -> & Hr).
    apply list_elem_of_lookup_2, list_elem_of_In, filter_In in Hr as [Hr Hhit].
    exists r. rewrite list_elem_of_In. auto.
Qed.

(** ** Spatial Matcher: what a layer result holds *)

Lemma matcher_layer_result w r_obs gdf_obs logging_data :
  heap w !! r_obs = Some gdf_obs ->
  exists results w',
    run_spatial_analysis r_obs logging_data w = (inr results, w')
    /\ (forall key res, dict_get key results = Some res ->
          exists gdf_logging, (key, gdf_logging) ∈ logging_data
            /\ res = layer_result (study_area gdf_obs) gdf_obs (buffered gdf_obs) gdf_logging)
    /\ (forall key gdf_logging, (key, gdf_logging) ∈ logging_data ->
          is_Some (dict_get key results)).
Proof.
  intros Hr. destruct (run_spatial_analysis_spec w r_obs gdf_obs logging_data Hr)
    as (w' & Hrun & _).
  eexists _, w'. split; [exact Hrun|]. split.
  - intros key res Hget. apply results_of_get in Hget as [H|H]; [exact H|discriminate].
  - intros key gl Hin. eapply results_of_has, Hin.
Qed.

(** Where a merged row comes from: an observation and a relevant area that
    satisfy one of the two predicates. *)
Lemma merged_row_origin mask gdf_obs gdf_logging m :
  m ∈ rows (matches (layer_result mask gdf_obs (buffered gdf_obs) gdf_logging)) ->
  exists o a,
    o ∈ rows gdf_obs /\ a ∈ rows (relevant_logging mask gdf_logging)
    /\ index m = index o
    /\ get_cell "index_right" (cells m) = index_cell (index a)
    /\ ((status_of m = Inuti /\ geometry m = geometry o
         /\ within (geometry o) (geometry a) = true)
        \/ (status_of m = Nara /\ geometry m = buffer (geometry o) 50
            /\ intersects (buffer (geometry o) 50) (geometry a) = true)).
Proof.
  unfold layer_result; cbn [matches]. rewrite rows_combine. intros Hm.
  apply keep_first_elem in Hm as [Hm _]. apply elem_of_app in Hm as [Hm|Hm].
  - apply rows_tagged_join in Hm as (o & a & Ho & Ha & Hp & ->).
    destruct (tagged_row_fields Inuti (columns gdf_obs)
                (columns (relevant_logging mask gdf_logging)) o a) as (Hi & Hs & Hr & Hg).
    exists o, a. split; [exact Ho|]. split; [exact Ha|]. split; [exact Hi|].
    split; [exact Hr|]. left. auto.
  - apply rows_tagged_join in Hm as (b & a & Hb & Ha & Hp & ->).
    apply buffered_row in Hb as (o & Ho & Hio & Hc & Hgo).
    destruct (tagged_row_fields Nara (columns (buffered gdf_obs))
                (columns (relevant_logging mask gdf_logging)) b a) as (Hi & Hs & Hr & Hg).
    exists o, a. split; [exact Ho|]. split; [exact Ha|].
    split; [rewrite Hi; exact Hio|]. split; [exact Hr|].
    right. rewrite Hg, Hgo. rewrite Hgo in Hp. auto.
Qed.

Lemma cell_eqb_refl c : cell_eqb c c = true.
Proof.
  destruct c as [q|s|t|]; simpl.
  - apply Qeq_bool_iff. reflexivity.
  - now apply bool_decide_eq_true.
  - now rewrite !Z.eqb_refl.
  - reflexivity.
Qed.

Lemma existsb_cell_eqb_elem c acc : c ∈ acc -> existsb (cell_eqb c) acc = true.
Proof.
  intros Hin. apply existsb_exists. exists c. split; [now apply list_elem_of_In|].
  apply cell_eqb_refl.
Qed.

Lemma unique_fold_facts l :
  forall acc, NoDup acc ->
    let u := fold_left (fun acc c => if existsb (cell_eqb c) acc then acc else acc ++ [c]) l acc in
    NoDup u /\ (forall c, c ∈ u -> c ∈ acc \/ c ∈ l).
Proof.
  induction l as [|c l IH]; intros acc Hnd; cbn [fold_left].
  - split; [exact Hnd|auto].
  - destruct (existsb (cell_eqb c) acc) eqn:Hex.
    + destruct (IH acc Hnd) as [H1 H2]. split; [exact H1|].
      intros x Hx. destruct (H2 x Hx); [now left|right; now right].
    + assert (Hnd' : NoDup (acc ++ [c])).
      { apply NoDup_app. split; [exact Hnd|]. split; [|apply NoDup_singleton].
        intros x Hx Hc. apply list_elem_of_singleton in Hc as ->.
        rewrite (existsb_cell_eqb_elem c acc Hx) in Hex. discriminate. }
      destruct (IH (acc ++ [c]) Hnd') as [H1 H2]. split; [exact H1|].
      intros x Hx. destruct (H2 x Hx) as [Hacc|Hl]; [|right; now right].
      apply elem_of_app in Hacc as [Hacc|Hacc]; [now left|].
      apply list_elem_of_singleton in Hacc as ->. right. now left.
Qed.

Lemma unique_NoDup l : NoDup (unique l).
Proof. apply (unique_fold_facts l []). constructor. Qed.

Lemma unique_elem l c : c ∈ unique l -> c ∈ l.
Proof.
  intros H. destruct (unique_fold_facts l [] (NoDup_nil_2)) as [_ Hsub].
  destruct (Hsub c H) as [Hnil|Hl]; [inversion Hnil|exact Hl].
Qed.

(** X11. In every layer result of the Matcher the distinct areas named by
    the matches are at most as many as the relevant areas counted: the
    share of affected areas cannot exceed 100 percent. *)
Theorem X11_affected_areas_at_most_relevant
    (w : World) (r_obs : nat) (gdf_obs : GeoDataFrame)
    (logging_data : list (string * GeoDataFrame)) :
  heap w !! r_obs = Some gdf_obs ->
  exists results w',
    run_spatial_analysis r_obs logging_data w = (inr results, w') /\
    forall key res, dict_get key results = Some res ->
      (length (unique (column_values "index_right" (matches res)))
       <= total_relevant_count res)%nat.
Proof.
  intros Hr. destruct (matcher_layer_result w r_obs gdf_obs logging_data Hr)
    as (results & w' & Hrun & Hres & _).
  exists results, w'. split; [exact Hrun|]. intros key res Hget.
  destruct (Hres key res Hget) as (gl & _ & ->).
  set (mask := study_area gdf_obs).
  change (total_relevant_count (layer_result mask gdf_obs (buffered gdf_obs) gl))
    with (length (rows (relevant_logging mask gl))).
  rewrite <- (length_map (fun a => index_cell (index a)) (rows (relevant_logging mask gl))).
  apply submseteq_length, NoDup_submseteq; [apply unique_NoDup|].
  intros c Hc. apply unique_elem in Hc. unfold column_values in Hc.
  apply list_elem_of_fmap in Hc as (m & -> & Hm).
  apply merged_row_origin in Hm as (o & a & _ & Ha & _ & Hright & _).
  rewrite Hright. apply list_elem_of_fmap. exists a. auto.
Qed.


(** X13. The merged matches of a layer name observations of the collection
    only, and they are at most as many as the observations. *)
Theorem X13_matches_at_most_observations
    (w : World) (r_obs : nat) (gdf_obs : GeoDataFrame)
    (logging_data : list (string * GeoDataFrame)) :
  heap w !! r_obs = Some gdf_obs ->
  exists results w',
    run_spatial_analysis r_obs logging_data w = (inr results, w') /\
    forall key res, dict_get key results = Some res ->
      (forall m, m ∈ rows (matches res) -> index m ∈ map index (rows gdf_obs))
      /\ (length (rows (matches res)) <= length (rows gdf_obs))%nat.
Proof.
  intros Hr. destruct (matcher_layer_result w r_obs gdf_obs logging_data Hr)
    as (results & w' & Hrun & Hres & _).
  exists results, w'. split; [exact Hrun|]. intros key res Hget.
  destruct (Hres key res Hget) as (gl & _ & ->).
  assert (Hlabels : forall m,
            m ∈ rows (matches (layer_result (study_area gdf_obs) gdf_obs
                                 (buffered gdf_obs) gl)) ->
            index m ∈ map index (rows gdf_obs)).
  { intros m Hm. apply merged_row_origin in Hm as (o & a & Ho & _ & Hi & _).
    rewrite Hi. apply list_elem_of_fmap. eauto. }
  split; [exact Hlabels|].
  rewrite <- (length_map index (rows (matches _))), <- (length_map index (rows gdf_obs)).
  apply submseteq_length, NoDup_submseteq.
  - unfold layer_result; cbn [matches]. rewrite rows_combine. apply keep_first_NoDup.
  - intros i Hi. apply list_elem_of_fmap in Hi as (m & -> & Hm). now apply Hlabels.
Qed.

(** X14. Every merged row is tagged [Inuti] or [Nara]; with unique
    observation labels, a row tagged [Inuti] carries the point of its
    observation as geometry and a row tagged [Nara] carries the 50-unit
    buffer of the point, not the point. *)
Theorem X14_match_geometry_by_status
    (w : World) (r_obs : nat) (gdf_obs : GeoDataFrame)
    (logging_data : list (string * GeoDataFrame)) :
  heap w !! r_obs = Some gdf_obs ->
  NoDup (map index (rows gdf_obs)) ->
  exists results w',
    run_spatial_analysis r_obs logging_data w = (inr results, w') /\
    forall key res m, dict_get key results = Some res -> m ∈ rows (matches res) ->
      (status_of m = Inuti \/ status_of m = Nara)
      /\ forall o, o ∈ rows gdf_obs -> index o = index m ->
           (status_of m = Inuti -> geometry m = geometry o)
           /\ (status_of m = Nara -> geometry m = buffer (geometry o) 50).
Proof.
  intros Hr Hnd. destruct (matcher_layer_result w r_obs gdf_obs logging_data Hr)
    as (results & w' & Hrun & Hres & _).
  exists results, w'. split; [exact Hrun|]. intros key res m Hget Hm.
  destruct (Hres key res Hget) as (gl & _ & ->).
  apply merged_row_origin in Hm as (o' & a & Ho' & _ & Hi & _ & Horigin).
  split; [destruct Horigin as [(Hs & _)|(Hs & _)]; auto|].
  intros o Ho Hio.
  assert (o = o') as -> by (eapply label_unique; eauto; congruence).
  destruct Horigin as [(Hs & Hg & _)|(Hs & Hg & _)]; split; intros Hs'; try exact Hg.
  - rewrite Hs in Hs'. now apply Inuti_not_Nara in Hs'.
  - rewrite Hs in Hs'. symmetry in Hs'. now apply Inuti_not_Nara in Hs'.
Qed.


Lemma dict_get_elem {V} (k : string) (v : V) d : dict_get k d = Some v -> (k, v) ∈ d.
Proof.
  induction d as [|[k' v'] d IH]; simpl; [discriminate|].
  destruct (bool_decide_reflect (k = k')) as [->|Hne].
  - intros H. injection H as ->. now left.
  - intros H. right. now apply IH.
Qed.

Lemma dict_get_has {V} (k : string) (v : V) d : (k, v) ∈ d -> is_Some (dict_get k d).
Proof.
  induction d as [|[k' v'] d IH]; intros Hin; [inversion Hin|]. simpl.
  destruct (bool_decide_reflect (k = k')); [eauto|].
  apply elem_of_cons in Hin as [Heq|Hin]; [congruence|now apply IH].
Qed.

(** X16. The Matcher returns one result per layer: a key has a result
    exactly when it is a key of the logging data. *)
Theorem X16_one_result_per_layer
    (w : World) (r_obs : nat) (gdf_obs : GeoDataFrame)
    (logging_data : list (string * GeoDataFrame)) :
  heap w !! r_obs = Some gdf_obs ->
  exists results w',
    run_spatial_analysis r_obs logging_data w = (inr results, w') /\
    forall key, is_Some (dict_get key results) <-> is_Some (dict_get key logging_data).
Proof.
  intros Hr. destruct (matcher_layer_result w r_obs gdf_obs logging_data Hr)
    as (results & w' & Hrun & Hres & Hhas).
  exists results, w'. split; [exact Hrun|]. intros key. split.
  - intros [res Hget]. destruct (Hres key res Hget) as (gl & Hin & _).
    eapply dict_get_has, Hin.
  - intros [gl Hget]. eapply Hhas, dict_get_elem, Hget.
Qed.

(** ** What the stages leave untouched *)

Lemma preserves_bind {X A B} (part : World -> X) (m : Run A) (k : A -> Run B) :
  preserves part m -> (forall x, preserves part (k x)) -> preserves part (m ≫= k).
Proof.
  intros Hm Hk w. unfold mbind, run_bind. specialize (Hm w).
  destruct (m w) as [[e|x] w1]; simpl in *; [exact Hm|].
  rewrite (Hk x w1). exact Hm.
Qed.

Lemma preserves_ret {X A} (part : World -> X) (x : A) : preserves part (mret x).
Proof. intros w. reflexivity. Qed.

Lemma preserves_raise {X A} (part : World -> X) (e : Exc) : preserves part (raise e : Run A).
Proof. intros w. reflexivity. Qed.

Lemma preserves_heap_print m : preserves heap (print m).
Proof. intros w. reflexivity. Qed.

Lemma preserves_workbook_print m : preserves workbook (print m).
Proof. intros w. reflexivity. Qed.

Lemma preserves_path_exists {X} (part : World -> X) path : preserves part (path_exists path).
Proof. intros w. reflexivity. Qed.

Lemma preserves_read_parquet {X} (part : World -> X) path : preserves part (read_parquet path).
Proof. intros w. unfold read_parquet. now destruct (parquet w !! path). Qed.

Lemma preserves_read_file {X} (part : World -> X) path bbox :
  preserves part (read_file path bbox).
Proof. intros w. unfold read_file. now destruct (gpkg w !! path). Qed.

Lemma preserves_heap_to_parquet g path : preserves heap (to_parquet g path).
Proof. intros w. unfold to_parquet. now destruct (bool_decide _). Qed.

Lemma preserves_heap_time_filter key start_year gdf :
  preserves heap (time_filter key start_year gdf).
Proof.
  unfold time_filter. cbv zeta. destruct (in_columns _ _); [|apply preserves_ret].
  apply preserves_bind; [|intros; apply preserves_ret].
  destruct (0 <? _)%nat; [apply preserves_heap_print|apply preserves_ret].
Qed.

Lemma preserves_heap_load_layer cfg bbox start_year key filename :
  preserves heap (load_layer cfg bbox start_year key filename).
Proof.
  unfold load_layer. destruct (dict_get key (cache_layers cfg)); [|apply preserves_raise].
  apply preserves_bind; [apply preserves_path_exists|]. intros cached.
  apply preserves_bind.
  { destruct cached.
    - apply preserves_bind; [apply preserves_heap_print|].
      intros; apply preserves_read_parquet.
    - apply preserves_bind; [apply preserves_heap_print|]. intros _.
      apply preserves_bind; [apply preserves_read_file|]. intros g.
      destruct (bool_decide _); apply preserves_ret. }
  intros g. apply preserves_bind; [apply preserves_heap_time_filter|]. intros g'.
  apply preserves_bind; [apply preserves_path_exists|]. intros cached'.
  apply preserves_bind; [|intros; apply preserves_ret].
  destruct cached'; [apply preserves_ret|apply preserves_heap_to_parquet].
Qed.

Lemma preserves_heap_load_layers cfg bbox start_year todo :
  forall acc, preserves heap (load_layers cfg bbox start_year todo acc).
Proof.
  induction todo as [|[key filename] todo IH]; intros acc; cbn [load_layers].
  - apply preserves_ret.
  - apply preserves_bind; [apply preserves_heap_load_layer|]. intros g. apply IH.
Qed.

Lemma preserves_workbook_require c cols : preserves workbook (require_column c cols).
Proof. unfold require_column. destruct (in_columns c cols); intros w; reflexivity. Qed.

Lemma preserves_workbook_true_div a b : preserves workbook (true_div a b).
Proof. destruct b; intros w; reflexivity. Qed.

Lemma preserves_workbook_int_year t : preserves workbook (int_year t).
Proof. destruct t; intros w; reflexivity. Qed.

Lemma preserves_workbook_deref r : preserves workbook (deref r).
Proof. intros w. unfold deref. now destruct (heap w !! r). Qed.

Lemma preserves_workbook_describe_layer results key :
  preserves workbook (describe_layer results key).
Proof.
  unfold describe_layer. destruct (dict_get key results); [|apply preserves_raise].
  cbv zeta. apply preserves_bind; [apply preserves_workbook_require|]. intros _.
  apply preserves_bind; [apply preserves_workbook_require|]. intros _.
  apply preserves_bind; [apply preserves_workbook_true_div|]. intros ratio.
  apply preserves_workbook_print.
Qed.

(** ** Reporter: a layer missing from the results *)

Lemma describe_layer_missing results key w :
  dict_get key results = None ->
  describe_layer results key w = (inl (KeyError "Status_Analys"), w).
Proof. intros H. unfold describe_layer. now rewrite H. Qed.

Lemma raises_or_returns {A} (m : Run A) w :
  (exists e w', m w = (inl e, w')) \/ (exists x w', m w = (inr x, w')).
Proof. destruct (m w) as [[e|x] w']; eauto. Qed.

(** X18. The Reporter needs a result for both layers: when [results] lacks
    the executed or the reported layer, [describe_and_save] raises, the
    fallback of line 242 being an empty frame without the columns read
    next, and no workbook is written. *)
Theorem X18_missing_layer_result_raises
    (w : World) (r_obs : nat) (results : list (string * LayerResult))
    (logging_data : list (string * GeoDataFrame)) (cfg : Config) :
  dict_get "utford" results = None \/ dict_get "anmald" results = None ->
  exists e w',
    describe_and_save r_obs results logging_data cfg w = (inl e, w')
    /\ workbook w' = workbook w.
Proof.
  intros Hmiss. unfold describe_and_save.
  set (first := describe_layer results "utford").
  set (second := describe_layer results "anmald").
  assert (Hlayers : forall {A} (k : Run A) v,
            exists e v', (first;; second;; k) v = (inl e, v') /\ workbook v' = workbook v).
  { intros A k v. destruct (raises_or_returns first v) as [(e & v1 & H1)|(x & v1 & H1)].
    - exists e, v1. rewrite (run_bind_raise _ _ _ _ _ H1). split; [reflexivity|].
      pose proof (preserves_workbook_describe_layer results "utford" v) as Hp.
      fold first in Hp. now rewrite H1 in Hp.
    - destruct Hmiss as [Hm|Hm].
      { unfold first in H1. rewrite (describe_layer_missing _ _ _ Hm) in H1. discriminate. }
      rewrite (run_bind_ok _ _ _ _ _ H1).
      exists (KeyError "Status_Analys"), v1.
      assert (H2 : second v1 = (inl (KeyError "Status_Analys"), v1))
        by now apply describe_layer_missing.
      rewrite (run_bind_raise _ _ _ _ _ H2). split; [reflexivity|].
      pose proof (preserves_workbook_describe_layer results "utford" v) as Hp.
      fold first in Hp. now rewrite H1 in Hp. }
  destruct (raises_or_returns (deref r_obs) w) as [(e & w1 & H1)|(g & w1 & H1)].
  { exists e, w1. rewrite (run_bind_raise _ _ _ _ _ H1). split; [reflexivity|].
    pose proof (preserves_workbook_deref r_obs w) as Hp. now rewrite H1 in Hp. }
  rewrite (run_bind_ok _ _ _ _ _ H1).
  assert (Hw1 : workbook w1 = workbook w).
  { pose proof (preserves_workbook_deref r_obs w) as Hp. now rewrite H1 in Hp. }
  unfold require_column.
  destruct (in_columns "Artnamn" (columns g));
    [|eexists _, w1; rewrite (run_bind_raise (raise _) _ w1 _ w1) by reflexivity; auto].
  rewrite (run_bind_ok (mret tt) _ w1 tt w1) by reflexivity.
  destruct (in_columns "Startdatum" (columns g));
    [|eexists _, w1; rewrite (run_bind_raise (raise _) _ w1 _ w1) by reflexivity; auto].
  rewrite (run_bind_ok (mret tt) _ w1 tt w1) by reflexivity.
  cbv zeta.
  destruct (series_min _) as [tmin|];
    [|eexists _, w1; rewrite (run_bind_raise (int_year None) _ w1 ValueError w1) by reflexivity;
      auto].
  rewrite (run_bind_ok (int_year (Some tmin)) _ w1 (ts_year tmin) w1) by reflexivity.
  destruct (series_max _) as [tmax|];
    [|eexists _, w1; rewrite (run_bind_raise (int_year None) _ w1 ValueError w1) by reflexivity;
      auto].
  rewrite (run_bind_ok (int_year (Some tmax)) _ w1 (ts_year tmax) w1) by reflexivity.
  rewrite (run_bind_ok (print _) _ w1 tt _) by reflexivity.
  match goal with
  | |- context [(first;; second;; ?k) ?v] =>
      destruct (Hlayers _ k v) as (e & v' & Hrun & Hwb)
  end.
  exists e, v'. split; [exact Hrun|]. rewrite Hwb. exact Hw1.
Qed.

(** ** Logging Layer Loader: the caches after a run *)

Lemma load_layer_post cfg bbox start_year key filename w g w' :
  load_layer cfg bbox start_year key filename w = (inr g, w') ->
  exists path,
    dict_get key (cache_layers cfg) = Some path
    /\ is_Some (parquet w' !! path)
    /\ forall p, is_Some (parquet w !! p) -> is_Some (parquet w' !! p).
Proof.
  intros Hload.
  destruct (dict_get key (cache_layers cfg)) as [path|] eqn:Hpath.
  2: { unfold load_layer in Hload. rewrite Hpath in Hload. discriminate. }
  exists path. split; [reflexivity|].
  destruct (parquet w !! path) as [c|] eqn:Hc.
  - destruct (load_layer_cached cfg bbox start_year key filename w c) as (w2 & Hrun & Hp).
    { unfold cached_frame. now rewrite Hpath. }
    rewrite Hrun in Hload. injection Hload as _ <-. rewrite Hp. split; [eauto|auto].
  - destruct (load_layer_fresh_inv _ _ _ _ _ _ _ _ _ Hpath Hc Hload) as (src & _ & _ & Hp & _).
    rewrite Hp. split.
    + rewrite lookup_insert_eq. eauto.
    + intros p Hsome. destruct (decide (path = p)) as [->|Hne].
      * rewrite lookup_insert_eq. eauto.
      * now rewrite lookup_insert_ne.
Qed.

Lemma dict_set_keeps {V} (k k' : string) (v : V) d :
  is_Some (dict_get k d) -> is_Some (dict_get k (dict_set k' v d)).
Proof. intros H. rewrite dict_get_set. destruct (bool_decide _); eauto. Qed.

Lemma load_layers_post cfg bbox start_year todo :
  forall acc w ld w',
    load_layers cfg bbox start_year todo acc w = (inr ld, w') ->
    (forall key filename, (key, filename) ∈ todo ->
       is_Some (dict_get key ld)
       /\ exists path, dict_get key (cache_layers cfg) = Some path
                       /\ is_Some (parquet w' !! path))
    /\ (forall k, is_Some (dict_get k acc) -> is_Some (dict_get k ld))
    /\ (forall p, is_Some (parquet w !! p) -> is_Some (parquet w' !! p)).
Proof.
  induction todo as [|[k fn] todo IH]; intros acc w ld w' H.
  - injection H as <- <-. split; [|auto]. intros key filename Hin. inversion Hin.
  - cbn [load_layers] in H. apply run_bind_inv in H as (g & w1 & Hl & H).
    destruct (load_layer_post _ _ _ _ _ _ _ _ Hl) as (path & Hpath & Hsome & Hmono).
    destruct (IH _ _ _ _ H) as (Htodo & Hacc & Hfiles).
    split; [|split].
    + intros key filename Hin.
      apply elem_of_cons in Hin as [Heq|Hin]; [|now apply (Htodo key filename)].
      injection Heq as -> ->. split.
      * apply Hacc. rewrite dict_get_set. rewrite bool_decide_true by reflexivity. eauto.
      * exists path. split; [exact Hpath|]. now apply Hfiles.
    + intros k0 Hk0. apply Hacc. now apply dict_set_keeps.
    + intros p Hp. now apply Hfiles, Hmono.
Qed.

(** X21. When the Logging Layer Loader returns, it returns a layer for
    every configured layer, the cache file of every configured layer exists
    and no file that existed before is gone. *)
Theorem X21_loader_leaves_every_layer_cached
    (cfg : Config) (bbox : BBox) (start_year : Z) (w w' : World)
    (ld : list (string * GeoDataFrame)) :
  load_filtered_logging cfg bbox start_year w = (inr ld, w') ->
  (forall key filename, (key, filename) ∈ layers cfg ->
     is_Some (dict_get key ld)
     /\ exists path, dict_get key (cache_layers cfg) = Some path
                     /\ is_Some (parquet w' !! path))
  /\ (forall p, is_Some (parquet w !! p) -> is_Some (parquet w' !! p)).
Proof.
  intros H. unfold load_filtered_logging in H.
  destruct (load_layers_post _ _ _ _ _ _ _ _ H) as (Htodo & _ & Hfiles). auto.
Qed.

(** ** Reporter: the numbers of a layer *)

Lemma union_columns_keeps cols :
  forall acc x, x ∈ acc -> x ∈ union_columns acc cols.
Proof.
  induction cols as [|c cols IH]; intros acc x Hx; [exact Hx|].
  cbn [union_columns]. apply IH. destruct (in_columns c acc); [exact Hx|].
  apply elem_of_app. now left.
Qed.

Lemma map_geo_column_has c f g : c ∈ columns (map_geo_column c f g).
Proof.
  unfold map_geo_column; simpl.
  destruct (bool_decide_reflect (c ∈ columns g)) as [Hin|Hout].
  - unfold in_columns. now rewrite bool_decide_true.
  - unfold in_columns. rewrite bool_decide_false by exact Hout.
    apply elem_of_app. right. now left.
Qed.

Lemma map_geo_column_keeps c f g x : x ∈ columns g -> x ∈ columns (map_geo_column c f g).
Proof.
  intros Hx. unfold map_geo_column; simpl. destruct (in_columns c (columns g)); [exact Hx|].
  apply elem_of_app. now left.
Qed.

Lemma layer_result_columns mask gdf_obs gdf_buf gdf_logging :
  in_columns "Status_Analys" (columns (matches (layer_result mask gdf_obs gdf_buf gdf_logging)))
  = true
  /\ in_columns "index_right" (columns (matches (layer_result mask gdf_obs gdf_buf gdf_logging)))
     = true.
Proof.
  unfold layer_result, combine, drop_duplicated_index, concat2; cbn [matches columns].
  split; apply bool_decide_eq_true, union_columns_keeps; unfold in_zone.
  - apply map_geo_column_has.
  - apply map_geo_column_keeps. unfold sjoin; cbn [columns].
    apply elem_of_app. right. now left.
Qed.

Lemma filter_split_length {A} (f : A -> bool) (l : list A) :
  (length (List.filter f l) + length (List.filter (fun x => negb (f x)) l))%nat = length l.
Proof.
  induction l as [|x l IH]; simpl; [reflexivity|]. destruct (f x); simpl; lia.
Qed.

Lemma status_counts (l : list GeoRow) :
  (forall m, m ∈ l -> status_of m = Inuti \/ status_of m = Nara) ->
  (length (List.filter (fun r => cell_eqb (get_cell "Status_Analys" (cells r)) Inuti) l)
   + length (List.filter (fun r => cell_eqb (get_cell "Status_Analys" (cells r)) Nara) l))%nat
  = length l.
Proof.
  induction l as [|m l IH]; intros H; [reflexivity|].
  assert (IH' := IH (fun x Hx => H x (list_elem_of_further x m l Hx))).
  cbn [List.filter].
  assert (Hm : status_of m = Inuti \/ status_of m = Nara) by (apply H; now left).
  destruct Hm as [Hs|Hs]; unfold status_of in Hs; rewrite Hs.
  - replace (cell_eqb Inuti Inuti) with true by reflexivity.
    replace (cell_eqb Inuti Nara) with false by reflexivity. simpl. lia.
  - replace (cell_eqb Nara Inuti) with false by reflexivity.
    replace (cell_eqb Nara Nara) with true by reflexivity. simpl. lia.
Qed.

Lemma index_cell_eqb i j : cell_eqb (index_cell i) (index_cell j) = true -> i = j.
Proof.
  unfold index_cell, cell_eqb. intros H. apply Qeq_bool_iff in H.
  unfold Qeq in H. simpl in H. lia.
Qed.

Lemma existsb_index_cell c l :
  (exists i, c = index_cell i) ->
  (forall x, x ∈ l -> exists i, x = index_cell i) ->
  existsb (cell_eqb c) l = true <-> c ∈ l.
Proof.
  intros [i ->] Hl. split; [|apply existsb_cell_eqb_elem].
  intros H. apply existsb_exists in H as (x & Hx & Heq).
  apply list_elem_of_In in Hx. destruct (Hl x Hx) as [j ->].
  apply index_cell_eqb in Heq as ->. exact Hx.
Qed.

Lemma unique_fold_covers c l :
  forall acc,
    c ∈ l \/ existsb (cell_eqb c) acc = true ->
    existsb (cell_eqb c)
      (fold_left (fun acc c => if existsb (cell_eqb c) acc then acc else acc ++ [c]) l acc)
    = true.
Proof.
  induction l as [|x l IH]; intros acc H; cbn [fold_left].
  - destruct H as [H|H]; [inversion H|exact H].
  - apply IH. destruct H as [H|H].
    + apply elem_of_cons in H as [->|H]; [right|now left].
      destruct (existsb (cell_eqb x) acc) eqn:Hex; [exact Hex|].
      rewrite existsb_app. simpl. rewrite cell_eqb_refl. now rewrite orb_true_r.
    + right. destruct (existsb (cell_eqb x) acc); [exact H|].
      rewrite existsb_app, H. reflexivity.
Qed.

Lemma unique_covers_index_cells c l :
  (forall x, x ∈ l -> exists i, x = index_cell i) -> c ∈ l -> c ∈ unique l.
Proof.
  intros Hl Hc. apply existsb_index_cell.
  - now apply Hl.
  - intros x Hx. apply Hl. now apply unique_elem.
  - apply unique_fold_covers. now left.
Qed.

Lemma filter_keeps_NoDup {A} (f : A -> bool) (l : list A) :
  NoDup l -> NoDup (List.filter f l).
Proof.
  induction l as [|x l IH]; simpl; [auto|]. intros Hnd.
  apply NoDup_cons in Hnd as [Hx Hnd]. destruct (f x); [|now apply IH].
  apply NoDup_cons. split; [|now apply IH].
  intros Hin. apply Hx. apply list_elem_of_In. apply list_elem_of_In, filter_In in Hin. tauto.
Qed.

(** The distinct values of a part of a column, counted among the distinct
    values of the column. *)
Lemma unique_part_count (whole part : list cell) :
  (forall x, x ∈ whole -> exists i, x = index_cell i) ->
  (forall x, x ∈ part -> x ∈ whole) ->
  (length (unique part)
   + length (List.filter (fun a => negb (existsb (cell_eqb a) (unique part))) (unique whole)))%nat
  = length (unique whole).
Proof.
  intros Hwhole Hpart.
  rewrite <- (filter_split_length (fun a => existsb (cell_eqb a) (unique part)) (unique whole)).
  f_equal. symmetry. apply Permutation_length, NoDup_Permutation.
  - apply filter_keeps_NoDup, unique_NoDup.
  - apply unique_NoDup.
  - intros x. rewrite list_elem_of_In, filter_In, <- list_elem_of_In.
    assert (Hin_part : forall y, y ∈ unique part -> exists i, y = index_cell i).
    { intros y Hy. apply Hwhole, Hpart. now apply unique_elem. }
    split.
    + intros [Hx Hex]. apply existsb_index_cell in Hex; [exact Hex| |exact Hin_part].
      apply Hwhole. now apply unique_elem.
    + intros Hx. split.
      * apply unique_covers_index_cells; [exact Hwhole|]. apply Hpart. now apply unique_elem.
      * now apply existsb_cell_eqb_elem.
Qed.

Lemma share_at_most_100 (a b : nat) :
  (a <= b)%nat -> b ≠ 0%nat -> ((Z.of_nat a # Pos.of_nat b) * 100 <= 100)%Q.
Proof.
  intros Hle Hb. unfold Qle, Qmult; simpl.
  assert (Hpos : Z.pos (Pos.of_nat b) = Z.of_nat b).
  { rewrite <- (Nat2Pos.id b) at 2 by exact Hb. now rewrite positive_nat_Z. }
  rewrite Pos.mul_1_r, Hpos. nia.
Qed.

Lemma layer_result_affected_le mask gdf_obs gdf_logging :
  (length (unique (column_values "index_right"
                     (matches (layer_result mask gdf_obs (buffered gdf_obs) gdf_logging))))
   <= total_relevant_count (layer_result mask gdf_obs (buffered gdf_obs) gdf_logging))%nat.
Proof.
  change (total_relevant_count (layer_result mask gdf_obs (buffered gdf_obs) gdf_logging))
    with (length (rows (relevant_logging mask gdf_logging))).
  rewrite <- (length_map (fun a => index_cell (index a)) (rows (relevant_logging mask gdf_logging))).
  apply submseteq_length, NoDup_submseteq; [apply unique_NoDup|].
  intros c Hc. apply unique_elem in Hc. unfold column_values in Hc.
  apply list_elem_of_fmap in Hc as (m & -> & Hm).
  apply merged_row_origin in Hm as (o & a & _ & Ha & _ & Hright & _).
  rewrite Hright. apply list_elem_of_fmap. exists a. auto.
Qed.

(** X17. For a layer result of the Matcher with relevant areas, the
    Reporter prints numbers that add up: inside and near finds together are
    all the matches, areas with an inside find and areas with near finds
    only together are all the affected areas, these are at most the relevant
    areas, and the share printed is at most 100. *)
Theorem X17_layer_statistics_add_up
    (w0 w0' w : World) (r_obs : nat) (gdf_obs : GeoDataFrame)
    (logging_data : list (string * GeoDataFrame))
    (results : list (string * LayerResult)) (key : string) (res : LayerResult) :
  heap w0 !! r_obs = Some gdf_obs ->
  run_spatial_analysis r_obs logging_data w0 = (inr results, w0') ->
  dict_get key results = Some res ->
  total_relevant_count res ≠ 0%nat ->
  exists n_inuti n_nara areas_inuti areas_nara_only affected andel,
    describe_layer results key w
    = (inr tt,
       set_stdout (fun out => out ++
         [MsgLayerStats key n_inuti n_nara areas_inuti areas_nara_only affected
            (total_relevant_count res) andel]) w)
    /\ (n_inuti + n_nara)%nat = length (rows (matches res))
    /\ (areas_inuti + areas_nara_only)%nat = affected
    /\ (affected <= total_relevant_count res)%nat
    /\ (andel <= 100)%Q.
Proof.
  intros Hr Hrun Hget Hnz.
  destruct (matcher_layer_result w0 r_obs gdf_obs logging_data Hr)
    as (results' & w1 & Hrun' & Hres & _).
  rewrite Hrun in Hrun'. injection Hrun' as <- _.
  destruct (Hres key res Hget) as (gl & _ & Hlayer).
  destruct (layer_result_columns (study_area gdf_obs) gdf_obs (buffered gdf_obs) gl)
    as [Hs Hi]. rewrite <- Hlayer in Hs, Hi.
  unfold describe_layer. rewrite Hget. cbv zeta.
  unfold require_column. rewrite Hs, Hi.
  rewrite (run_bind_ok (mret tt) _ w tt w) by reflexivity.
  rewrite (run_bind_ok (mret tt) _ w tt w) by reflexivity.
  rewrite (run_bind_ok _ _ _ _ _ (true_div_nonzero _ _ w Hnz)).
  do 6 eexists. split; [reflexivity|].
  assert (Horigin : forall m, m ∈ rows (matches res) ->
            (status_of m = Inuti \/ status_of m = Nara)
            /\ exists i, get_cell "index_right" (cells m) = index_cell i).
  { intros m Hm. rewrite Hlayer in Hm.
    apply merged_row_origin in Hm as (o & a & _ & _ & _ & Hright & Hstatus).
    split; [destruct Hstatus as [(H & _)|(H & _)]; auto|eauto]. }
  assert (Hcells : forall x, x ∈ column_values "index_right" (matches res) ->
            exists i, x = index_cell i).
  { intros x Hx. unfold column_values in Hx. apply list_elem_of_fmap in Hx as (m & -> & Hm).
    now apply Horigin. }
  split; [|split; [|split]].
  - apply status_counts. intros m Hm. now apply Horigin.
  - apply unique_part_count; [exact Hcells|].
    intros x Hx. unfold column_values, filter_geo_rows in *; simpl in Hx.
    apply list_elem_of_fmap in Hx as (m & -> & Hm).
    apply list_elem_of_fmap. exists m. split; [reflexivity|].
    apply list_elem_of_In. apply list_elem_of_In, filter_In in Hm. tauto.
  - rewrite Hlayer. apply layer_result_affected_le.
  - apply share_at_most_100; [|exact Hnz]. rewrite Hlayer. apply layer_result_affected_le.
Qed.

(** ** Reporter: the workbook *)

Lemma describe_and_save_workbook r_obs results logging_data cfg w w' gdf_obs :
  heap w !! r_obs = Some gdf_obs ->
  describe_and_save r_obs results logging_data cfg w = (inr tt, w') ->
  workbook w'
  = ("Alla_Fynd", drop_geometry_column gdf_obs)
    :: omap (fun kr : string * LayerResult =>
               match rows (matches kr.2) with
               | [] => None
               | _ => Some (String.append "Träffar_" kr.1,
                            drop_geometry_column (matches kr.2))
               end) results.
Proof.
  intros Hr H. unfold describe_and_save in H.
  rewrite (run_bind_ok _ _ _ _ _ (deref_ok r_obs gdf_obs w Hr)) in H.
  apply run_bind_inv in H as (u1 & w1 & _ & H).
  apply run_bind_inv in H as (u2 & w2 & _ & H).
  cbv zeta in H.
  apply run_bind_inv in H as (y1 & w3 & _ & H).
  apply run_bind_inv in H as (y2 & w4 & _ & H).
  apply run_bind_inv in H as (u3 & w5 & _ & H).
  apply run_bind_inv in H as (u4 & w6 & _ & H).
  apply run_bind_inv in H as (u5 & w7 & _ & H).
  apply run_bind_inv in H as (ratio & w8 & _ & H).
  apply run_bind_inv in H as (u6 & w9 & _ & H).
  unfold save_workbook in H. injection H as <-. reflexivity.
Qed.

Lemma drop_geometry_column_columns g : "geometry" ∉ columns (drop_geometry_column g).
Proof.
  unfold drop_geometry_column; simpl. intros Hin.
  apply list_elem_of_In, filter_In in Hin as [_ Hin].
  rewrite bool_decide_true in Hin by reflexivity. discriminate.
Qed.

(** X19. When the Reporter returns, the workbook starts with the sheet
    [Alla_Fynd] of all observations; every layer with matches has its sheet
    of matches; there is no other sheet, so a layer without matches has
    none; and no sheet has a geometry column. *)
Theorem X19_workbook_sheets
    (w w' : World) (r_obs : nat) (gdf_obs : GeoDataFrame)
    (results : list (string * LayerResult))
    (logging_data : list (string * GeoDataFrame)) (cfg : Config) :
  heap w !! r_obs = Some gdf_obs ->
  describe_and_save r_obs results logging_data cfg w = (inr tt, w') ->
  workbook w' !! 0%nat = Some ("Alla_Fynd", drop_geometry_column gdf_obs)
  /\ (forall key res, (key, res) ∈ results -> rows (matches res) ≠ [] ->
        (String.append "Träffar_" key, drop_geometry_column (matches res)) ∈ workbook w')
  /\ (forall name sheet, (name, sheet) ∈ workbook w' ->
        ("geometry" ∉ columns sheet)
        /\ ((name = "Alla_Fynd" /\ sheet = drop_geometry_column gdf_obs)
            \/ (exists key res, (key, res) ∈ results /\ rows (matches res) ≠ []
                   /\ name = String.append "Träffar_" key
                   /\ sheet = drop_geometry_column (matches res)))).
Proof.
  intros Hr H. rewrite (describe_and_save_workbook _ _ _ _ _ _ _ Hr H).
  split; [reflexivity|]. split.
  - intros key res Hin Hrows. right. apply list_elem_of_omap. exists (key, res).
    split; [exact Hin|]. simpl. now destruct (rows (matches res)).
  - intros name sheet Hin. apply elem_of_cons in Hin as [Heq|Hin].
    + injection Heq as -> ->. split; [apply drop_geometry_column_columns|now left].
    + apply list_elem_of_omap in Hin as ([key res] & Hin & Hsheet). simpl in Hsheet.
      destruct (rows (matches res)) eqn:Hrows; [discriminate|].
      injection Hsheet as <- <-. split; [apply drop_geometry_column_columns|].
      right. exists key, res. rewrite Hrows. auto.
Qed.

(** ** The script: the observations from the Loader to the workbook *)

Lemma require_column_inv c cols w u w' :
  require_column c cols w = (inr u, w') -> w' = w /\ in_columns c cols = true.
Proof.
  unfold require_column. destruct (in_columns c cols); [|discriminate].
  intros H. injection H as _ <-. auto.
Qed.

Lemma int_year_inv t w y w' : int_year t w = (inr y, w') -> w' = w.
Proof. destruct t; [|discriminate]. intros H. now injection H as _ <-. Qed.

(** X20. In a run of the script that completes, the sheet [Alla_Fynd] holds
    the collection exactly as the Loader returned it, matched or not, with
    the geometry of the observations not buffered. *)
Theorem X20_all_loaded_observations_are_exported
    (w w1 w' : World) (gdf_obs : GeoDataFrame) :
  load_observations get_config w = (inr gdf_obs, w1) ->
  main w = (inr tt, w') ->
  workbook w' !! 0%nat = Some ("Alla_Fynd", drop_geometry_column gdf_obs).
Proof.
  intros Hload H. unfold main in H. cbv zeta in H.
  rewrite (run_bind_ok _ _ _ _ _ Hload) in H.
  set (r := length (heap w1)) in *.
  set (w2 := set_heap (fun h => h ++ [gdf_obs]) w1) in *.
  rewrite (run_bind_ok (new_object gdf_obs) _ w1 r w2) in H by reflexivity.
  apply run_bind_inv in H as (u & w3 & Hreq & H).
  apply require_column_inv in Hreq as [-> _].
  apply run_bind_inv in H as (start_year & w4 & Hyear & H).
  apply int_year_inv in Hyear as ->.
  apply run_bind_inv in H as (ld & w5 & Hlayers & H).
  apply run_bind_inv in H as (results & w6 & Hmatch & H).
  assert (Hheap5 : heap w5 = heap w2).
  { pose proof (preserves_heap_load_layers get_config
                  (total_bounds (map geometry (rows gdf_obs))) start_year
                  (layers get_config) [] w2) as Hp.
    unfold load_filtered_logging in Hlayers. now rewrite Hlayers in Hp. }
  assert (Hobs5 : heap w5 !! r = Some gdf_obs).
  { rewrite Hheap5. unfold w2; simpl. now apply list_lookup_middle. }
  destruct (run_spatial_analysis_spec w5 r gdf_obs ld Hobs5) as (w6' & Hrun & Hheap6).
  rewrite Hrun in Hmatch. injection Hmatch as _ <-.
  assert (Hobs6 : heap w6' !! r = Some gdf_obs).
  { rewrite Hheap6. now apply lookup_app_l_Some. }
  now rewrite (describe_and_save_workbook _ _ _ _ _ _ _ Hobs6 H).
Qed.

(** ** Observation Loader: the source file and the quantity of a find *)

Lemma map_column_apply (Pc : cell -> Prop) c f df :
  (forall v, Pc v -> Pc (f v)) -> column_all c Pc df -> column_all c Pc (map_column c f df).
Proof.
  intros Hf H. unfold column_all, map_column; simpl.
  apply Forall_map. eapply Forall_impl; [exact H|]. intros r Hr; simpl.
  unfold get_cell at 1. rewrite lookup_insert_eq. simpl. now apply Hf.
Qed.

Lemma normalize_text_column_closed (Pc : cell -> Prop) c df :
  (forall v, Pc v -> Pc (astype_str v)) ->
  column_all c Pc df -> column_all c Pc (normalize_text df).
Proof.
  intros Hclosed. unfold normalize_text. generalize (df_columns df) as cols.
  intros cols. revert df. induction cols as [|c' cols IH]; intros df H; [exact H|].
  cbn [fold_left]. apply IH. destruct (_ && _); [|exact H].
  destruct (decide (c' = c)) as [->|Hne].
  - now apply map_column_apply.
  - now apply map_column_other.
Qed.

Lemma column_all_impl (Pc Qc : cell -> Prop) c df :
  (forall v, Pc v -> Qc v) -> column_all c Pc df -> column_all c Qc df.
Proof. intros Himp H. unfold column_all in *. eapply Forall_impl; [exact H|]. auto. Qed.

Lemma clean_table_source cfg f df :
  clean_table cfg f = inr df -> column_all "Källa" (fun v => v = CStr (f_name f)) df.
Proof.
  unfold clean_table. cbv zeta.
  destruct (in_columns "Ost" _); [|discriminate].
  destruct (in_columns "Nord" _); [|discriminate].
  intros H. injection H as <-. now apply map_column_same.
Qed.

Lemma clean_tables_source cfg fs :
  forall dfs, clean_tables cfg fs = inr dfs ->
    Forall (column_all "Källa" (fun v => exists f, f ∈ fs /\ v = CStr (f_name f))) dfs.
Proof.
  induction fs as [|f fs IH]; intros dfs; cbn [clean_tables].
  - intros H. injection H as <-. constructor.
  - destruct (clean_table cfg f) as [e|df] eqn:Hdf; [discriminate|].
    destruct (clean_tables cfg fs) as [e|dfs'] eqn:Hdfs; [discriminate|].
    intros H. injection H as <-. constructor.
    + eapply column_all_impl; [|eapply clean_table_source, Hdf].
      intros v ->. exists f. split; [now left|reflexivity].
    + eapply Forall_impl; [apply (IH dfs' eq_refl)|]. intros d Hd.
      eapply column_all_impl; [|exact Hd].
      intros v (f' & Hf' & ->). exists f'. split; [now right|reflexivity].
Qed.

(** X22. Every observation parsed from the input files carries in [Källa]
    the name of one of the input files (a file name not being the three
    letters [nan]). *)
Theorem X22_observations_name_their_source_file
    (cfg : Config) (w w' : World) (g : GeoDataFrame) :
  parquet w !! cache_obs cfg = None ->
  (forall f, f ∈ xlsx_files w -> f_name f ≠ "nan") ->
  load_observations cfg w = (inr g, w') ->
  forall x, x ∈ rows g ->
    exists f, f ∈ xlsx_files w /\ get_cell "Källa" (cells x) = CStr (f_name f).
Proof.
  intros Hcache Hnames Hload x Hx.
  destruct (load_observations_parsed_inv cfg w g w' Hcache Hload) as [_ Hparsed].
  unfold parsed_observations in Hparsed.
  destruct (clean_tables cfg (xlsx_files w)) as [e|dfs] eqn:Hdfs; [discriminate|].
  injection Hparsed as <-.
  set (Pc := fun v : cell => exists f, f ∈ xlsx_files w /\ v = CStr (f_name f)).
  assert (Hall : column_all "Källa" Pc (normalize_text (concat_ignore_index dfs))).
  { apply normalize_text_column_closed.
    - intros v (f & Hf & ->). exists f. split; [exact Hf|].
      unfold astype_str. now rewrite bool_decide_false by (apply Hnames, Hf).
    - apply concat_ignore_index_column. exact (clean_tables_source cfg _ dfs Hdfs). }
  unfold with_point_geometry in Hx; simpl in Hx.
  apply list_elem_of_fmap in Hx as (r & -> & Hr). simpl.
  unfold column_all in Hall. rewrite Forall_forall in Hall. now apply Hall.
Qed.






(** ** The script: existing cache files *)

Lemma keeps_file_bind {A B} p c (m : Run A) (k : A -> Run B) :
  keeps_file p c m -> (forall x, keeps_file p c (k x)) -> keeps_file p c (m ≫= k).
Proof.
  intros Hm Hk w Hp. unfold mbind, run_bind. specialize (Hm w Hp).
  destruct (m w) as [[e|x] w1]; simpl in *; [exact Hm|]. now apply Hk.
Qed.

Lemma keeps_file_preserved {A} p c (m : Run A) : preserves parquet m -> keeps_file p c m.
Proof. intros H w Hp. now rewrite H. Qed.

Lemma preserves_parquet_print m : preserves parquet (print m).
Proof. intros w. reflexivity. Qed.

Lemma preserves_parquet_require c cols : preserves parquet (require_column c cols).
Proof. unfold require_column. destruct (in_columns c cols); intros w; reflexivity. Qed.

Lemma preserves_parquet_true_div a b : preserves parquet (true_div a b).
Proof. destruct b; intros w; reflexivity. Qed.

Lemma preserves_parquet_int_year t : preserves parquet (int_year t).
Proof. destruct t; intros w; reflexivity. Qed.

Lemma preserves_parquet_deref r : preserves parquet (deref r).
Proof. intros w. unfold deref. now destruct (heap w !! r). Qed.

Lemma preserves_parquet_new_object g : preserves parquet (new_object g).
Proof. intros w. reflexivity. Qed.

Lemma preserves_parquet_assign r g : preserves parquet (assign r g).
Proof. intros w. reflexivity. Qed.

Lemma preserves_parquet_save sheets : preserves parquet (save_workbook sheets).
Proof. intros w. reflexivity. Qed.

Lemma preserves_parquet_get_world : preserves parquet get_world.
Proof. intros w. reflexivity. Qed.

Lemma preserves_parquet_time_filter key start_year gdf :
  preserves parquet (time_filter key start_year gdf).
Proof.
  intros w. destruct (time_filter_run key start_year gdf w) as (w' & Hrun & Hp & _).
  now rewrite Hrun.
Qed.

Lemma preserves_parquet_clean_files cfg fs : preserves parquet (clean_files cfg fs).
Proof.
  intros w. destruct (clean_files_run cfg fs w) as (w' & Hrun & Hp & _).
  now rewrite Hrun.
Qed.

(** Writing to another path leaves the file; writing where the file is
    does not happen, the path being tested first. *)
Lemma keeps_file_to_parquet_other p c g path :
  path ≠ p -> keeps_file p c (to_parquet g path).
Proof.
  intros Hne w Hp. unfold to_parquet. destruct (bool_decide _); [exact Hp|].
  simpl. now rewrite lookup_insert_ne.
Qed.

Lemma keeps_file_write_if_absent p c g path :
  keeps_file p c (cached ← path_exists path;
                  if (cached : bool) then mret tt else to_parquet g path).
Proof.
  intros w Hp. unfold mbind, run_bind, path_exists.
  destruct (bool_decide_reflect (is_Some (parquet w !! path))) as [Hsome|Hnone].
  - exact Hp.
  - apply keeps_file_to_parquet_other; [|exact Hp].
    intros ->. apply Hnone. eauto.
Qed.

Lemma keeps_file_load_layer p c cfg bbox start_year key filename :
  keeps_file p c (load_layer cfg bbox start_year key filename).
Proof.
  unfold load_layer.
  destruct (dict_get key (cache_layers cfg)) as [path|];
    [|apply keeps_file_preserved, preserves_raise].
  apply keeps_file_bind; [apply keeps_file_preserved, preserves_path_exists|]. intros cached.
  apply keeps_file_bind.
  { apply keeps_file_preserved. destruct cached.
    - apply preserves_bind; [apply preserves_parquet_print|].
      intros; apply preserves_read_parquet.
    - apply preserves_bind; [apply preserves_parquet_print|]. intros _.
      apply preserves_bind; [apply preserves_read_file|]. intros g.
      destruct (bool_decide _); apply preserves_ret. }
  intros g.
  apply keeps_file_bind; [apply keeps_file_preserved, preserves_parquet_time_filter|].
  intros g'.
  intros w Hp.
  pose proof (keeps_file_write_if_absent p c g' path w Hp) as Hwrite.
  unfold mbind, run_bind in *.
  destruct (path_exists path w) as [[e|cached'] w1]; [exact Hwrite|].
  destruct cached'; simpl in *; [exact Hwrite|].
  destruct (to_parquet g' path w1) as [[e|u] w2]; exact Hwrite.
Qed.

Lemma keeps_file_load_layers p c cfg bbox start_year todo :
  forall acc, keeps_file p c (load_layers cfg bbox start_year todo acc).
Proof.
  induction todo as [|[key filename] todo IH]; intros acc; cbn [load_layers].
  - apply keeps_file_preserved, preserves_ret.
  - apply keeps_file_bind; [apply keeps_file_load_layer|]. intros g. apply IH.
Qed.

Lemma keeps_file_try_except {A} p c (body : Run A) (handler : Exc -> Run A) :
  keeps_file p c body -> (forall e, keeps_file p c (handler e)) ->
  keeps_file p c (try_except body handler).
Proof.
  intros Hb Hh w Hp. unfold try_except. specialize (Hb w Hp).
  destruct (body w) as [[e|x] w1]; simpl in *; [|exact Hb].
  destruct (is_Exception e); [now apply Hh|exact Hb].
Qed.

Lemma keeps_file_load_observations p c cfg : keeps_file p c (load_observations cfg).
Proof.
  intros w Hp. destruct (decide (p = cache_obs cfg)) as [->|Hne].
  - now rewrite (load_observations_cached cfg w c Hp).
  - revert w Hp. change (keeps_file p c (load_observations cfg)).
    unfold load_observations.
    apply keeps_file_bind; [apply keeps_file_preserved, preserves_path_exists|].
    intros cached. destruct cached.
    + apply keeps_file_preserved.
      apply preserves_bind; [apply preserves_parquet_print|].
      intros; apply preserves_read_parquet.
    + apply keeps_file_bind; [apply keeps_file_preserved, preserves_parquet_print|].
      intros _.
      apply keeps_file_bind; [apply keeps_file_preserved, preserves_parquet_get_world|].
      intros w0. destruct (xlsx_files w0) as [|f fs].
      * apply keeps_file_preserved.
        apply preserves_bind; [apply preserves_parquet_print|]. intros; apply preserves_raise.
      * apply keeps_file_bind;
          [apply keeps_file_preserved, preserves_parquet_clean_files|]. intros dfs.
        cbv zeta. apply keeps_file_bind; [|intros; apply keeps_file_preserved, preserves_ret].
        apply keeps_file_try_except.
        -- apply keeps_file_bind; [apply keeps_file_to_parquet_other; congruence|].
           intros; apply keeps_file_preserved, preserves_parquet_print.
        -- intros e. apply keeps_file_preserved, preserves_parquet_print.
Qed.

Lemma preserves_parquet_analyse_layers r rb mask todo :
  forall acc, preserves parquet (analyse_layers r rb mask todo acc).
Proof.
  induction todo as [|[key gl] todo IH]; intros acc; cbn [analyse_layers].
  - apply preserves_ret.
  - apply preserves_bind; [|intros; apply IH]. unfold analyse_layer. cbv zeta.
    apply preserves_bind; [apply preserves_parquet_print|]. intros _.
    apply preserves_bind; [apply preserves_parquet_deref|]. intros g.
    apply preserves_bind; [apply preserves_parquet_deref|]. intros g'.
    apply preserves_ret.
Qed.

Lemma preserves_parquet_run_spatial_analysis r logging_data :
  preserves parquet (run_spatial_analysis r logging_data).
Proof.
  unfold run_spatial_analysis.
  apply preserves_bind; [apply preserves_parquet_deref|]. intros g. cbv zeta.
  apply preserves_bind.
  { unfold copy. apply preserves_bind; [apply preserves_parquet_deref|].
    intros; apply preserves_parquet_new_object. }
  intros rb. apply preserves_bind.
  { unfold buffer_in_place. apply preserves_bind; [apply preserves_parquet_deref|].
    intros; apply preserves_parquet_assign. }
  intros _. apply preserves_parquet_analyse_layers.
Qed.

Lemma preserves_parquet_describe_layer results key :
  preserves parquet (describe_layer results key).
Proof.
  unfold describe_layer. destruct (dict_get key results); [|apply preserves_raise].
  cbv zeta. apply preserves_bind; [apply preserves_parquet_require|]. intros _.
  apply preserves_bind; [apply preserves_parquet_require|]. intros _.
  apply preserves_bind; [apply preserves_parquet_true_div|]. intros ratio.
  apply preserves_parquet_print.
Qed.

Lemma preserves_parquet_describe_and_save r results logging_data cfg :
  preserves parquet (describe_and_save r results logging_data cfg).
Proof.
  unfold describe_and_save.
  apply preserves_bind; [apply preserves_parquet_deref|]. intros g.
  apply preserves_bind; [apply preserves_parquet_require|]. intros _.
  apply preserves_bind; [apply preserves_parquet_require|]. intros _. cbv zeta.
  apply preserves_bind; [apply preserves_parquet_int_year|]. intros y1.
  apply preserves_bind; [apply preserves_parquet_int_year|]. intros y2.
  apply preserves_bind; [apply preserves_parquet_print|]. intros _.
  apply preserves_bind; [apply preserves_parquet_describe_layer|]. intros _.
  apply preserves_bind; [apply preserves_parquet_describe_layer|]. intros _.
  apply preserves_bind; [apply preserves_parquet_true_div|]. intros ratio.
  apply preserves_bind; [apply preserves_parquet_print|]. intros _.
  apply preserves_parquet_save.
Qed.

(** X24. The script never rewrites or removes a cache file that exists: a
    parquet file present before the run has the same content after it,
    whether the run completes or stops with an exception. *)
Theorem X24_existing_cache_files_are_left_alone
    (w : World) (p : string) (c : GeoDataFrame) :
  parquet w !! p = Some c ->
  parquet (snd (main w)) !! p = Some c.
Proof.
  revert w. change (keeps_file p c main). unfold main. cbv zeta.
  apply keeps_file_bind; [apply keeps_file_load_observations|]. intros g.
  apply keeps_file_bind; [apply keeps_file_preserved, preserves_parquet_new_object|].
  intros r.
  apply keeps_file_bind; [apply keeps_file_preserved, preserves_parquet_require|].
  intros _.
  apply keeps_file_bind; [apply keeps_file_preserved, preserves_parquet_int_year|].
  intros start_year.
  apply keeps_file_bind; [apply keeps_file_load_layers|]. intros ld.
  apply keeps_file_bind;
    [apply keeps_file_preserved, preserves_parquet_run_spatial_analysis|]. intros results.
  apply keeps_file_preserved, preserves_parquet_describe_and_save.
Qed.

End Facts.

(** * The program on the concrete world *)

Module Runs.
Import Boxes.

(** Closed equations between runs are settled by evaluation. *)
Ltac by_evaluation :=
  match goal with
  | |- ?a = ?b => vm_cast_no_check (@eq_refl _ b)
  end.

Local Open Scope Q_scope.

Lemma Qltb_lt a b : Qltb a b = true -> a < b.
Proof.
  unfold Qltb. intros H. apply negb_true_iff in H.
  apply Qnot_le_lt. intros Hle. apply Qle_bool_iff in Hle. congruence.
Qed.

(** Boxes are covered by their buffers. *)
Lemma box_buffer_covers : buffer_covers box_geometry.
Proof.
  intros [a|] [b|]; simpl; try discriminate.
  intros H. repeat (apply andb_prop in H as [H ?]).
  repeat match goal with
         | H : Qltb _ _ = true |- _ => apply Qltb_lt in H
         | H : Qle_bool _ _ = true |- _ => apply Qle_bool_iff in H
         end.
  repeat (apply andb_true_intro; split); apply Qle_bool_iff; simpl; lra.
Qed.

Local Close Scope Q_scope.

Lemma NoDup_labels_observations : NoDup (map index (rows observations)).
Proof. apply (bool_decide_unpack _). vm_compute. exact I. Qed.

Lemma NoDup_labels_layers key gdf_logging :
  (key, gdf_logging) ∈ logging_layers -> NoDup (map index (rows gdf_logging)).
Proof.
  intros Hin. unfold logging_layers in Hin.
  repeat (apply elem_of_cons in Hin as [Heq|Hin];
          [injection Heq as -> ->; apply (bool_decide_unpack _); vm_compute; exact I|]).
  inversion Hin.
Qed.

(** The find at (500, 500) lies in the executed loggings 0 and 2; the merged
    list keeps the pairing with logging 0 only. The find at (1000, 500) is
    near logging 1. *)
Example matcher_run :
  match run_spatial_analysis 0%nat logging_layers world_matcher with
  | (inr results, _) =>
      map (fun kr => (kr.1, map summary (rows (matches kr.2)), total_relevant_count kr.2))
          results
  | _ => []
  end
  = [("utford", [(0, index_cell 0, Inuti); (1, index_cell 1, Nara)], 4%nat);
     ("anmald", [(0, index_cell 0, Inuti); (1, index_cell 0, Inuti)], 1%nat)].
Proof. by_evaluation. Qed.

Example matcher_in_zone :
  map summary (rows (in_zone observations
                       (relevant_logging (study_area observations) utford_layer)))
  = [(0, index_cell 0, Inuti); (0, index_cell 2, Inuti)].
Proof. by_evaluation. Qed.


Lemma C5_witness :
  heap world_matcher !! 0%nat = Some observations
  /\ NoDup (map index (rows observations))
  /\ exists results w',
       run_spatial_analysis 0%nat logging_layers world_matcher = (inr results, w') /\
       forall key res, dict_get key results = Some res ->
         exists gdf_logging, (key, gdf_logging) ∈ logging_layers /\
           forall m o a,
             m ∈ rows (matches res) -> o ∈ rows observations -> a ∈ rows gdf_logging ->
             pair_of m = (index o, index_cell (index a)) ->
             (within (geometry o) (geometry a) = true -> status_of m = Inuti)
             /\ (status_of m = Nara ->
                   intersects (buffer (geometry o) 50) (geometry a) = true
                   /\ within (geometry o) (geometry a) = false).
Proof.
  split; [reflexivity|]. split; [exact NoDup_labels_observations|].
  apply (C5_status_matches_geometry world_matcher 0%nat observations logging_layers).
  - reflexivity.
  - exact NoDup_labels_observations.
  - exact NoDup_labels_layers.
Defined.

Lemma C6_witness :
  buffer_covers box_geometry
  /\ let relevant := relevant_logging (study_area observations) utford_layer in
     let inside := rows (in_zone observations relevant) in
     let near := rows (all_near (buffered observations) relevant) in
     (forall x, x ∈ inside -> pair_of x ∈ map pair_of near)
     /\ (length inside <= length near)%nat.
Proof.
  split; [exact box_buffer_covers|].
  apply (C6_inside_pairs_among_near_pairs observations utford_layer).
  exact box_buffer_covers.
Defined.

Lemma C10_witness :
  heap world_matcher !! 0%nat = Some observations
  /\ exists results w',
       run_spatial_analysis 0%nat logging_layers world_matcher = (inr results, w')
       /\ heap w' !! 0%nat = Some observations
       /\ (forall r, (r < length (heap world_matcher))%nat ->
             heap w' !! r = heap world_matcher !! r)
       /\ heap w' !! length (heap world_matcher) = Some (buffered observations).
Proof.
  split; [reflexivity|].
  apply (C10_observations_not_mutated world_matcher 0%nat observations logging_layers).
  reflexivity.
Defined.



(** C4 as stated fails: the cached executed layer has four areas, and the
    Loader returns the two of them dated from 2016 on. *)
Lemma C4_cached_layer_is_filtered_again :
  parquet world_cached !! "utford_cache.parquet" = Some utford_layer
  /\ map index (rows utford_layer) = [0; 1; 2; 3]
  /\ match load_filtered_logging get_config empty_bbox 2016 world_cached with
     | (inr ld, _) => option_map (fun g => map index (rows g)) (dict_get "utford" ld)
     | _ => None
     end = Some [0; 1].
Proof.
  split; [by_evaluation|].
  split; by_evaluation.
Qed.

Lemma layers_cached kf :
  kf ∈ layers get_config -> is_Some (cached_frame get_config (parquet world_cached) kf.1).
Proof.
  intros Hin. unfold get_config in Hin; simpl in Hin.
  repeat (apply elem_of_cons in Hin as [->|Hin];
          [apply (bool_decide_unpack _); vm_compute; exact I|]).
  inversion Hin.
Qed.

Lemma C4_witness :
  (forall kf, kf ∈ layers get_config ->
     is_Some (cached_frame get_config (parquet world_cached) kf.1))
  /\ exists ld w',
       load_filtered_logging get_config empty_bbox 2016 world_cached = (inr ld, w')
       /\ parquet w' = parquet world_cached
       /\ (forall key filename cached,
             (key, filename) ∈ layers get_config ->
             cached_frame get_config (parquet world_cached) key = Some cached ->
             dict_get key ld = Some (year_filtered key 2016 cached))
       /\ (forall bbox2, exists w2,
             load_filtered_logging get_config bbox2 2016 w' = (inr ld, w2)).
Proof.
  split; [exact layers_cached|].
  apply (C4_cached_layers_are_time_filtered_only get_config empty_bbox 2016 world_cached).
  exact layers_cached.
Defined.

(** The executed layer of the example: the undated area and the area of
    2010 leave, without an exception. *)
Example time_filter_run_utford :
  match time_filter "utford" 2016 utford_layer world0 with
  | (inr out, _) => Some (map index (rows out))
  | _ => None
  end = Some [0; 1].
Proof. by_evaluation. Qed.



(** C7. Where the cache of a layer cannot be written, the exception of
    [to_parquet] leaves the Logging Layer Loader and ends the run, whereas
    the same failure on the observation cache is caught: the run goes on and
    prints the warning. *)
Theorem C7_layer_cache_write_failure_ends_the_run :
  fst (load_filtered_logging get_config empty_bbox 2016 world_layer_cache_locked)
  = inl (OSError "utford_cache.parquet")
  /\ fst (main world_layer_cache_locked) = inl (OSError "utford_cache.parquet")
  /\ fst (main world_obs_cache_locked) = inr tt
  /\ take 3 (stdout (snd (main world_obs_cache_locked)))
     = [MsgReadingDir; MsgReadingFile "fynd.xlsx";
        MsgObsCacheWarning (OSError "Art_cache.parquet")].
Proof.
  split; [by_evaluation|].
  split; [by_evaluation|].
  split; by_evaluation.
Qed.

(** C3. With no reported logging among the relevant areas, the count of
    relevant areas is 0 and the share of line 274 is a division by zero: the
    Reporter raises instead of printing 0 percent. *)
Theorem C3_zero_relevant_areas_raise :
  fst (main world_no_reported) = inl ZeroDivisionError
  /\ stdout (snd (main world_no_reported)) !! 7%nat = Some (MsgMatching 0 "anmald").
Proof. split; by_evaluation. Qed.

(** ** The further properties on the concrete world *)

Lemma X1_witness :
  parquet world0 !! cache_obs get_config = None
  /\ (cache_obs get_config ∉ unwritable world0)
  /\ exists g w',
       load_observations get_config world0 = (inr g, w')
       /\ parquet w' !! cache_obs get_config = Some g
       /\ forall v, parquet v !! cache_obs get_config = parquet w' !! cache_obs get_config ->
            load_observations get_config v
            = (inr g, set_stdout
                        (fun out => out ++ [MsgObsFromCache (cache_obs get_config)]) v).
Proof.
  assert (Hnone : parquet world0 !! cache_obs get_config = None) by by_evaluation.
  assert (Hok : cache_obs get_config ∉ unwritable world0).
  { intros Hin. inversion Hin. }
  assert (Hload : load_observations get_config world0
                  = (inr (returned (load_observations get_config world0)),
                     snd (load_observations get_config world0))) by by_evaluation.
  split; [exact Hnone|]. split; [exact Hok|]. eexists _, _. split; [exact Hload|].
  exact (X1_observation_cache_round_trip get_config world0 _ _ Hnone Hok Hload).
Defined.

Lemma X2_witness :
  parquet world_no_files !! cache_obs get_config = None
  /\ xlsx_files world_no_files = []
  /\ exists w',
       load_observations get_config world_no_files = (inl SystemExit, w')
       /\ stdout w' = stdout world_no_files ++ [MsgReadingDir; MsgNoFiles]
       /\ parquet w' = parquet world_no_files.
Proof.
  assert (Hnone : parquet world_no_files !! cache_obs get_config = None) by by_evaluation.
  split; [exact Hnone|]. split; [reflexivity|].
  exact (X2_no_input_files_exit get_config world_no_files Hnone eq_refl).
Defined.

Lemma X3_witness :
  parquet world_without_ost !! cache_obs get_config = None
  /\ fynd_without_ost ∈ xlsx_files world_without_ost
  /\ ("Ost" ∉ df_columns (f_sheet fynd_without_ost))
  /\ exists c' w',
       load_observations get_config world_without_ost = (inl (KeyError c'), w')
       /\ (c' = "Ost" \/ c' = "Nord")
       /\ parquet w' = parquet world_without_ost.
Proof.
  assert (Hnone : parquet world_without_ost !! cache_obs get_config = None) by by_evaluation.
  assert (Hin : fynd_without_ost ∈ xlsx_files world_without_ost).
  { right. left. }
  assert (Hmiss : "Ost" ∉ df_columns (f_sheet fynd_without_ost)).
  { apply (bool_decide_unpack _). vm_compute. exact I. }
  split; [exact Hnone|]. split; [exact Hin|]. split; [exact Hmiss|].
  exact (X3_missing_coordinate_column_raises get_config world_without_ost
           fynd_without_ost "Ost" Hnone Hin (or_introl eq_refl) Hmiss).
Defined.

Lemma X4_witness :
  exists g w',
    load_observations get_config world0 = (inr g, w')
    /\ forall x, x ∈ rows g ->
         exists ost nord,
           get_cell "Ost" (cells x) = CNum ost
           /\ get_cell "Nord" (cells x) = CNum nord
           /\ geometry x = points_from_xy ost nord.
Proof.
  assert (Hnone : parquet world0 !! cache_obs get_config = None) by by_evaluation.
  assert (Hload : load_observations get_config world0
                  = (inr (returned (load_observations get_config world0)),
                     snd (load_observations get_config world0))) by by_evaluation.
  eexists _, _. split; [exact Hload|].
  exact (X4_parsed_observations_have_coordinates get_config world0 _ _ Hnone Hload).
Defined.

Lemma X5_witness :
  exists g w',
    load_observations get_config world0 = (inr g, w')
    /\ map index (rows g) = map Z.of_nat (seq 0 (length (rows g)))
    /\ NoDup (map index (rows g)).
Proof.
  assert (Hnone : parquet world0 !! cache_obs get_config = None) by by_evaluation.
  assert (Hload : load_observations get_config world0
                  = (inr (returned (load_observations get_config world0)),
                     snd (load_observations get_config world0))) by by_evaluation.
  eexists _, _. split; [exact Hload|].
  exact (X5_parsed_observations_are_numbered get_config world0 _ _ Hnone Hload).
Defined.


Lemma X7_witness :
  dict_get "utford" (cache_layers get_config) = Some "utford_cache.parquet"
  /\ parquet world0 !! "utford_cache.parquet" = None
  /\ exists g w',
       load_layer get_config wide_bbox 2016 "utford" "sksUtfordAvverk.gpkg" world0
       = (inr g, w')
       /\ parquet w' !! "utford_cache.parquet" = Some g
       /\ forall v bbox2 filename2,
            parquet v !! "utford_cache.parquet" = Some g ->
            exists v',
              load_layer get_config bbox2 2016 "utford" filename2 v = (inr g, v')
              /\ parquet v' = parquet v.
Proof.
  assert (Hpath : dict_get "utford" (cache_layers get_config) = Some "utford_cache.parquet")
    by by_evaluation.
  assert (Hnone : parquet world0 !! "utford_cache.parquet" = None) by by_evaluation.
  set (run := load_layer get_config wide_bbox 2016 "utford" "sksUtfordAvverk.gpkg" world0).
  assert (Hload : run = (inr (returned run), snd run)) by by_evaluation.
  split; [exact Hpath|]. split; [exact Hnone|]. eexists _, _. split; [exact Hload|].
  exact (X7_layer_cache_round_trip get_config wide_bbox 2016 "utford" _ _ world0 _ _
           Hpath Hnone Hload).
Defined.


Lemma X9_witness :
  exists g w',
    load_layer get_config wide_bbox 2016 "utford" "sksUtfordAvverk.gpkg" world0 = (inr g, w')
    /\ crs g = cfg_crs get_config /\ NoDup (map index (rows g)).
Proof.
  assert (Hpath : dict_get "utford" (cache_layers get_config) = Some "utford_cache.parquet")
    by by_evaluation.
  assert (Hnone : parquet world0 !! "utford_cache.parquet" = None) by by_evaluation.
  set (run := load_layer get_config wide_bbox 2016 "utford" "sksUtfordAvverk.gpkg" world0).
  assert (Hload : run = (inr (returned run), snd run)) by by_evaluation.
  eexists _, _. split; [exact Hload|].
  exact (X9_fresh_layer_reference_system_and_labels get_config wide_bbox 2016 "utford" _ _
           world0 _ _ Hpath Hnone Hload).
Defined.

Lemma X10_witness :
  exists g w',
    load_layer get_config wide_bbox 2016 "utford" "sksUtfordAvverk.gpkg" world0 = (inr g, w')
    /\ exists src,
         gpkg world0 !! "sksUtfordAvverk.gpkg" = Some src /\
         forall x, x ∈ rows g ->
           exists r, r ∈ rows src /\ bbox_hit wide_bbox (geometry r) = true
             /\ geometry x = if bool_decide (crs src = cfg_crs get_config) then geometry r
                             else reproject (crs src) (cfg_crs get_config) (geometry r).
Proof.
  assert (Hpath : dict_get "utford" (cache_layers get_config) = Some "utford_cache.parquet")
    by by_evaluation.
  assert (Hnone : parquet world0 !! "utford_cache.parquet" = None) by by_evaluation.
  set (run := load_layer get_config wide_bbox 2016 "utford" "sksUtfordAvverk.gpkg" world0).
  assert (Hload : run = (inr (returned run), snd run)) by by_evaluation.
  eexists _, _. split; [exact Hload|].
  exact (X10_fresh_layer_rows_meet_bounding_box get_config wide_bbox 2016 "utford" _ _
           world0 _ _ Hpath Hnone Hload).
Defined.

Lemma X11_witness :
  heap world_matcher !! 0%nat = Some observations
  /\ exists results w',
       run_spatial_analysis 0%nat logging_layers world_matcher = (inr results, w') /\
       forall key res, dict_get key results = Some res ->
         (length (unique (column_values "index_right" (matches res)))
          <= total_relevant_count res)%nat.
Proof.
  split; [reflexivity|].
  exact (X11_affected_areas_at_most_relevant world_matcher 0%nat observations
           logging_layers eq_refl).
Defined.


Lemma X13_witness :
  heap world_matcher !! 0%nat = Some observations
  /\ exists results w',
       run_spatial_analysis 0%nat logging_layers world_matcher = (inr results, w') /\
       forall key res, dict_get key results = Some res ->
         (forall m, m ∈ rows (matches res) -> index m ∈ map index (rows observations))
         /\ (length (rows (matches res)) <= length (rows observations))%nat.
Proof.
  split; [reflexivity|].
  exact (X13_matches_at_most_observations world_matcher 0%nat observations
           logging_layers eq_refl).
Defined.

Lemma X14_witness :
  heap world_matcher !! 0%nat = Some observations
  /\ NoDup (map index (rows observations))
  /\ exists results w',
       run_spatial_analysis 0%nat logging_layers world_matcher = (inr results, w') /\
       forall key res m, dict_get key results = Some res -> m ∈ rows (matches res) ->
         (status_of m = Inuti \/ status_of m = Nara)
         /\ forall o, o ∈ rows observations -> index o = index m ->
              (status_of m = Inuti -> geometry m = geometry o)
              /\ (status_of m = Nara -> geometry m = buffer (geometry o) 50).
Proof.
  split; [reflexivity|]. split; [exact NoDup_labels_observations|].
  exact (X14_match_geometry_by_status world_matcher 0%nat observations
           logging_layers eq_refl NoDup_labels_observations).
Defined.


Lemma X16_witness :
  heap world_matcher !! 0%nat = Some observations
  /\ exists results w',
       run_spatial_analysis 0%nat logging_layers world_matcher = (inr results, w') /\
       forall key, is_Some (dict_get key results) <-> is_Some (dict_get key logging_layers).
Proof.
  split; [reflexivity|].
  exact (X16_one_result_per_layer world_matcher 0%nat observations logging_layers eq_refl).
Defined.

Lemma X17_witness :
  run_spatial_analysis 0%nat logging_layers world_matcher
  = (inr matcher_results, snd (run_spatial_analysis 0%nat logging_layers world_matcher))
  /\ dict_get "utford" matcher_results = Some utford_result
  /\ total_relevant_count utford_result ≠ 0%nat
  /\ exists n_inuti n_nara areas_inuti areas_nara_only affected andel,
       describe_layer matcher_results "utford" world_matcher
       = (inr tt,
          set_stdout (fun out => out ++
            [MsgLayerStats "utford" n_inuti n_nara areas_inuti areas_nara_only affected
               (total_relevant_count utford_result) andel]) world_matcher)
       /\ (n_inuti + n_nara)%nat = length (rows (matches utford_result))
       /\ (areas_inuti + areas_nara_only)%nat = affected
       /\ (affected <= total_relevant_count utford_result)%nat
       /\ (andel <= 100)%Q.
Proof.
  assert (Hrun : run_spatial_analysis 0%nat logging_layers world_matcher
                 = (inr matcher_results,
                    snd (run_spatial_analysis 0%nat logging_layers world_matcher)))
    by by_evaluation.
  assert (Hget : dict_get "utford" matcher_results = Some utford_result) by by_evaluation.
  assert (Hnz : total_relevant_count utford_result ≠ 0%nat).
  { replace (total_relevant_count utford_result) with 4%nat by by_evaluation. discriminate. }
  split; [exact Hrun|]. split; [exact Hget|]. split; [exact Hnz|].
  exact (X17_layer_statistics_add_up world_matcher _ world_matcher 0%nat observations
           logging_layers matcher_results "utford" utford_result eq_refl Hrun Hget Hnz).
Defined.

Lemma X18_witness :
  exists e w',
    describe_and_save 0%nat [] logging_layers get_config world_matcher = (inl e, w')
    /\ workbook w' = workbook world_matcher.
Proof.
  exact (X18_missing_layer_result_raises world_matcher 0%nat [] logging_layers get_config
           (or_introl eq_refl)).
Defined.

Lemma X19_witness :
  exists w',
    describe_and_save 0%nat matcher_results logging_layers get_config world_matcher
    = (inr tt, w')
    /\ workbook w' !! 0%nat = Some ("Alla_Fynd", drop_geometry_column observations)
    /\ (forall key res, (key, res) ∈ matcher_results -> rows (matches res) ≠ [] ->
          (String.append "Träffar_" key, drop_geometry_column (matches res)) ∈ workbook w')
    /\ (forall name sheet, (name, sheet) ∈ workbook w' ->
          ("geometry" ∉ columns sheet)
          /\ ((name = "Alla_Fynd" /\ sheet = drop_geometry_column observations)
              \/ (exists key res, (key, res) ∈ matcher_results /\ rows (matches res) ≠ []
                     /\ name = String.append "Träffar_" key
                     /\ sheet = drop_geometry_column (matches res)))).
Proof.
  set (run := describe_and_save 0%nat matcher_results logging_layers get_config world_matcher).
  assert (Hrun : run = (inr tt, snd run)) by by_evaluation.
  exists (snd run). split; [exact Hrun|].
  exact (X19_workbook_sheets world_matcher (snd run) 0%nat observations matcher_results
           logging_layers get_config eq_refl Hrun).
Defined.

Lemma completed_run (r : (Exc + unit) * World) :
  fst r = inr tt -> r = (inr tt, snd r).
Proof. destruct r as [[e|[]] w]; simpl; [discriminate|reflexivity]. Qed.

Lemma X20_witness :
  exists g w1 w',
    load_observations get_config world0 = (inr g, w1)
    /\ main world0 = (inr tt, w')
    /\ workbook w' !! 0%nat = Some ("Alla_Fynd", drop_geometry_column g).
Proof.
  assert (Hload : load_observations get_config world0
                  = (inr (returned (load_observations get_config world0)),
                     snd (load_observations get_config world0))) by by_evaluation.
  assert (Hmain : main world0 = (inr tt, snd (main world0)))
    by (apply completed_run; by_evaluation).
  eexists _, _, _. split; [exact Hload|]. split; [exact Hmain|].
  exact (X20_all_loaded_observations_are_exported world0 _ _ _ Hload Hmain).
Defined.

Lemma X21_witness :
  exists ld w',
    load_filtered_logging get_config wide_bbox 2016 world0 = (inr ld, w')
    /\ (forall key filename, (key, filename) ∈ layers get_config ->
          is_Some (dict_get key ld)
          /\ exists path, dict_get key (cache_layers get_config) = Some path
                          /\ is_Some (parquet w' !! path))
    /\ (forall p, is_Some (parquet world0 !! p) -> is_Some (parquet w' !! p)).
Proof.
  set (run := load_filtered_logging get_config wide_bbox 2016 world0).
  assert (Hload : run = (inr (returned_layers run), snd run)) by by_evaluation.
  eexists _, _. split; [exact Hload|].
  exact (X21_loader_leaves_every_layer_cached get_config wide_bbox 2016 world0 _ _ Hload).
Defined.

Lemma X22_witness :
  (forall f, f ∈ xlsx_files world0 -> f_name f ≠ "nan")
  /\ exists g w',
       load_observations get_config world0 = (inr g, w')
       /\ forall x, x ∈ rows g ->
            exists f, f ∈ xlsx_files world0 /\ get_cell "Källa" (cells x) = CStr (f_name f).
Proof.
  assert (Hnames : forall f, f ∈ xlsx_files world0 -> f_name f ≠ "nan").
  { intros f Hf. apply elem_of_cons in Hf as [->|Hf]; [discriminate|inversion Hf]. }
  assert (Hnone : parquet world0 !! cache_obs get_config = None) by by_evaluation.
  assert (Hload : load_observations get_config world0
                  = (inr (returned (load_observations get_config world0)),
                     snd (load_observations get_config world0))) by by_evaluation.
  split; [exact Hnames|]. eexists _, _. split; [exact Hload|].
  exact (X22_observations_name_their_source_file get_config world0 _ _ Hnone Hnames Hload).
Defined.


Lemma X24_witness :
  parquet world_cached !! "utford_cache.parquet" = Some utford_layer
  /\ parquet (snd (main world_cached)) !! "utford_cache.parquet" = Some utford_layer.
Proof.
  assert (Hfile : parquet world_cached !! "utford_cache.parquet" = Some utford_layer)
    by by_evaluation.
  split; [exact Hfile|].
  exact (X24_existing_cache_files_are_left_alone world_cached _ _ Hfile).
Defined.

End Runs.
